(** * wx-listener: the group monitor of [app.py]

    A shallow embedding of the [WeChatMonitor] class and of the
    [/api/notifications] route of [app.py], and the properties of the
    configuration store, the notification store, the classifier/extractor
    and the listener manager that the specification states.

    Conventions.
    - A Python [str] is a sequence of Unicode code points ([pystr]); [len],
      slicing, [in], [find] and [strip] count code points, as in Python.
    - The values that [json.load] produces and [json.dump] consumes are the
      type [json]; a [dict] is an association list in insertion order.
      JSON numbers with a fraction or an exponent (Python floats) are left
      out: no field of the program holds one.
    - The interpreter state that the methods touch (the two files under
      [data/], [monitor.config], [monitor.active_listeners]) and what they
      do to the outside (requests posted to the model, chats registered with
      the chat client, files written) is the record [World]; a method is a
      function [World -> result A * World], a raised exception included.
    - [json.dumps], [json.loads], [str.lower] and the remote model are the
      library's and the vendor's: they are variables of the section
      [Monitor], and a statement that needs the decoder to read back what
      the encoder wrote says so ([roundtrips]).  So is the exception, if
      any, that [json.dump] raises while it writes a value ([dump_error]):
      the library raises on a string that its stream cannot encode and on
      a value that it cannot walk, and a statement that needs a write to
      complete says so.
    - The two files are opened as UTF-8 and the standard output is taken to
      be UTF-8 too.  A Python string may hold a lone surrogate, which UTF-8
      does not encode: [print] of such a string raises, in the methods
      that print what the model answered or what the chat sent.
    - What a file holds is a [content]: a text, which the decoder reads or
      rejects with [JSONDecodeError], or a content on which [json.load]
      raises something else, or the unfinished document that a [json.dump]
      which raised leaves behind.
    - A reference codec for JSON without floats ([ref_dumps],
      [ref_dump_error], [ref_loads]) instantiates the variables at the
      sample inputs below, none of which holds a float or goes beyond what
      the interpreter allows for the digits of an integer and the depth of
      a nesting; it is proved to read back every value that it writes
      ([ref_loads_dumps]). *)

From Stdlib Require Import List NArith ZArith String Ascii Bool Lia.
Import ListNotations.

Set Implicit Arguments.

(** ** Python strings *)

Definition pystr : Type := list N.

(** Decoding of a UTF-8 byte sequence, used only to write the string
    constants of the source as literals. *)
Fixpoint utf8_decode (fuel : nat) (bs : list N) : pystr :=
  match fuel with
  | O => []
  | S fuel' =>
    match bs with
    | [] => []
    | b0 :: r0 =>
      if (b0 <? 128)%N then b0 :: utf8_decode fuel' r0
      else if (b0 <? 224)%N then
        match r0 with
        | b1 :: r1 => ((b0 - 192) * 64 + (b1 - 128))%N :: utf8_decode fuel' r1
        | _ => []
        end
      else if (b0 <? 240)%N then
        match r0 with
        | b1 :: b2 :: r2 =>
            ((b0 - 224) * 4096 + (b1 - 128) * 64 + (b2 - 128))%N
              :: utf8_decode fuel' r2
        | _ => []
        end
      else
        match r0 with
        | b1 :: b2 :: b3 :: r3 =>
            ((b0 - 240) * 262144 + (b1 - 128) * 4096 + (b2 - 128) * 64
             + (b3 - 128))%N :: utf8_decode fuel' r3
        | _ => []
        end
    end
  end.

Definition str (s : string) : pystr :=
  let bs := map N_of_ascii (list_ascii_of_string s) in
  utf8_decode (List.length bs) bs.

(** A literal in which the apostrophe stands for the double quote. *)
Definition dq (s : string) : pystr :=
  map (fun c => if (c =? 39)%N then 34%N else c) (str s).

Fixpoint str_eqb (a b : pystr) : bool :=
  match a, b with
  | [], [] => true
  | x :: a', y :: b' => (x =? y)%N && str_eqb a' b'
  | _, _ => false
  end.

(** [s.startswith(p)] *)
Fixpoint startswith (p s : pystr) : bool :=
  match p, s with
  | [], _ => true
  | x :: p', y :: s' => (x =? y)%N && startswith p' s'
  | _ :: _, [] => false
  end.

(** [needle in hay] on two strings. *)
Fixpoint contains (needle hay : pystr) : bool :=
  match hay with
  | [] => startswith needle []
  | _ :: t => startswith needle hay || contains needle t
  end.

(** The substring relation that [contains] decides. *)
Definition occurs (needle hay : pystr) : Prop :=
  exists pre post, hay = pre ++ needle ++ post.

(** [s.find(sub)], counting from position [i] of the whole string. *)
Fixpoint find_from (sub s : pystr) (i : Z) : Z :=
  match s with
  | [] => if startswith sub [] then i else (-1)%Z
  | _ :: t => if startswith sub s then i else find_from sub t (i + 1)%Z
  end.

Definition find (s sub : pystr) : Z := find_from sub s 0%Z.

(** [s.rfind(sub)]: the highest position, or -1. *)
Fixpoint rfind_from (sub s : pystr) (i : Z) : Z :=
  match s with
  | [] => if startswith sub [] then i else (-1)%Z
  | _ :: t =>
      let r := rfind_from sub t (i + 1)%Z in
      if (0 <=? r)%Z then r else if startswith sub s then i else (-1)%Z
  end.

Definition rfind (s sub : pystr) : Z := rfind_from sub s 0%Z.

(** [s[start:stop]] for [0 <= start <= stop]. *)
Definition slice (s : pystr) (start stop : Z) : pystr :=
  firstn (Z.to_nat (stop - start)) (skipn (Z.to_nat start) s).

(** [str.isspace] on one code point. *)
Definition isspace (c : N) : bool :=
  ((9 <=? c) && (c <=? 13) || (28 <=? c) && (c <=? 32) || (c =? 133)
   || (c =? 160) || (c =? 5760) || (8192 <=? c) && (c <=? 8202)
   || (c =? 8232) || (c =? 8233) || (c =? 8239) || (c =? 8287)
   || (c =? 12288))%N.

Fixpoint lstrip (s : pystr) : pystr :=
  match s with
  | [] => []
  | c :: t => if isspace c then lstrip t else s
  end.

Definition rstrip (s : pystr) : pystr := rev (lstrip (rev s)).

(** [s.strip()] *)
Definition strip (s : pystr) : pystr := rstrip (lstrip s).

(** A lone surrogate, U+D800 to U+DFFF, is a code point that UTF-8 does not
    encode: writing a string that holds one to a UTF-8 stream raises
    [UnicodeEncodeError]. *)
Definition is_surrogate (c : N) : bool := ((55296 <=? c) && (c <=? 57343))%N.

Definition encodable (s : pystr) : bool :=
  forallb (fun c => negb (is_surrogate c)) s.

(** ** JSON values, as Python objects *)

#[warnings="-register-all"]
Inductive json : Type :=
| JNull                                   (* None *)
| JBool (b : bool)
| JNum (n : Z)
| JStr (s : pystr)
| JArr (items : list json)
| JObj (members : list (pystr * json)).

Definition dict : Type := list (pystr * json).

(** The operations of a [dict] whose keys are strings, for any type of
    values: [monitor.active_listeners] holds booleans. *)
Fixpoint dict_get {V : Type} (k : pystr) (d : list (pystr * V)) : option V :=
  match d with
  | [] => None
  | (k', v) :: d' => if str_eqb k k' then Some v else dict_get k d'
  end.

(** [k in d] *)
Definition dict_has {V : Type} (k : pystr) (d : list (pystr * V)) : bool :=
  match dict_get k d with Some _ => true | None => false end.

(** [d[k] = v]: in place when the key is there, at the end otherwise. *)
Fixpoint dict_set {V : Type} (k : pystr) (v : V) (d : list (pystr * V))
  : list (pystr * V) :=
  match d with
  | [] => [(k, v)]
  | (k', v') :: d' =>
      if str_eqb k k' then (k', v) :: d' else (k', v') :: dict_set k v d'
  end.

(** [del d[k]] *)
Fixpoint dict_del {V : Type} (k : pystr) (d : list (pystr * V))
  : list (pystr * V) :=
  match d with
  | [] => []
  | (k', v') :: d' =>
      if str_eqb k k' then d' else (k', v') :: dict_del k d'
  end.

(** [{**a, **b}] *)
Definition dict_update (a b : dict) : dict :=
  fold_left (fun acc kv => dict_set (fst kv) (snd kv) acc) b a.

(** ** Exceptions *)

Inductive exn : Type :=
| FileNotFoundError | JSONDecodeError | AttributeError | KeyError
| IndexError | TypeError | ValueError | UnboundLocalError
| UnicodeEncodeError | UnicodeDecodeError | RecursionError.

Inductive result (A : Type) : Type :=
| Ok (a : A)
| Raise (e : exn).
Arguments Ok {A} a.
Arguments Raise {A} e.

Definition rbind {A B} (r : result A) (k : A -> result B) : result B :=
  match r with
  | Ok a => k a
  | Raise e => Raise e
  end.

Notation "'let?' x ':=' r 'in' k" := (rbind r (fun x => k))
  (at level 10, x name, r at level 100, k at level 200).

(** ** Python operators on JSON values *)

(** [bool(v)] *)
Definition truthy (v : json) : bool :=
  match v with
  | JNull => false
  | JBool b => b
  | JNum n => negb (n =? 0)%Z
  | JStr s => match s with [] => false | _ => true end
  | JArr l => match l with [] => false | _ => true end
  | JObj d => match d with [] => false | _ => true end
  end.

(** [v == s] for a string [s]. *)
Definition eq_str (v : json) (s : pystr) : bool :=
  match v with
  | JStr t => str_eqb t s
  | _ => false
  end.

(** [s in v] for a string [s]: a key of a dict, an element of a list, a
    substring of a string; the other values are not containers. *)
Definition py_in (s : pystr) (v : json) : result bool :=
  match v with
  | JObj d => Ok (dict_has s d)
  | JArr l => Ok (existsb (fun x => eq_str x s) l)
  | JStr t => Ok (contains s t)
  | _ => Raise TypeError
  end.

(** [v[k]] for a string [k]. *)
Definition getitem (v : json) (k : pystr) : result json :=
  match v with
  | JObj d => match dict_get k d with Some x => Ok x | None => Raise KeyError end
  | _ => Raise TypeError
  end.

(** [v[0]] *)
Definition getitem0 (v : json) : result json :=
  match v with
  | JArr (x :: _) => Ok x
  | JArr [] => Raise IndexError
  | JStr (c :: _) => Ok (JStr [c])
  | JStr [] => Raise IndexError
  | JObj _ => Raise KeyError
  | _ => Raise TypeError
  end.

(** [v[k] = x] for a string [k]. *)
Definition setitem (v : json) (k : pystr) (x : json) : result json :=
  match v with
  | JObj d => Ok (JObj (dict_set k x d))
  | _ => Raise TypeError
  end.

(** The items that [for x in v] visits. *)
Definition py_iter (v : json) : result (list json) :=
  match v with
  | JArr l => Ok l
  | JObj d => Ok (map (fun kv => JStr (fst kv)) d)
  | JStr s => Ok (map (fun c => JStr [c]) s)
  | _ => Raise TypeError
  end.

(** [v.get(k, default)] *)
Definition dict_method_get (v : json) (k : pystr) (default : json)
  : result json :=
  match v with
  | JObj d => Ok (match dict_get k d with Some x => x | None => default end)
  | _ => Raise AttributeError
  end.

(** [v.strip()] *)
Definition py_strip (v : json) : result pystr :=
  match v with
  | JStr s => Ok (strip s)
  | _ => Raise AttributeError
  end.

(** [v.append(x)] *)
Definition py_append (v x : json) : result json :=
  match v with
  | JArr l => Ok (JArr (l ++ [x]))
  | _ => Raise AttributeError
  end.

Fixpoint remove_first (s : pystr) (l : list json) : list json :=
  match l with
  | [] => []
  | x :: r => if eq_str x s then r else x :: remove_first s r
  end.

(** [v.remove(s)] for a string [s] that is [in v]. *)
Definition py_remove (v : json) (s : pystr) : result json :=
  match v with
  | JArr l => Ok (JArr (remove_first s l))
  | _ => Raise AttributeError
  end.

(** [len(v)] *)
Definition py_len (v : json) : result nat :=
  match v with
  | JArr l => Ok (List.length l)
  | JObj d => Ok (List.length d)
  | JStr s => Ok (List.length s)
  | _ => Raise TypeError
  end.

(** [print(v)] on a UTF-8 standard output.  A string is written as it is
    and raises when it holds a lone surrogate; of any other value of the
    program the [repr] is written, which escapes such code points.  A
    string that an f-string builds from constants of the source, from
    messages of exceptions and from values is encodable exactly when the
    strings among these values are: the constants and the messages are. *)
Definition py_print (v : json) : result unit :=
  match v with
  | JStr s => if encodable s then Ok tt else Raise UnicodeEncodeError
  | _ => Ok tt
  end.

(** What a file holds, as [json.load] on the file opened as UTF-8 can tell:
    a text, which the decoder reads or rejects with [JSONDecodeError]; or a
    content on which the call raises [e] instead: [UnicodeDecodeError] on
    bytes that are no UTF-8, [ValueError] on an integer of more than 4300
    digits, [RecursionError] on a nesting too deep, and [JSONDecodeError]
    on what a [json.dump] that raised has left of a document, which lacks
    at least its closing bracket. *)
Inductive content : Type :=
| Text (text : pystr)
| Unreadable (e : exn).

(** What [json.load] is handed: an open file, or some other value. *)
Inductive pyobj : Type :=
| File (c : content)
| Val (v : json).

(** [fp.read()], as far as [json.load] gets with it: only a file has the
    method. *)
Definition fp_read (fp : pyobj) : result pystr :=
  match fp with
  | File (Text text) => Ok text
  | File (Unreadable e) => Raise e
  | Val _ => Raise AttributeError
  end.

(** ** The world of the monitor *)

Inductive path : Type :=
| CONFIG_FILE            (* 'data/config.json' *)
| NOTIFICATIONS_FILE.    (* 'data/notifications.json' *)

(** What a method does to the outside, in the order it does it. *)
Inductive event : Type :=
| EvWrite (p : path) (text : pystr)       (* open(p, 'w') and json.dump *)
| EvTruncate (p : path)                   (* open(p, 'w'), json.dump raised *)
| EvPost (prompt : pystr)                 (* requests.post to the model *)
| EvAddListenChat (nickname : pystr)      (* wx.AddListenChat *)
| EvRemoveListenChat (nickname : pystr).  (* wx.RemoveListenChat *)

Record World : Type := mkWorld {
  config_file : option content;        (* None: the file does not exist *)
  notifications_file : option content;
  self_config : json;                  (* monitor.config *)
  active_listeners : list (pystr * bool);   (* monitor.active_listeners *)
  trace : list event                   (* most recent first *)
}.

(** A method: it returns or raises, and leaves a world behind either way. *)
Definition M (A : Type) : Type := World -> result A * World.

Definition ret {A} (a : A) : M A := fun w => (Ok a, w).

Definition lift {A} (r : result A) : M A := fun w => (r, w).

Definition bind {A B} (m : M A) (k : A -> M B) : M B :=
  fun w =>
    match m w with
    | (Ok a, w') => k a w'
    | (Raise e, w') => (Raise e, w')
    end.

Notation "'let*' x ':=' m 'in' k" := (bind m (fun x => k))
  (at level 10, x name, m at level 100, k at level 200).

(** [try: m  except <handled>: h] *)
Definition try_except {A} (m : M A) (handled : exn -> bool) (h : M A) : M A :=
  fun w =>
    match m w with
    | (Raise e, w') => if handled e then h w' else (Raise e, w')
    | r => r
    end.

(** [except Exception] *)
Definition Exception (e : exn) : bool := true.

Definition file_of (p : path) (w : World) : option content :=
  match p with
  | CONFIG_FILE => config_file w
  | NOTIFICATIONS_FILE => notifications_file w
  end.

(** [open(p, 'r', encoding='utf-8')] and the file. *)
Definition open_read (p : path) : M content :=
  fun w =>
    match file_of p w with
    | Some f => (Ok f, w)
    | None => (Raise FileNotFoundError, w)
    end.

(** [open(p, 'w', encoding='utf-8')] and the writing of the whole [text]. *)
Definition write_file (p : path) (text : pystr) : M unit :=
  fun w =>
    (Ok tt,
     match p with
     | CONFIG_FILE =>
         mkWorld (Some (Text text)) (notifications_file w) (self_config w)
                 (active_listeners w) (EvWrite p text :: trace w)
     | NOTIFICATIONS_FILE =>
         mkWorld (config_file w) (Some (Text text)) (self_config w)
                 (active_listeners w) (EvWrite p text :: trace w)
     end).

(** [open(p, 'w', encoding='utf-8')] and a [json.dump] that raises [e]:
    the file has lost what it held, the part of the document written so
    far is no JSON, and the exception leaves the [with] block. *)
Definition truncate_file (p : path) (e : exn) : M unit :=
  fun w =>
    (Raise e,
     match p with
     | CONFIG_FILE =>
         mkWorld (Some (Unreadable JSONDecodeError)) (notifications_file w)
                 (self_config w) (active_listeners w)
                 (EvTruncate p :: trace w)
     | NOTIFICATIONS_FILE =>
         mkWorld (config_file w) (Some (Unreadable JSONDecodeError))
                 (self_config w) (active_listeners w)
                 (EvTruncate p :: trace w)
     end).

Definition emit (e : event) : M unit :=
  fun w =>
    (Ok tt,
     mkWorld (config_file w) (notifications_file w) (self_config w)
             (active_listeners w) (e :: trace w)).

Definition get_config : M json := fun w => (Ok (self_config w), w).

Definition set_config (c : json) : M unit :=
  fun w =>
    (Ok tt,
     mkWorld (config_file w) (notifications_file w) c
             (active_listeners w) (trace w)).

Definition get_listeners : M (list (pystr * bool)) :=
  fun w => (Ok (active_listeners w), w).

Definition set_listeners (l : list (pystr * bool)) : M unit :=
  fun w =>
    (Ok tt,
     mkWorld (config_file w) (notifications_file w) (self_config w) l
             (trace w)).

(** ** String constants of the source *)

Definition k_target_groups : pystr := Eval vm_compute in str "target_groups".
Definition k_keywords : pystr := Eval vm_compute in str "keywords".
Definition k_enable_alert : pystr := Eval vm_compute in str "enable_alert".
Definition k_choices : pystr := Eval vm_compute in str "choices".
Definition k_message : pystr := Eval vm_compute in str "message".
Definition k_content : pystr := Eval vm_compute in str "content".
Definition k_title : pystr := Eval vm_compute in str "title".
Definition k_time : pystr := Eval vm_compute in str "time".
Definition k_location : pystr := Eval vm_compute in str "location".
Definition k_action : pystr := Eval vm_compute in str "action".
Definition k_is_urgent : pystr := Eval vm_compute in str "is_urgent".
Definition k_id : pystr := Eval vm_compute in str "id".
Definition k_timestamp : pystr := Eval vm_compute in str "timestamp".
Definition k_is_read : pystr := Eval vm_compute in str "is_read".
Definition s_yes : pystr := Eval vm_compute in str "是".
Definition s_unknown : pystr := Eval vm_compute in str "未知通知".
Definition s_lbrace : pystr := Eval vm_compute in str "{".
Definition s_rbrace : pystr := Eval vm_compute in str "}".

(** The words that make [is_urgent] true. *)
Definition urgent_words : list pystr :=
  Eval vm_compute in [str "true"; str "是"; str "yes"].

Definition default_keywords : list pystr :=
  Eval vm_compute in
    [str "通知"; str "重要"; str "紧急"; str "提醒"; str "必看"].

(** ** Decimal numerals *)

Fixpoint digits_of (fuel : nat) (n : N) (acc : pystr) : pystr :=
  match fuel with
  | O => acc
  | S fuel' =>
      let d := (48 + n mod 10)%N in
      if (n <? 10)%N then d :: acc else digits_of fuel' (n / 10)%N (d :: acc)
  end.

(** [str(z)] for an integer. *)
Definition decimal (z : Z) : pystr :=
  match z with
  | Z0 => [48%N]
  | Zpos p => digits_of (S (N.to_nat (N.log2 (Npos p)))) (Npos p) []
  | Zneg p => 45%N :: digits_of (S (N.to_nat (N.log2 (Npos p)))) (Npos p) []
  end.

(** ** A reference codec: [json.dumps(v, ensure_ascii=False, indent=2)] and
    [json.loads] on documents without floats

    The codec instantiates the library at the sample inputs of this file.
    On a document that holds a number with a fraction or an exponent, which
    [json.loads] makes a Python float, the type [json] has no value for the
    decoder to return and [ref_loads] gives [None]: no statement below is
    about such a document. *)

Definition hex_digit (n : N) : N :=
  if (n <? 10)%N then (48 + n)%N else (87 + n)%N.

Definition escape_char (c : N) : pystr :=
  if (c =? 34)%N then [92; 34]%N
  else if (c =? 92)%N then [92; 92]%N
  else if (c =? 10)%N then [92; 110]%N
  else if (c =? 13)%N then [92; 114]%N
  else if (c =? 9)%N then [92; 116]%N
  else if (c =? 8)%N then [92; 98]%N
  else if (c =? 12)%N then [92; 102]%N
  else if (c <? 32)%N then
    [92; 117; 48; 48; hex_digit (c / 16); hex_digit (c mod 16)]%N
  else [c].

Definition dumps_str (s : pystr) : pystr :=
  34%N :: flat_map escape_char s ++ [34%N].

(** A line break and the indentation of nesting depth [lvl]. *)
Definition newline_indent (lvl : nat) : pystr := 10%N :: repeat 32%N (2 * lvl).

(** The items of a list after the first, each behind a comma and a line
    break; likewise the members of a dict. *)
Fixpoint dumps_items (dump : json -> pystr) (sep : pystr) (l : list json)
  : pystr :=
  match l with
  | [] => []
  | y :: l' => str "," ++ sep ++ dump y ++ dumps_items dump sep l'
  end.

Fixpoint dumps_members (dump : json -> pystr) (sep : pystr) (l : dict)
  : pystr :=
  match l with
  | [] => []
  | (k, y) :: l' =>
      str "," ++ sep ++ dumps_str k ++ str ": " ++ dump y
      ++ dumps_members dump sep l'
  end.

Fixpoint dumps_at (lvl : nat) (v : json) {struct v} : pystr :=
  match v with
  | JNull => str "null"
  | JBool true => str "true"
  | JBool false => str "false"
  | JNum n => decimal n
  | JStr s => dumps_str s
  | JArr [] => str "[]"
  | JArr (x :: rest) =>
      str "[" ++ newline_indent (S lvl) ++ dumps_at (S lvl) x
      ++ dumps_items (dumps_at (S lvl)) (newline_indent (S lvl)) rest
      ++ newline_indent lvl ++ str "]"
  | JObj [] => str "{}"
  | JObj ((k, x) :: rest) =>
      str "{" ++ newline_indent (S lvl) ++ dumps_str k ++ str ": "
      ++ dumps_at (S lvl) x
      ++ dumps_members (dumps_at (S lvl)) (newline_indent (S lvl)) rest
      ++ newline_indent lvl ++ str "}"
  end.

(** Every dict of the value has distinct keys, as a Python dict has. *)
Fixpoint distinct (keys : list pystr) : bool :=
  match keys with
  | [] => true
  | k :: rest => negb (existsb (str_eqb k) rest) && distinct rest
  end.

Fixpoint json_wf (v : json) : bool :=
  match v with
  | JArr l => forallb json_wf l
  | JObj d =>
      distinct (map fst d) && forallb (fun kv => json_wf (snd kv)) d
  | _ => true
  end.

(** The number of nodes of a value. *)
Fixpoint size (v : json) : nat :=
  match v with
  | JArr l => S (list_sum (map size l))
  | JObj d => S (list_sum (map (fun kv => size (snd kv)) d))
  | _ => 1
  end.

Definition ref_dumps (v : json) : pystr := dumps_at 0 v.

(** What [json.dump] raises on a file opened as UTF-8: with
    [ensure_ascii=False] the strings go to the file as they are, and a lone
    surrogate in one of them cannot be encoded. *)
Definition ref_dump_error (v : json) : option exn :=
  if encodable (ref_dumps v) then None else Some UnicodeEncodeError.

Definition is_ws (c : N) : bool :=
  ((c =? 32) || (c =? 9) || (c =? 10) || (c =? 13))%N.

Fixpoint skip_ws (s : pystr) : pystr :=
  match s with
  | [] => []
  | c :: t => if is_ws c then skip_ws t else s
  end.

Definition hex_value (c : N) : option N :=
  if ((48 <=? c) && (c <=? 57))%N then Some (c - 48)%N
  else if ((97 <=? c) && (c <=? 102))%N then Some (c - 87)%N
  else if ((65 <=? c) && (c <=? 70))%N then Some (c - 55)%N
  else None.

Definition hex4 (a b c d : N) : option N :=
  match hex_value a, hex_value b, hex_value c, hex_value d with
  | Some x, Some y, Some z, Some t => Some (((x * 16 + y) * 16 + z) * 16 + t)%N
  | _, _, _, _ => None
  end.

(** The value of a one-letter escape. *)
Definition simple_escape (e : N) : option N :=
  if (e =? 34)%N then Some 34%N
  else if (e =? 92)%N then Some 92%N
  else if (e =? 47)%N then Some 47%N
  else if (e =? 98)%N then Some 8%N
  else if (e =? 102)%N then Some 12%N
  else if (e =? 110)%N then Some 10%N
  else if (e =? 114)%N then Some 13%N
  else if (e =? 116)%N then Some 9%N
  else None.

(** A high and a low surrogate, and the code point of the pair. *)
Definition is_pair (hi lo : N) : bool :=
  ((55296 <=? hi) && (hi <=? 56319) && (56320 <=? lo) && (lo <=? 57343))%N.

Definition pair_value (hi lo : N) : N :=
  (65536 + (hi - 55296) * 1024 + (lo - 56320))%N.

(** The text after an opening quote, up to the closing one; a surrogate
    pair of [\u] escapes is one code point. *)
Fixpoint loads_str (s : pystr) (acc : pystr) : option (pystr * pystr) :=
  match s with
  | [] => None
  | c :: t =>
      if (c =? 34)%N then Some (rev acc, t)
      else if (c =? 92)%N then
        match t with
        | [] => None
        | e :: t1 =>
            if (e =? 117)%N then
              match t1 with
              | h1 :: h2 :: h3 :: h4 :: t2 =>
                  match hex4 h1 h2 h3 h4 with
                  | None => None
                  | Some hi =>
                      match t2 with
                      | a :: b :: l1 :: l2 :: l3 :: l4 :: t3 =>
                          match hex4 l1 l2 l3 l4 with
                          | Some lo =>
                              if ((a =? 92) && (b =? 117))%N && is_pair hi lo
                              then loads_str t3 (pair_value hi lo :: acc)
                              else loads_str t2 (hi :: acc)
                          | None => loads_str t2 (hi :: acc)
                          end
                      | _ => loads_str t2 (hi :: acc)
                      end
                  end
              | _ => None
              end
            else
              match simple_escape e with
              | Some x => loads_str t1 (x :: acc)
              | None => None
              end
        end
      else if (c <? 32)%N then None
      else loads_str t (c :: acc)
  end.

Definition is_digit (c : N) : bool := ((48 <=? c) && (c <=? 57))%N.

Fixpoint loads_digits (s : pystr) (acc : Z) : Z * pystr :=
  match s with
  | c :: t =>
      if is_digit c then loads_digits t (acc * 10 + Z.of_N (c - 48))%Z
      else (acc, s)
  | [] => (acc, [])
  end.

(** The integer part of a number; a fraction or an exponent after it makes
    the number a float, outside the fragment. *)
Definition loads_nat (s : pystr) : option (Z * pystr) :=
  match s with
  | c :: t =>
      if negb (is_digit c) then None
      else
        let '(n, r) := if (c =? 48)%N then (0%Z, t) else loads_digits s 0%Z in
        match r with
        | d :: _ =>
            if ((d =? 46) || (d =? 101) || (d =? 69))%N then None
            else Some (n, r)
        | [] => Some (n, r)
        end
  | [] => None
  end.

Definition expect (lit : pystr) (v : json) (s : pystr) : option (json * pystr) :=
  if startswith lit s then Some (v, skipn (List.length lit) s) else None.

Fixpoint loads_value (fuel : nat) (s : pystr) {struct fuel}
  : option (json * pystr) :=
  match fuel with
  | O => None
  | S fuel' =>
      match s with
      | [] => None
      | c :: t =>
          if (c =? 34)%N then
            match loads_str t [] with
            | Some (x, r) => Some (JStr x, r)
            | None => None
            end
          else if (c =? 123)%N then
            match skip_ws t with
            | d :: r =>
                if (d =? 125)%N then Some (JObj [], r)
                else loads_members fuel' (d :: r) []
            | [] => None
            end
          else if (c =? 91)%N then
            match skip_ws t with
            | d :: r =>
                if (d =? 93)%N then Some (JArr [], r)
                else loads_items fuel' (d :: r) []
            | [] => None
            end
          else if (c =? 110)%N then expect (str "null") JNull s
          else if (c =? 116)%N then expect (str "true") (JBool true) s
          else if (c =? 102)%N then expect (str "false") (JBool false) s
          else if (c =? 45)%N then
            match loads_nat t with
            | Some (n, r) => Some (JNum (- n), r)
            | None => None
            end
          else
            match loads_nat s with
            | Some (n, r) => Some (JNum n, r)
            | None => None
            end
      end
  end

with loads_items (fuel : nat) (s : pystr) (acc : list json) {struct fuel}
  : option (json * pystr) :=
  match fuel with
  | O => None
  | S fuel' =>
      match loads_value fuel' s with
      | None => None
      | Some (v, r) =>
          match skip_ws r with
          | c :: t =>
              if (c =? 93)%N then Some (JArr (rev (v :: acc)), t)
              else if (c =? 44)%N then loads_items fuel' (skip_ws t) (v :: acc)
              else None
          | [] => None
          end
      end
  end

with loads_members (fuel : nat) (s : pystr) (acc : dict) {struct fuel}
  : option (json * pystr) :=
  match fuel with
  | O => None
  | S fuel' =>
      match s with
      | q :: t =>
          if negb (q =? 34)%N then None
          else
            match loads_str t [] with
            | None => None
            | Some (k, r) =>
                match skip_ws r with
                | colon :: r1 =>
                    if negb (colon =? 58)%N then None
                    else
                      match loads_value fuel' (skip_ws r1) with
                      | None => None
                      | Some (v, r2) =>
                          match skip_ws r2 with
                          | c :: t2 =>
                              if (c =? 125)%N
                              then Some (JObj (dict_set k v acc), t2)
                              else if (c =? 44)%N then
                                loads_members fuel' (skip_ws t2)
                                  (dict_set k v acc)
                              else None
                          | [] => None
                          end
                      end
                | [] => None
                end
            end
      | [] => None
      end
  end.

Definition ref_loads (s : pystr) : option json :=
  match loads_value (2 * List.length s + 2) (skip_ws s) with
  | Some (v, r) => match skip_ws r with [] => Some v | _ => None end
  | None => None
  end.

(** [str.lower] on the ASCII letters. *)
Definition ascii_lower (s : pystr) : pystr :=
  map (fun c => if ((65 <=? c) && (c <=? 90))%N then (c + 32)%N else c) s.

(** The value of a numeral with one more digit. *)
Definition digit_value (a : Z) (c : N) : Z := (a * 10 + Z.of_N (c - 48))%Z.

(** What may follow a dumped value: nothing, a comma or a line break. *)
Definition delimited (r : pystr) : bool :=
  match r with
  | [] => true
  | c :: _ => ((c =? 44) || (c =? 10))%N
  end.

(** The first character of a dumped value. *)
Definition value_start (c : N) : bool :=
  ((c =? 110) || (c =? 116) || (c =? 102) || (c =? 45) || is_digit c
   || (c =? 34) || (c =? 91) || (c =? 123))%N.

(** The decoder reads the dumped value back, before any text that starts
    with a comma or a line break, with fuel for twice its nodes. *)
Definition reads_back (v : json) : Prop :=
  forall lvl fuel r,
    json_wf v = true ->
    delimited r = true ->
    (2 * size v <= fuel + 1)%nat ->
    loads_value fuel (dumps_at lvl v ++ r) = Some (v, r).

(** ** Prompts *)

(** The yes/no question of [is_notification]. *)
Definition classify_prompt (content : pystr) : pystr :=
  str "请严格判断以下消息是否为重要通知（如活动通知、紧急通知、重要提醒等），只需回答是或否:"
  ++ [10%N] ++ content.

(** The extraction request of [extract_notification_info]. *)
Definition extract_prompt (content : pystr) : pystr :=
  dq "请严格从以下通知中提取关键信息，返回规范的JSON格式，确保所有属性名用双引号包围：
        {
            'title': '通知标题',
            'time': '时间信息',
            'location': '地点信息',
            'content': '主要内容摘要',
            'action': '需要采取的行动',
            'is_urgent': false
        }

        通知内容：
        " ++ content.

(** The configuration that [load_config] falls back to. *)
Definition default_config : json :=
  JObj [(k_target_groups, JArr []);
        (k_keywords, JArr (map JStr default_keywords));
        (k_enable_alert, JBool true)].

(** The strings of the self-test, of its route and of the message
    handler. *)
Definition MODEL_NAME : pystr := Eval vm_compute in str "deepseek-ai/DeepSeek-R1".
Definition test_prompt : pystr := Eval vm_compute in str "请回答'API连接正常'".
Definition k_success : pystr := Eval vm_compute in str "success".
Definition k_response : pystr := Eval vm_compute in str "response".
Definition k_error : pystr := Eval vm_compute in str "error".
Definition k_model : pystr := Eval vm_compute in str "model".
Definition k_status : pystr := Eval vm_compute in str "status".
Definition s_no_response : pystr := Eval vm_compute in str "无法获取模型响应".
Definition s_unknown_error : pystr := Eval vm_compute in str "未知错误".
Definition s_api_ok : pystr := Eval vm_compute in str "API连接正常".
Definition s_api_failed : pystr := Eval vm_compute in str "API连接失败".
Definition s_ntf : pystr := Eval vm_compute in str "ntf-".

(** ** Sample data *)

(** A model whose every completion carries [reply] as its content. *)
Definition api_says (reply : json) : list event -> pystr -> json :=
  fun _ _ =>
    JObj [(k_choices, JArr [JObj [(k_message, JObj [(k_content, reply)])]])].

(** A model that cannot be reached. *)
Definition api_down : list event -> pystr -> json := fun _ _ => JNull.

(** A monitor with the default configuration, nothing stored and no
    listener. *)
Definition fresh_world : World :=
  mkWorld (Some (Text (ref_dumps default_config))) None default_config [] [].

Definition notice : pystr :=
  str "Staff meeting on Friday at 3pm in room 2, please attend.".

(** A complete answer of the model, its decoding, and the record that the
    extraction owes for it. *)
Definition full_reply : pystr :=
  dq "{'title': 'Staff meeting', 'time': 'Friday 3pm', 'location': 'Room 2', 'content': 'Weekly staff meeting', 'action': 'Attend', 'is_urgent': 'Yes'}".

Definition full_object : dict :=
  [(k_title, JStr (str "Staff meeting"));
   (k_time, JStr (str "Friday 3pm"));
   (k_location, JStr (str "Room 2"));
   (k_content, JStr (str "Weekly staff meeting"));
   (k_action, JStr (str "Attend"));
   (k_is_urgent, JStr (str "Yes"))].

Definition full_record : dict :=
  [(k_title, JStr (str "Staff meeting"));
   (k_time, JStr (str "Friday 3pm"));
   (k_location, JStr (str "Room 2"));
   (k_content, JStr (str "Weekly staff meeting"));
   (k_action, JStr (str "Attend"));
   (k_is_urgent, JBool true)].

(** An answer with prose around the object, and the record owed for it. *)
Definition prose_reply : pystr :=
  dq "Sure, here is the JSON: {'title': 'Fire drill', 'time': '10:00'} Anything else?".

Definition prose_record : dict :=
  [(k_title, JStr (str "Fire drill"));
   (k_time, JStr (str "10:00"));
   (k_location, JStr []);
   (k_content, JStr notice);
   (k_action, JStr []);
   (k_is_urgent, JBool false)].

(** An answer that is no JSON anywhere. *)
Definition broken_reply : pystr := dq "{title: Staff meeting, is_urgent: maybe}".

(** The affirmative answer of the model. *)
Definition yes_reply : pystr := str "是的，这是重要通知。".

(** A short message without any of the default keywords. *)
Definition small_talk : pystr := str "ok, see you".

(** Three stored notifications; the first two were saved within the same
    second and share their id. *)
Definition stored_note (id title : pystr) (read : bool) : json :=
  JObj [(k_id, JStr id);
        (k_timestamp, JStr (str "2024-10-27 11:33:20"));
        (k_is_read, JBool read);
        (k_title, JStr title)].

Definition id_twice : pystr := str "ntf-1730000000".
Definition id_once : pystr := str "ntf-1730000060".
Definition id_absent : pystr := str "ntf-42".

Definition sample_notes : list json :=
  [stored_note id_twice (str "Fire drill") false;
   stored_note id_twice (str "Staff meeting") false;
   stored_note id_once (str "Payroll") false].

Definition store_world : World :=
  mkWorld (Some (Text (ref_dumps default_config)))
          (Some (Text (ref_dumps (JArr sample_notes)))) default_config [] [].

(** A configuration file edited by hand, with a group listed twice. *)
Definition group_a : pystr := str "family".
Definition group_b : pystr := str "work".

Definition dup_config : json :=
  JObj [(k_target_groups, JArr [JStr group_a; JStr group_a]);
        (k_keywords, JArr []);
        (k_enable_alert, JBool true)].

Definition dup_world : World :=
  mkWorld (Some (Text (ref_dumps dup_config))) None dup_config [] [].

Definition dup_world_listening : World :=
  mkWorld (Some (Text (ref_dumps dup_config))) None dup_config [(group_a, true)]
          [EvAddListenChat group_a].


Definition empty_world : World := mkWorld None None JNull [] [].

(** A model that answers without a choice, one that answers with an error
    object, and one that says yes to the first request and answers
    without a choice from then on. *)
Definition api_no_choice : list event -> pystr -> json :=
  fun _ _ => JObj [(k_choices, JArr [])].

Definition api_refuses : list event -> pystr -> json :=
  fun _ _ => JObj [(k_error, JStr (str "rate limit"))].


(** A notification file that holds an object, and one whose first item
    has no id. *)
Definition object_store_world : World :=
  mkWorld (Some (Text (ref_dumps default_config))) (Some (Text (ref_dumps (JObj []))))
          default_config [] [].

Definition torn_notes : list json :=
  [JObj [(k_title, JStr (str "Fire drill"))];
   stored_note id_once (str "Payroll") false].

Definition torn_store_world : World :=
  mkWorld (Some (Text (ref_dumps default_config)))
          (Some (Text (ref_dumps (JArr torn_notes)))) default_config [] [].

(** A notification file whose first two items share their id and whose
    last item has none. *)
Definition half_torn_notes : list json :=
  [stored_note id_twice (str "Fire drill") false;
   stored_note id_twice (str "Staff meeting") false;
   JObj [(k_title, JStr (str "Payroll"))]].

Definition half_torn_world : World :=
  mkWorld (Some (Text (ref_dumps default_config)))
          (Some (Text (ref_dumps (JArr half_torn_notes)))) default_config
          [] [].

(** A configuration without [target_groups]. *)
Definition bare_config : json := JObj [(k_keywords, JArr [])].

Definition bare_world : World :=
  mkWorld (Some (Text (ref_dumps bare_config))) None bare_config [] [].

(** The parts of [prose_reply] around its braces. *)
Definition prose_before : pystr := str "Sure, here is the JSON: ".
Definition prose_between : pystr := dq "'title': 'Fire drill', 'time': '10:00'".
Definition prose_after : pystr := str " Anything else?".

(** A notification as [on_message] hands it to the store. *)
Definition drill_data : dict :=
  [(k_title, JStr (str "Fire drill")); (k_is_read, JBool true)].

Definition id_new : pystr := str "ntf-1730000120".

(** A string that holds a lone surrogate, as the decoder makes it of the
    escape [\ud800]; a configuration that lists it as a group; and a
    notification file, written by hand with that escape, whose second
    record has it as title. *)
Definition lone_surrogate : pystr := [55296%N].


Definition surrogate_notes : list json :=
  [stored_note id_twice (str "Fire drill") false;
   stored_note id_twice lone_surrogate false].

Definition surrogate_notes_text : pystr :=
  dq "[{'id': 'ntf-1730000000', 'timestamp': '2024-10-27 11:33:20', 'is_read': false, 'title': 'Fire drill'}, {'id': 'ntf-1730000000', 'timestamp': '2024-10-27 11:33:20', 'is_read': false, 'title': '\ud800'}]".

Definition surrogate_store_world : World :=
  mkWorld (Some (Text (ref_dumps default_config)))
          (Some (Text surrogate_notes_text)) default_config [] [].

(** A notification whose title holds the lone surrogate. *)
Definition surrogate_data : dict := [(k_title, JStr lone_surrogate)].

(** A config file that is not UTF-8, and a monitor of which nothing is
    set yet. *)
Definition gbk_world : World :=
  mkWorld (Some (Unreadable UnicodeDecodeError)) None JNull [] [].

(** ** The monitor *)

Section Monitor.

(** [json.dumps(v, ensure_ascii=False, indent=2)], [json.loads] ([None] for
    [json.JSONDecodeError]) and [str.lower], from the library.
    [dump_error v] is the exception, if any, that
    [json.dump(v, f, ensure_ascii=False, indent=2)] raises on a file opened
    as UTF-8; when there is none, the file holds [json_dumps v].  [api_post]
    is what [call_model_api] gets from [requests.post(...)] for a prompt,
    given what was done before: the decoded body, or [JNull] for the [None]
    it returns once the request failed. *)
Variable json_dumps : json -> pystr.
Variable dump_error : json -> option exn.
Variable json_loads : pystr -> option json.
Variable str_lower : pystr -> pystr.
Variable api_post : list event -> pystr -> json.

(** The decoder reads back what the encoder wrote for [v]. *)
Definition roundtrips (v : json) : Prop := json_loads (json_dumps v) = Some v.

(** [json.load(fp)] is [json.loads(fp.read())]. *)
Definition json_load (fp : pyobj) : result json :=
  let? text := fp_read fp in
  match json_loads text with
  | Some v => Ok v
  | None => Raise JSONDecodeError
  end.

(** [json.loads(v)] on a value of the program. *)
Definition py_json_loads (v : json) : result json :=
  match v with
  | JStr s =>
      match json_loads s with
      | Some x => Ok x
      | None => Raise JSONDecodeError
      end
  | _ => Raise TypeError
  end.

(** [with open(p, 'w', encoding='utf-8') as f:
       json.dump(v, f, ensure_ascii=False, indent=2)] *)
Definition json_dump (v : json) (p : path) : M unit :=
  match dump_error v with
  | None => write_file p (json_dumps v)
  | Some e => truncate_file p e
  end.

(** *** Config store *)

(** [save_config(config)]; [JNull] is the default [None]. *)
Definition save_config (config : json) : M unit :=
  let* config :=
    (match config with
     | JNull => get_config
     | _ => ret config
     end) in
  json_dump config CONFIG_FILE.

Definition load_config : M json :=
  try_except
    (let* f := open_read CONFIG_FILE in lift (json_load (File f)))
    (fun e =>
       match e with
       | FileNotFoundError | JSONDecodeError => true
       | _ => false
       end)
    (let* _ := save_config default_config in ret default_config).

(** [WeChatMonitor.__init__] *)
Definition init : M unit :=
  let* config := load_config in
  let* _ := set_config config in
  set_listeners [].

(** *** Classifier and extractor *)

Definition call_model_api (prompt : pystr) : M json :=
  fun w =>
    let reply := api_post (trace w) prompt in
    match emit (EvPost prompt) w with
    | (_, w') => (Ok reply, w')
    end.

Definition analyze_with_model (prompt : pystr) : M json :=
  let* result := call_model_api prompt in
  let* usable :=
    lift (if truthy result then py_in k_choices result else Ok false) in
  if usable then
    lift (let? choices := getitem result k_choices in
          let? choice := getitem0 choices in
          let? message := getitem choice k_message in
          getitem message k_content)
  else ret (JStr []).

(** [any(keyword in content for keyword in keywords)] *)
Fixpoint any_in (content : pystr) (keywords : list json) : result bool :=
  match keywords with
  | [] => Ok false
  | JStr keyword :: rest =>
      if contains keyword content then Ok true else any_in content rest
  | _ :: _ => Raise TypeError
  end.

Definition is_notification (content : pystr) : M bool :=
  let* config := get_config in
  let* keywords := lift (dict_method_get config k_keywords (JArr [])) in
  let* has_keyword :=
    lift (let? items := py_iter keywords in any_in content items) in
  if has_keyword || (20 <? List.length content)%nat then
    let* response := analyze_with_model (classify_prompt content) in
    let* _ := lift (py_print response) in                    (* line 125 *)
    let* stripped := lift (py_strip response) in
    ret (contains s_yes stripped)
  else ret false.

Definition default_info (content : pystr) : dict :=
  [(k_title, JStr s_unknown);
   (k_time, JStr []);
   (k_location, JStr []);
   (k_content, JStr (firstn 200 content));
   (k_action, JStr []);
   (k_is_urgent, JBool false)].

(** Lines 159-169: the whole response as JSON, else the text from its
    first opening brace to its last closing brace. *)
Definition decode_response (response : json) : result json :=
  match py_json_loads response, response with
  | Raise JSONDecodeError, JStr s =>
      let start := find s s_lbrace in
      let stop := (rfind s s_rbrace + 1)%Z in
      if (0 <=? start)%Z && (start <? stop)%Z then
        py_json_loads (JStr (slice s start stop))
      else Raise ValueError
  | r, _ => r
  end.

(** Lines 172-178: the loop over the keys of [default_info]. *)
Fixpoint complete_fields (defaults : dict) (info : json) : result json :=
  match defaults with
  | [] => Ok info
  | (key, value) :: rest =>
      let? present := py_in key info in
      let? info1 := if present then Ok info else setitem info key value in
      let? info2 :=
        (if str_eqb key k_is_urgent then
           let? current := getitem info1 key in
           match current with
           | JStr s =>
               setitem info1 key
                 (JBool (existsb (str_eqb (str_lower s)) urgent_words))
           | _ => Ok info1
           end
         else Ok info1) in
      complete_fields rest info2
  end.

(** The handler of the outer [try] formats [response] into the message
    that it prints: when [analyze_with_model] itself raised, the name is
    not bound and the handler raises.  Otherwise the message is the
    exception and the response between constants, the [print] raises when
    the response is a string that the standard output cannot encode, and
    every other exception of the body ends in [default_info]. *)
Definition extract_notification_info (content : pystr) : M json :=
  fun w =>
    match analyze_with_model (extract_prompt content) w with
    | (Raise _, w1) => (Raise UnboundLocalError, w1)
    | (Ok response, w1) =>
        match (let? _ := json_load (Val response) in       (* line 156 *)
               let? info := decode_response response in
               complete_fields (default_info content) info) with
        | Ok info => (Ok info, w1)
        | Raise _ =>
            match py_print response with                    (* line 182 *)
            | Ok _ => (Ok (JObj (default_info content)), w1)
            | Raise e => (Raise e, w1)
            end
        end
    end.

(** *** Notification store *)

(** [save_notification(notification_data)] (the second definition of the
    class, which replaces the first) at a time whose [int(time.time())] is
    [seconds] and whose formatted local time is [timestamp]. *)
Definition save_notification (seconds : Z) (timestamp : pystr)
    (notification_data : dict) : M unit :=
  let notification :=
    JObj (dict_update
            [(k_id, JStr (str "ntf-" ++ decimal seconds));
             (k_timestamp, JStr timestamp);
             (k_is_read, JBool false)]
            notification_data) in
  let* notifications :=
    try_except
      (let* f := open_read NOTIFICATIONS_FILE in
       lift (json_load (File f)))
      (fun e =>
         match e with
         | FileNotFoundError | JSONDecodeError => true
         | _ => false
         end)
      (ret (JArr [])) in
  let* notifications := lift (py_append notifications notification) in
  json_dump notifications NOTIFICATIONS_FILE.

(** The route [GET /api/notifications]. *)
Definition get_notifications : M json :=
  try_except
    (let* f := open_read NOTIFICATIONS_FILE in
     lift (json_load (File f)))
    (fun e =>
       match e with
       | FileNotFoundError | JSONDecodeError => true
       | _ => false
       end)
    (ret (JArr [])).

(** The loop of [mark_notification_as_read] over the items of the loaded
    value: the items after the loop, and [updated]. *)
Fixpoint mark_loop (notification_id : pystr) (notes : list json)
  : result (list json * bool) :=
  match notes with
  | [] => Ok ([], false)
  | note :: rest =>
      let? id := getitem note k_id in
      let? note1 :=
        (if eq_str id notification_id
         then setitem note k_is_read (JBool true)
         else Ok note) in
      let? tail := mark_loop notification_id rest in
      Ok (note1 :: fst tail, eq_str id notification_id || snd tail)
  end.

(** The loaded value after the loop: the notes are the very items of a
    list; the items that the loop visits in a dict or a string are not part
    of it. *)
Definition after_loop (notifications : json) (notes : list json) : json :=
  match notifications with
  | JArr _ => JArr notes
  | _ => notifications
  end.

Definition mark_notification_as_read (notification_id : pystr) : M bool :=
  try_except
    (let* f := open_read NOTIFICATIONS_FILE in
     let* notifications := lift (json_load (File f)) in
     let* looped :=
       lift (let? notes := py_iter notifications in
             mark_loop notification_id notes) in
     if snd looped then
       let* _ := json_dump (after_loop notifications (fst looped))
                           NOTIFICATIONS_FILE in
       ret true
     else ret false)
    Exception
    (ret false).

(** [[n for n in notifications if n['id'] != notification_id]] *)
Fixpoint delete_filter (notification_id : pystr) (notes : list json)
  : result (list json) :=
  match notes with
  | [] => Ok []
  | n :: rest =>
      let? id := getitem n k_id in
      let? tail := delete_filter notification_id rest in
      Ok (if eq_str id notification_id then tail else n :: tail)
  end.

Definition delete_notification (notification_id : pystr) : M bool :=
  try_except
    (let* f := open_read NOTIFICATIONS_FILE in
     let* notifications := lift (json_load (File f)) in
     let* new_notifications :=
       lift (let? notes := py_iter notifications in
             delete_filter notification_id notes) in
     let* old_len := lift (py_len notifications) in
     if (List.length new_notifications <? old_len)%nat then
       let* _ := json_dump (JArr new_notifications) NOTIFICATIONS_FILE in
       ret true
     else ret false)
    Exception
    (ret false).

(** *** Listener manager *)

Definition add_group_listener (group_name : pystr) : M bool :=
  let* listeners := get_listeners in
  if negb (dict_has group_name listeners) then
    let* _ := emit (EvAddListenChat group_name) in
    let* _ := set_listeners (dict_set group_name true listeners) in
    let* config := get_config in
    let* groups := lift (getitem config k_target_groups) in
    let* present := lift (py_in group_name groups) in
    let* _ :=
      (if negb present then
         let* groups1 := lift (py_append groups (JStr group_name)) in
         let* config1 := lift (setitem config k_target_groups groups1) in
         let* _ := set_config config1 in
         save_config JNull
       else ret tt) in
    ret true
  else ret false.

Definition remove_group_listener (group_name : pystr) : M bool :=
  let* listeners := get_listeners in
  if dict_has group_name listeners then
    let* _ := emit (EvRemoveListenChat group_name) in
    let* _ := set_listeners (dict_del group_name listeners) in
    let* config := get_config in
    let* groups := lift (getitem config k_target_groups) in
    let* present := lift (py_in group_name groups) in
    let* _ :=
      (if present then
         let* groups1 := lift (py_remove groups group_name) in
         let* config1 := lift (setitem config k_target_groups groups1) in
         let* _ := set_config config1 in
         save_config JNull
       else ret tt) in
    ret true
  else ret false.

(** The route [GET /api/groups/monitored]. *)
Definition get_monitored_groups : M json :=
  let* config := get_config in
  lift (dict_method_get config k_target_groups (JArr [])).

(** A call of the listener manager, as the routes [/api/groups/add] and
    [/api/groups/remove] make it. *)
Inductive group_call : Type :=
| Add (group_name : pystr)
| Remove (group_name : pystr).

Definition run_call (c : group_call) (w : World) : World :=
  match c with
  | Add g => snd (add_group_listener g w)
  | Remove g => snd (remove_group_listener g w)
  end.

Definition run_calls (cs : list group_call) (w : World) : World :=
  fold_left (fun w c => run_call c w) cs w.

(** *** What the statements below speak of *)

(** The keywords that [is_notification] looks for: the items of
    [self.config.get('keywords', [])]. *)
Definition keywords_of (w : World) : result (list json) :=
  let? keywords := dict_method_get (self_config w) k_keywords (JArr []) in
  py_iter keywords.

(** The model answered [response] and it decodes neither as a whole nor
    between its first opening and its last closing brace. *)
Definition wholly_unparseable (response : pystr) : Prop :=
  json_loads response = None /\
  ((0 <= find response s_lbrace < rfind response s_rbrace + 1)%Z ->
   json_loads (slice response (find response s_lbrace)
                     (rfind response s_rbrace + 1)) = None).

(** The six fields of the extraction. *)
Definition info_keys : list pystr :=
  [k_title; k_time; k_location; k_content; k_action; k_is_urgent].

(** The boolean that lines 177-178 put in place of a string. *)
Definition coerce_urgent (d : dict) : dict :=
  match dict_get k_is_urgent d with
  | Some (JStr s) =>
      dict_set k_is_urgent
        (JBool (existsb (str_eqb (str_lower s)) urgent_words)) d
  | _ => d
  end.

(** A stored record: a dict with an [id]. *)
Definition is_record (r : json) : bool :=
  match r with
  | JObj d => dict_has k_id d
  | _ => false
  end.

(** The record has this id. *)
Definition record_matches (notification_id : pystr) (r : json) : bool :=
  match r with
  | JObj d =>
      match dict_get k_id d with
      | Some id => eq_str id notification_id
      | None => false
      end
  | _ => false
  end.

(** The records that [GET /api/notifications] lists. *)
Definition stored (w : World) : list json :=
  match fst (get_notifications w) with
  | Ok (JArr rs) => rs
  | _ => []
  end.

(** The states of the notification store: no file, a text that does not
    decode or what a [json.dump] that raised has left (an empty store), or
    the JSON array of some records. *)
Inductive store_holds (w : World) : list json -> Prop :=
| store_absent :
    notifications_file w = None -> store_holds w []
| store_garbled : forall text,
    notifications_file w = Some (Text text) -> json_loads text = None ->
    store_holds w []
| store_truncated :
    notifications_file w = Some (Unreadable JSONDecodeError) ->
    store_holds w []
| store_records : forall text rs,
    notifications_file w = Some (Text text) ->
    json_loads text = Some (JArr rs) ->
    forallb is_record rs = true ->
    store_holds w rs.

(** The world that a rewrite of the notification file leaves, and the one
    that a rewrite which raised leaves. *)
Definition rewritten (w : World) (v : json) : World :=
  mkWorld (config_file w) (Some (Text (json_dumps v))) (self_config w)
          (active_listeners w)
          (EvWrite NOTIFICATIONS_FILE (json_dumps v) :: trace w).

Definition truncated (w : World) : World :=
  mkWorld (config_file w) (Some (Unreadable JSONDecodeError))
          (self_config w) (active_listeners w)
          (EvTruncate NOTIFICATIONS_FILE :: trace w).

(** The world once [add_group_listener] has registered the listener, and
    once [remove_group_listener] has dropped it. *)
Definition listening (w : World) (name : pystr) : World :=
  mkWorld (config_file w) (notifications_file w) (self_config w)
          (dict_set name true (active_listeners w))
          (EvAddListenChat name :: trace w).

Definition unlistening (w : World) (name : pystr) : World :=
  mkWorld (config_file w) (notifications_file w) (self_config w)
          (dict_del name (active_listeners w))
          (EvRemoveListenChat name :: trace w).

(** What either method leaves once it has set the configuration [config1]
    and called [save_config]: it returns [True] after the write, and the
    exception of [json.dump] leaves it otherwise, with the configuration
    in memory changed all the same. *)
Definition saved_config (w : World) (config1 : json) : result bool * World :=
  match dump_error config1 with
  | None =>
      (Ok true,
       mkWorld (Some (Text (json_dumps config1))) (notifications_file w)
               config1 (active_listeners w)
               (EvWrite CONFIG_FILE (json_dumps config1) :: trace w))
  | Some e =>
      (Raise e,
       mkWorld (Some (Unreadable JSONDecodeError)) (notifications_file w)
               config1 (active_listeners w)
               (EvTruncate CONFIG_FILE :: trace w))
  end.

(** What a method that rewrites the notification file with [v] leaves: it
    returns [True] after the write, and [False] from its handler when
    [json.dump] raised. *)
Definition after_rewrite (w : World) (v : json) : result bool * World :=
  match dump_error v with
  | None => (Ok true, rewritten w v)
  | Some _ => (Ok false, truncated w)
  end.

(** What [open] and [json.load] give for a file. *)
Definition loaded (f : option content) : result json :=
  match f with
  | Some c => json_load (File c)
  | None => Raise FileNotFoundError
  end.

(** One record after [mark_notification_as_read]. *)
Definition mark_read (notification_id : pystr) (r : json) : json :=
  match r with
  | JObj d =>
      if record_matches notification_id r
      then JObj (dict_set k_is_read (JBool true) d)
      else r
  | _ => r
  end.

Definition is_read (r : json) : option json :=
  match r with
  | JObj d => dict_get k_is_read d
  | _ => None
  end.

(** [monitor.config['target_groups']], when it is a list. *)
Definition target_groups_of (w : World) : option (list json) :=
  match self_config w with
  | JObj d =>
      match dict_get k_target_groups d with
      | Some (JArr groups) => Some groups
      | _ => None
      end
  | _ => None
  end.

(** How often a name occurs in a list of groups. *)
Definition occurrences (group_name : pystr) (groups : list json) : nat :=
  List.length (filter (fun g => eq_str g group_name) groups).

(** *** The rest of the class and of the routes *)

(** The world after one request to the model, and nothing else. *)
Definition after_post (w : World) (prompt : pystr) : World :=
  mkWorld (config_file w) (notifications_file w) (self_config w)
          (active_listeners w) (EvPost prompt :: trace w).

(** [result and "choices" in result], and
    [result["choices"][0]["message"]["content"]]. *)
Definition usable (reply : json) : result bool :=
  if truthy reply then py_in k_choices reply else Ok false.

Definition reply_content (reply : json) : result json :=
  let? choices := getitem reply k_choices in
  let? choice := getitem0 choices in
  let? message := getitem choice k_message in
  getitem message k_content.

Definition test_model_connection : M json :=
  let* result := call_model_api test_prompt in
  let* ok := lift (usable result) in
  if ok then
    let* content := lift (reply_content result) in
    ret (JObj [(k_success, JBool true); (k_response, content)])
  else
    ret (JObj [(k_success, JBool false); (k_error, JStr s_no_response)]).

(** The route [GET /api/model/test]: the body and the status code. *)
Definition test_model_api : M (json * Z) :=
  let* test_result := test_model_connection in
  let* success := lift (getitem test_result k_success) in
  if truthy success then
    let* response := lift (getitem test_result k_response) in
    ret (JObj [(k_success, JBool true);
               (k_model, JStr MODEL_NAME);
               (k_response, response);
               (k_status, JStr s_api_ok)],
         200%Z)
  else
    let* error :=
      lift (dict_method_get test_result k_error (JStr s_unknown_error)) in
    ret (JObj [(k_success, JBool false);
               (k_model, JStr MODEL_NAME);
               (k_error, error);
               (k_status, JStr s_api_failed)],
         500%Z).

(** The record that [save_notification] builds. *)
Definition notification_of (seconds : Z) (timestamp : pystr)
    (notification_data : dict) : json :=
  JObj (dict_update
          [(k_id, JStr (s_ntf ++ decimal seconds));
           (k_timestamp, JStr timestamp);
           (k_is_read, JBool false)]
          notification_data).




(** A call on the notification store. *)
Inductive store_call : Type :=
| Save (seconds : Z) (timestamp : pystr) (notification_data : dict)
| MarkRead (notification_id : pystr)
| Delete (notification_id : pystr).

Definition run_store_call (c : store_call) (w : World) : World :=
  match c with
  | Save seconds timestamp data =>
      snd (save_notification seconds timestamp data w)
  | MarkRead id => snd (mark_notification_as_read id w)
  | Delete id => snd (delete_notification id w)
  end.

Definition run_store_calls (cs : list store_call) (w : World) : World :=
  fold_left (fun w c => run_store_call c w) cs w.

(** The saved notifications carry well-formed data. *)
Definition saves_wf (c : store_call) : bool :=
  match c with
  | Save _ _ data => json_wf (JObj data)
  | _ => true
  end.

(** Calls on the sample store. *)
Definition sample_calls : list store_call :=
  [Save 1730000120 (str "2024-10-27 11:35:20") drill_data;
   MarkRead id_twice;
   Delete id_once;
   Save 1730000120 (str "2024-10-27 11:35:20")
     [(k_title, JStr (str "Payroll"))];
   Delete id_new].

(** The config file decodes to the configuration in memory. *)
Definition persisted (w : World) : Prop :=
  exists text, config_file w = Some (Text text)
               /\ json_loads text = Some (self_config w).

(** The config file is in step with the configuration in memory, or it is
    what a [json.dump] that raised has left. *)
Definition in_step (w : World) : Prop :=
  persisted w \/ config_file w = Some (Unreadable JSONDecodeError).

(** The characters of a string before the first occurrence of [c], and
    those after the last. *)
Definition has_char (c : N) (s : pystr) : bool := existsb (N.eqb c) s.

(** What one round of the completion loop makes of a dict, for a key other
    than [is_urgent]. *)
Definition fill (d : dict) (key : pystr) (value : json) : dict :=
  if dict_has key d then d else dict_set key value d.

(** ** Strings and dicts *)

Lemma str_eqb_eq : forall a b, str_eqb a b = true <-> a = b.
Proof.
  induction a as [|x a IH]; destruct b as [|y b]; simpl;
    try (split; [discriminate | discriminate]); try tauto.
  rewrite andb_true_iff, N.eqb_eq, IH.
  split; [intros [-> ->]; reflexivity | intros H; inversion H; auto].
Qed.

Lemma str_eqb_refl : forall a, str_eqb a a = true.
Proof. intros a; apply str_eqb_eq; reflexivity. Qed.

Lemma str_eqb_neq : forall a b, str_eqb a b = false <-> a <> b.
Proof.
  intros a b; split.
  - intros H E; apply str_eqb_eq in E; congruence.
  - intros H; destruct (str_eqb a b) eqn:E; [|reflexivity].
    apply str_eqb_eq in E; contradiction.
Qed.

Lemma startswith_spec :
  forall p s, startswith p s = true <-> exists r, s = p ++ r.
Proof.
  induction p as [|x p IH]; intros s; simpl.
  - split; [intros _; exists s; reflexivity | reflexivity].
  - destruct s as [|y s].
    + split; [discriminate | intros [r H]; discriminate].
    + rewrite andb_true_iff, N.eqb_eq, IH; split.
      * intros [-> [r ->]]; exists r; reflexivity.
      * intros [r H]; inversion H; subst; split; [reflexivity | exists r; reflexivity].
Qed.

Lemma contains_occurs :
  forall needle hay, contains needle hay = true <-> occurs needle hay.
Proof.
  intros needle; induction hay as [|c hay IH]; simpl.
  - rewrite startswith_spec; split.
    + intros [r H]; exists [], r; exact H.
    + intros [pre [post H]]; destruct pre; simpl in H.
      * exists post; exact H.
      * discriminate.
  - rewrite orb_true_iff, startswith_spec, IH; split.
    + intros [[r H] | [pre [post H]]].
      * exists [], r; exact H.
      * exists (c :: pre), post; simpl; rewrite H; reflexivity.
    + intros [pre [post H]]; destruct pre as [|x pre]; simpl in H.
      * left; exists post; exact H.
      * right; inversion H; subst; exists pre, post; reflexivity.
Qed.

Lemma lstrip_suffix : forall s, exists pre, s = pre ++ lstrip s.
Proof.
  induction s as [|c s [pre IH]]; simpl.
  - exists []; reflexivity.
  - destruct (isspace c).
    + exists (c :: pre); simpl; rewrite <- IH; reflexivity.
    + exists []; reflexivity.
Qed.

Lemma rstrip_prefix : forall s, exists post, s = rstrip s ++ post.
Proof.
  intros s; unfold rstrip.
  destruct (lstrip_suffix (rev s)) as [pre H].
  exists (rev pre).
  rewrite <- rev_app_distr, <- H, rev_involutive; reflexivity.
Qed.

(** What [strip] keeps is a piece of the string. *)
Lemma strip_occurs : forall s, occurs (strip s) s.
Proof.
  intros s; unfold strip.
  destruct (lstrip_suffix s) as [pre H].
  destruct (rstrip_prefix (lstrip s)) as [post H'].
  exists pre, post; rewrite <- H'; exact H.
Qed.

Lemma occurs_trans : forall a b c, occurs a b -> occurs b c -> occurs a c.
Proof.
  intros a b c [p1 [q1 ->]] [p2 [q2 ->]].
  exists (p2 ++ p1), (q1 ++ q2).
  repeat rewrite <- app_assoc; reflexivity.
Qed.

Lemma dict_get_set_same :
  forall (V : Type) k (v : V) d, dict_get k (dict_set k v d) = Some v.
Proof.
  intros V k v; induction d as [|[k' v'] d IH]; simpl.
  - rewrite str_eqb_refl; reflexivity.
  - destruct (str_eqb k k') eqn:E; simpl; rewrite E; [reflexivity | exact IH].
Qed.

Lemma dict_get_set_other :
  forall (V : Type) k k' (v : V) d,
    k <> k' -> dict_get k' (dict_set k v d) = dict_get k' d.
Proof.
  intros V k k' v d Hne; induction d as [|[k0 v0] d IH]; simpl.
  - destruct (str_eqb k' k) eqn:E; [|reflexivity].
    apply str_eqb_eq in E; congruence.
  - destruct (str_eqb k k0) eqn:E; simpl.
    + apply str_eqb_eq in E; subst k0.
      destruct (str_eqb k' k) eqn:E'; [|reflexivity].
      apply str_eqb_eq in E'; congruence.
    + rewrite IH; reflexivity.
Qed.

(** ** Classifier *)

Lemma any_in_none :
  forall content kws,
    Forall (fun k => ~ occurs k content) kws ->
    any_in content (map JStr kws) = Ok false.
Proof.
  intros content kws H; induction H as [|k kws Hk _ IH]; simpl.
  - reflexivity.
  - destruct (contains k content) eqn:E; [|exact IH].
    apply contains_occurs in E; contradiction.
Qed.

Lemma any_in_true :
  forall content items,
    any_in content items = Ok true ->
    exists kw, In (JStr kw) items /\ occurs kw content.
Proof.
  intros content; induction items as [|x items IH]; simpl; intros H.
  - discriminate.
  - destruct x; try discriminate.
    destruct (contains s content) eqn:E.
    + exists s; split; [left; reflexivity | apply contains_occurs; exact E].
    + destruct (IH H) as [kw [Hin Hocc]].
      exists kw; split; [right; exact Hin | exact Hocc].
Qed.

(** C2. Content that holds none of the configured keywords and is at most
    20 characters long is answered [False] with the world untouched, the
    trace included: nothing is posted to the model.  And when
    [is_notification] answers [True], the content holds one of the
    configured keywords or is longer than 20 characters, and the reply of
    the model to the yes/no prompt, a string, contains the word for yes. *)
Theorem is_notification_two_stage :
  forall (content : pystr) (w : World),
    (forall kws,
        keywords_of w = Ok (map JStr kws) ->
        Forall (fun k => ~ occurs k content) kws ->
        (List.length content <= 20)%nat ->
        is_notification content w = (Ok false, w))
    /\
    (forall w',
        is_notification content w = (Ok true, w') ->
        ((exists items kw,
             keywords_of w = Ok items /\ In (JStr kw) items /\
             occurs kw content)
         \/ (20 < List.length content)%nat)
        /\
        exists reply,
          analyze_with_model (classify_prompt content) w = (Ok (JStr reply), w')
          /\ occurs s_yes reply).
Proof.
  intros content w; split.
  - intros kws Hk Hnone Hlen.
    unfold keywords_of in Hk.
    unfold is_notification, bind, get_config, lift.
    destruct (dict_method_get (self_config w) k_keywords (JArr [])) as [kv|e];
      simpl in Hk; [|discriminate].
    rewrite Hk; simpl.
    rewrite (any_in_none Hnone); simpl.
    replace (20 <? List.length content)%nat with false
      by (symmetry; apply Nat.ltb_ge; exact Hlen).
    reflexivity.
  - intros w' H.
    unfold is_notification, bind, get_config, lift in H.
    unfold keywords_of.
    destruct (dict_method_get (self_config w) k_keywords (JArr [])) as [kv|e];
      simpl in *; [|discriminate].
    destruct (py_iter kv) as [items|e]; simpl in *; [|discriminate].
    destruct (any_in content items) as [has|e] eqn:Hany; [|discriminate].
    destruct (has || (20 <? List.length content)%nat) eqn:Hgate;
      [|unfold ret in H; discriminate].
    split.
    + apply orb_true_iff in Hgate; destruct Hgate as [-> | Hlen].
      * left. destruct (any_in_true _ _ Hany) as [kw [Hin Hocc]].
        exists items, kw; auto.
      * right; apply Nat.ltb_lt; exact Hlen.
    + destruct (analyze_with_model (classify_prompt content) w)
        as [[response|e] w1]; [|discriminate].
      destruct response; simpl in H; try discriminate.
      destruct (encodable s); simpl in H; [|discriminate].
      unfold ret in H; inversion H; subst w1.
      exists s; split; [reflexivity|].
      apply occurs_trans with (strip s);
        [apply contains_occurs; assumption | apply strip_occurs].
Qed.

(** ** Extractor *)

(** Line 156 hands the reply itself to [json.load]: whatever the model
    answered, the body of the [try] raises there. *)
Lemma json_load_of_value :
  forall response, json_load (Val response) = Raise AttributeError.
Proof. reflexivity. Qed.

(** Hence every answer of the model ends in the handler: in the default
    record when the handler can print the answer, in the exception of its
    [print] otherwise. *)
Lemma extract_notification_info_default :
  forall content w response w1,
    analyze_with_model (extract_prompt content) w = (Ok response, w1) ->
    extract_notification_info content w
    = (match py_print response with
       | Ok _ => Ok (JObj (default_info content))
       | Raise e => Raise e
       end,
       w1).
Proof.
  intros content w response w1 H.
  unfold extract_notification_info; rewrite H; simpl.
  destruct (py_print response); reflexivity.
Qed.

(** What lines 159-169 make of a reply that is JSON as a whole. *)
Lemma decode_response_direct :
  forall s v, json_loads s = Some v -> decode_response (JStr s) = Ok v.
Proof.
  intros s v H; unfold decode_response, py_json_loads; rewrite H; reflexivity.
Qed.

(** What they make of a reply with an object between its braces. *)
Lemma decode_response_embedded :
  forall s v,
    json_loads s = None ->
    (0 <= find s s_lbrace < rfind s s_rbrace + 1)%Z ->
    json_loads (slice s (find s s_lbrace) (rfind s s_rbrace + 1)) = Some v ->
    decode_response (JStr s) = Ok v.
Proof.
  intros s v Hnone [H0 H1] Hsome.
  unfold decode_response, py_json_loads; rewrite Hnone.
  replace (0 <=? find s s_lbrace)%Z with true
    by (symmetry; apply Z.leb_le; exact H0).
  replace (find s s_lbrace <? rfind s s_rbrace + 1)%Z with true
    by (symmetry; apply Z.ltb_lt; exact H1).
  simpl; rewrite Hsome; reflexivity.
Qed.

(** What lines 172-178 make of an object that has the six fields. *)
Lemma complete_fields_present :
  forall key value rest d,
    dict_has key d = true ->
    str_eqb key k_is_urgent = false ->
    complete_fields ((key, value) :: rest) (JObj d)
    = complete_fields rest (JObj d).
Proof.
  intros key value rest d Hhas Hne; simpl.
  rewrite Hhas, Hne; reflexivity.
Qed.

Lemma complete_fields_full :
  forall content d,
    forallb (fun k => dict_has k d) info_keys = true ->
    complete_fields (default_info content) (JObj d) = Ok (JObj (coerce_urgent d)).
Proof.
  intros content d H.
  simpl in H.
  repeat (apply andb_true_iff in H; destruct H as [?H H]).
  unfold default_info.
  do 5 (rewrite complete_fields_present by (assumption || reflexivity)).
  unfold coerce_urgent; simpl.
  rewrite H5.
  replace (str_eqb k_is_urgent k_is_urgent) with true by reflexivity.
  unfold dict_has in H5; simpl.
  destruct (dict_get k_is_urgent d) as [cur|]; [|discriminate].
  destruct cur; reflexivity.
Qed.

(** When the model answered a string that decodes neither as a whole nor
    between its braces, and that the standard output can encode,
    [extract_notification_info] returns the default record: title
    "未知通知", empty time, location and action, [is_urgent] false, and for
    content the first 200 characters of the input.  The decoding of lines
    159-169 raises on such an answer, so that the record is the default
    one also by the path that the code means for it. *)
Lemma extract_unparseable_default :
  forall (content : pystr) (w w1 : World) (response : pystr),
    analyze_with_model (extract_prompt content) w = (Ok (JStr response), w1) ->
    wholly_unparseable response ->
    encodable response = true ->
    extract_notification_info content w
    = (Ok (JObj [(k_title, JStr s_unknown);
                 (k_time, JStr []);
                 (k_location, JStr []);
                 (k_content, JStr (firstn 200 content));
                 (k_action, JStr []);
                 (k_is_urgent, JBool false)]),
       w1)
    /\ exists e, decode_response (JStr response) = Raise e.
Proof.
  intros content w w1 response H [Hwhole Hbraces] Hprint; split.
  - rewrite (extract_notification_info_default _ _ H); simpl.
    rewrite Hprint; reflexivity.
  - unfold decode_response, py_json_loads; rewrite Hwhole.
    destruct ((0 <=? find response s_lbrace)%Z
              && (find response s_lbrace <? rfind response s_rbrace + 1)%Z)
      eqn:E.
    + apply andb_true_iff in E; destruct E as [E1 E2].
      apply Z.leb_le in E1; apply Z.ltb_lt in E2.
      rewrite (Hbraces (conj E1 E2)); eexists; reflexivity.
    + eexists; reflexivity.
Qed.

(** ** Notification store *)

Lemma get_notifications_store :
  forall w rs, store_holds w rs -> get_notifications w = (Ok (JArr rs), w).
Proof.
  intros w rs H; unfold get_notifications, try_except, bind, open_read, lift.
  simpl; destruct H as [Hf | text Hf Hd | Hf | text rs Hf Hd _]; rewrite Hf.
  - reflexivity.
  - unfold json_load; simpl; rewrite Hd; reflexivity.
  - reflexivity.
  - unfold json_load; simpl; rewrite Hd; reflexivity.
Qed.

Lemma stored_store : forall w rs, store_holds w rs -> stored w = rs.
Proof.
  intros w rs H; unfold stored; rewrite (get_notifications_store H).
  reflexivity.
Qed.

Lemma stored_decoded :
  forall w text rs,
    notifications_file w = Some (Text text) ->
    json_loads text = Some (JArr rs) ->
    stored w = rs.
Proof.
  intros w text rs Hf Hd.
  unfold stored, get_notifications, try_except, bind, open_read, lift.
  simpl; rewrite Hf; unfold json_load; simpl; rewrite Hd; reflexivity.
Qed.

(** The loop of [mark_notification_as_read], when it ends. *)
Lemma mark_loop_ok :
  forall id items p,
    mark_loop id items = Ok p ->
    fst p = map (mark_read id) items
    /\ snd p = existsb (record_matches id) items.
Proof.
  intros id; induction items as [|note items IH]; simpl; intros p H.
  - inversion H; simpl; auto.
  - destruct note; simpl in H; try discriminate.
    destruct (dict_get k_id members) as [idv|] eqn:Hid; simpl in H;
      [|discriminate].
    destruct (mark_loop id items) as [tail|e]; [|
      destruct (eq_str idv id); simpl in H; discriminate].
    destruct (IH tail eq_refl) as [IH1 IH2].
    assert (Hr : record_matches id (JObj members) = eq_str idv id)
      by (unfold record_matches; rewrite Hid; reflexivity).
    assert (Hm : mark_read id (JObj members)
                 = if eq_str idv id
                   then JObj (dict_set k_is_read (JBool true) members)
                   else JObj members)
      by (unfold mark_read; rewrite Hr; reflexivity).
    cbn [map existsb]; rewrite Hm, Hr, <- IH1, <- IH2.
    destruct (eq_str idv id); simpl in H; inversion H; auto.
Qed.

(** It ends on records. *)
Lemma mark_loop_records :
  forall id rs,
    forallb is_record rs = true ->
    mark_loop id rs
    = Ok (map (mark_read id) rs, existsb (record_matches id) rs).
Proof.
  intros id; induction rs as [|r rs IH]; simpl; intros H.
  - reflexivity.
  - apply andb_true_iff in H; destruct H as [Hr Hrs].
    destruct r; simpl in Hr; try discriminate.
    unfold dict_has in Hr; simpl.
    destruct (dict_get k_id members) as [idv|]; [|discriminate].
    simpl; rewrite (IH Hrs).
    destruct (eq_str idv id); reflexivity.
Qed.

(** The items of a dict or of a string are strings: none is a record. *)
Lemma no_record_among_strings :
  forall (A : Type) (f : A -> pystr) id (l : list A),
    existsb (record_matches id) (map (fun x => JStr (f x)) l) = false.
Proof. intros A f id; induction l; simpl; auto. Qed.

Lemma existsb_false_in :
  forall (A : Type) (f : A -> bool) l,
    (forall x, In x l -> f x = false) -> existsb f l = false.
Proof.
  intros A f; induction l as [|a l IH]; simpl; intros H; [reflexivity|].
  rewrite (H a (or_introl eq_refl)), IH; auto.
Qed.

(** The route lists nothing, or the array that the file decodes to. *)
Lemma stored_cases :
  forall w,
    stored w = []
    \/ exists text, notifications_file w = Some (Text text)
                    /\ json_loads text = Some (JArr (stored w)).
Proof.
  intros w.
  destruct (notifications_file w) as [[text|e]|] eqn:Hf.
  - destruct (json_loads text) as [v|] eqn:Hd.
    + destruct v;
        try (left; unfold stored, get_notifications, try_except, bind,
               open_read, lift; simpl; rewrite Hf; unfold json_load; simpl;
             rewrite Hd; reflexivity).
      right; exists text; rewrite (stored_decoded _ Hf Hd); auto.
    + left; unfold stored, get_notifications, try_except, bind, open_read,
        lift; simpl; rewrite Hf; unfold json_load; simpl; rewrite Hd.
      reflexivity.
  - left; unfold stored, get_notifications, try_except, bind, open_read,
      lift; simpl; rewrite Hf; destruct e; reflexivity.
  - left; unfold stored, get_notifications, try_except, bind, open_read,
      lift; simpl; rewrite Hf; reflexivity.
Qed.

(** A listing of dicts with an id, one of which has the id looked for, is
    a store of records. *)
Lemma store_of_listing :
  forall id w,
    forallb is_record (stored w) = true ->
    existsb (record_matches id) (stored w) = true ->
    store_holds w (stored w).
Proof.
  intros id w Hrec Hex.
  destruct (stored_cases w) as [Hnil | [text [Hf Hd]]].
  - rewrite Hnil in Hex; discriminate.
  - exact (store_records w Hf Hd Hrec).
Qed.

Lemma existsb_false_all :
  forall (A : Type) (f : A -> bool) l,
    existsb f l = false -> forall x, In x l -> f x = false.
Proof.
  intros A f l H x Hin.
  destruct (f x) eqn:E; [|reflexivity].
  rewrite <- H; symmetry; apply existsb_exists; eauto.
Qed.

(** The loop raises on an item that is no dict with an id. *)
Lemma mark_loop_blocked :
  forall id items,
    forallb is_record items = false ->
    exists e, mark_loop id items = Raise e.
Proof.
  intros id; induction items as [|r items IH]; simpl; intros H;
    [discriminate|].
  destruct r as [ | b | n | s | l | d ]; try (eexists; reflexivity).
  cbn [is_record getitem]; unfold dict_has in *; cbn [is_record] in H.
  unfold dict_has in H.
  destruct (dict_get k_id d) as [idv|]; [|eexists; reflexivity].
  simpl in H; destruct (IH H) as [e He].
  cbn [rbind]; rewrite He.
  destruct (eq_str idv id); eexists; reflexivity.
Qed.

(** No item that the loop of either method visits matches, once no stored
    record does. *)
Lemma no_match_among_items :
  forall id w text v items,
    notifications_file w = Some (Text text) ->
    json_loads text = Some v ->
    py_iter v = Ok items ->
    (forall r, In r (stored w) -> record_matches id r = false) ->
    existsb (record_matches id) items = false.
Proof.
  intros id w text v items Hf Hd Hit Hno.
  destruct v; simpl in Hit; try discriminate; inversion Hit; subst.
  - apply (no_record_among_strings (fun c => [c])).
  - apply existsb_false_in; rewrite (stored_decoded _ Hf Hd) in Hno; exact Hno.
  - apply (no_record_among_strings (@fst pystr json)).
Qed.

Lemma mark_no_match :
  forall id w,
    (forall r, In r (stored w) -> record_matches id r = false) ->
    mark_notification_as_read id w = (Ok false, w).
Proof.
  intros id w Hno.
  unfold mark_notification_as_read, try_except, bind, open_read, lift; simpl.
  destruct (notifications_file w) as [[text|e]|] eqn:Hf;
    [|reflexivity|reflexivity].
  unfold json_load; simpl.
  destruct (json_loads text) as [v|] eqn:Hd; [|reflexivity].
  destruct (py_iter v) as [items|e] eqn:Hit; simpl; [|reflexivity].
  destruct (mark_loop id items) as [p|e] eqn:Hloop; [|reflexivity].
  destruct (mark_loop_ok _ _ Hloop) as [_ Hupd].
  rewrite (no_match_among_items _ _ Hf Hd Hit Hno) in Hupd.
  rewrite Hupd; reflexivity.
Qed.

(** One item without an id among the items of the stored array: the loop
    raises, the handler returns [False], nothing is written. *)
Lemma mark_blocked :
  forall id w text items,
    notifications_file w = Some (Text text) ->
    json_loads text = Some (JArr items) ->
    forallb is_record items = false ->
    mark_notification_as_read id w = (Ok false, w).
Proof.
  intros id w text items Hf Hd Hbad.
  unfold mark_notification_as_read, try_except, bind, open_read, lift.
  simpl; rewrite Hf; unfold json_load; simpl; rewrite Hd; simpl.
  destruct (@mark_loop_blocked id items Hbad) as [e He]; rewrite He.
  reflexivity.
Qed.

(** A rewrite of the notification file. *)
Lemma json_dump_notifications :
  forall v w,
    json_dump v NOTIFICATIONS_FILE w
    = match dump_error v with
      | None => (Ok tt, rewritten w v)
      | Some e => (Raise e, truncated w)
      end.
Proof.
  intros v w; unfold json_dump; destruct (dump_error v); reflexivity.
Qed.

Lemma mark_records :
  forall id w text rs,
    notifications_file w = Some (Text text) ->
    json_loads text = Some (JArr rs) ->
    forallb is_record rs = true ->
    mark_notification_as_read id w
    = if existsb (record_matches id) rs
      then after_rewrite w (JArr (map (mark_read id) rs))
      else (Ok false, w).
Proof.
  intros id w text rs Hf Hd Hrec.
  unfold mark_notification_as_read, try_except, bind, open_read, lift; simpl.
  rewrite Hf; unfold json_load; simpl; rewrite Hd; simpl.
  rewrite (mark_loop_records id _ Hrec); simpl.
  destruct (existsb (record_matches id) rs); [|reflexivity].
  rewrite json_dump_notifications; unfold after_rewrite.
  destruct (dump_error (JArr (map (mark_read id) rs))); reflexivity.
Qed.

Lemma mark_run :
  forall id w rs,
    store_holds w rs ->
    mark_notification_as_read id w
    = if existsb (record_matches id) rs
      then after_rewrite w (JArr (map (mark_read id) rs))
      else (Ok false, w).
Proof.
  intros id w rs Hs.
  destruct (existsb (record_matches id) rs) eqn:Hex.
  - destruct Hs as [Hf | text Hf Hd | Hf | text rs Hf Hd Hrec];
      try discriminate.
    rewrite (mark_records id _ Hf Hd Hrec), Hex; reflexivity.
  - apply mark_no_match; rewrite (stored_store Hs); intros r Hin.
    destruct (record_matches id r) eqn:E; [|reflexivity].
    rewrite <- Hex; symmetry; apply existsb_exists; eauto.
Qed.

(** C6, as the code has it. When no stored record has the id,
    [mark_notification_as_read] returns [False] and leaves the world as it
    was, the notification file with it.  And in every state of the store
    it returns [True] exactly when one of the listed items has the id,
    every listed item is a dict with an id, and [json.dump] wrote the
    file. *)
Theorem mark_read_unknown_id :
  forall (id : pystr) (w : World),
    ((forall r, In r (stored w) -> record_matches id r = false) ->
     mark_notification_as_read id w = (Ok false, w)
     /\ stored (snd (mark_notification_as_read id w)) = stored w)
    /\
    (fst (mark_notification_as_read id w) = Ok true
     <-> (exists r, In r (stored w) /\ record_matches id r = true)
         /\ forallb is_record (stored w) = true
         /\ dump_error (JArr (map (mark_read id) (stored w))) = None).
Proof.
  intros id w; split.
  - intros Hno; rewrite (mark_no_match _ _ Hno); auto.
  - split.
    + intros H.
      destruct (existsb (record_matches id) (stored w)) eqn:Hex.
      2:{ rewrite (mark_no_match _ _ (existsb_false_all _ _ Hex)) in H.
          discriminate. }
      destruct (stored_cases w) as [Hnil | [text [Hf Hd]]];
        [rewrite Hnil in Hex; discriminate|].
      split; [apply existsb_exists; exact Hex|].
      destruct (forallb is_record (stored w)) eqn:Hrec.
      * rewrite (mark_records id _ Hf Hd Hrec), Hex in H.
        unfold after_rewrite in H.
        destruct (dump_error (JArr (map (mark_read id) (stored w))));
          [discriminate | auto].
      * rewrite (mark_blocked id _ Hf Hd Hrec) in H; discriminate.
    + intros [Hex [Hrec Hdump]].
      apply existsb_exists in Hex.
      rewrite (mark_run id (store_of_listing id w Hrec Hex)), Hex.
      unfold after_rewrite; rewrite Hdump; reflexivity.
Qed.

Lemma mark_read_of_match :
  forall id r,
    record_matches id r = true ->
    is_read (mark_read id r) = Some (JBool true)
    /\ record_matches id (mark_read id r) = true.
Proof.
  intros id r H; destruct r; try (simpl in H; discriminate).
  unfold mark_read; rewrite H; split.
  - apply dict_get_set_same.
  - unfold record_matches.
    rewrite dict_get_set_other by discriminate.
    exact H.
Qed.

Lemma mark_read_of_other :
  forall id r, record_matches id r = false -> mark_read id r = r.
Proof.
  intros id r H; destruct r; try reflexivity.
  unfold mark_read; rewrite H; reflexivity.
Qed.

Lemma stored_rewritten :
  forall w rs, roundtrips (JArr rs) -> stored (rewritten w (JArr rs)) = rs.
Proof.
  intros w rs H; apply stored_decoded with (json_dumps (JArr rs));
    [reflexivity | exact H].
Qed.

Lemma stored_truncated : forall w, stored (truncated w) = [].
Proof. reflexivity. Qed.

(** C9, as the code has it. On a store of records of which at least one
    has the id, and when [json.dump] writes the marked records, a call of
    [mark_notification_as_read] returns [True] and writes the notification
    file once, and nothing else: the array that it writes is the stored one
    with [is_read] set to [True] in every record that has the id, the first
    and the later ones alike, and with the other records as they were. *)
Theorem mark_read_marks_every_match :
  forall (id : pystr) (w : World) (rs : list json),
    store_holds w rs ->
    existsb (record_matches id) rs = true ->
    let rs' := map (mark_read id) rs in
    dump_error (JArr rs') = None ->
    mark_notification_as_read id w
    = (Ok true,
       mkWorld (config_file w) (Some (Text (json_dumps (JArr rs'))))
               (self_config w) (active_listeners w)
               (EvWrite NOTIFICATIONS_FILE (json_dumps (JArr rs')) :: trace w))
    /\ (forall r, In r rs -> record_matches id r = true ->
                  is_read (mark_read id r) = Some (JBool true)
                  /\ record_matches id (mark_read id r) = true)
    /\ (forall r, In r rs -> record_matches id r = false -> mark_read id r = r)
    /\ (roundtrips (JArr rs') ->
        stored (snd (mark_notification_as_read id w)) = rs').
Proof.
  intros id w rs Hs Hex rs' Hdump.
  assert (Hrun : mark_notification_as_read id w
                 = (Ok true, rewritten w (JArr rs'))).
  { rewrite (mark_run id Hs), Hex; unfold after_rewrite.
    fold rs'; rewrite Hdump; reflexivity. }
  split; [exact Hrun|].
  split; [intros r _; apply mark_read_of_match|].
  split; [intros r _; apply mark_read_of_other|].
  intros Hrt; rewrite Hrun; simpl; apply stored_rewritten; exact Hrt.
Qed.

(** The comprehension of [delete_notification], when it ends. *)
Lemma delete_filter_ok :
  forall id items new,
    delete_filter id items = Ok new ->
    new = filter (fun r => negb (record_matches id r)) items.
Proof.
  intros id; induction items as [|n items IH]; simpl; intros new H.
  - inversion H; reflexivity.
  - destruct n; simpl in H; try discriminate.
    destruct (dict_get k_id members) as [idv|] eqn:Hid; simpl in H;
      [|discriminate].
    destruct (delete_filter id items) as [tail|e]; [|discriminate].
    simpl in H; rewrite (IH tail eq_refl) in H.
    unfold record_matches at 1; rewrite Hid.
    destruct (eq_str idv id); inversion H; reflexivity.
Qed.

Lemma delete_filter_records :
  forall id rs,
    forallb is_record rs = true ->
    delete_filter id rs
    = Ok (filter (fun r => negb (record_matches id r)) rs).
Proof.
  intros id; induction rs as [|r rs IH]; simpl; intros H.
  - reflexivity.
  - apply andb_true_iff in H; destruct H as [Hr Hrs].
    destruct r; simpl in Hr; try discriminate.
    unfold dict_has in Hr; simpl.
    destruct (dict_get k_id members) as [idv|]; [|discriminate].
    simpl; rewrite (IH Hrs); simpl.
    destruct (eq_str idv id); reflexivity.
Qed.

Lemma filter_out_none :
  forall (A : Type) (p : A -> bool) l,
    existsb p l = false -> filter (fun x => negb (p x)) l = l.
Proof.
  intros A p; induction l as [|a l IH]; simpl; intros H; [reflexivity|].
  apply orb_false_iff in H; destruct H as [Ha Hl].
  rewrite Ha, (IH Hl); reflexivity.
Qed.

Lemma filter_out_shorter :
  forall (A : Type) (p : A -> bool) l,
    (List.length (filter (fun x => negb (p x)) l) <? List.length l)%nat
    = existsb p l.
Proof.
  intros A p l.
  destruct (existsb p l) eqn:E.
  - apply Nat.ltb_lt.
    induction l as [|a l IH]; simpl in *; [discriminate|].
    pose proof (filter_length_le (fun x => negb (p x)) l) as Hle.
    destruct (p a); simpl in *; [|apply IH in E]; lia.
  - rewrite (filter_out_none _ _ E); apply Nat.ltb_irrefl.
Qed.

Lemma py_len_iter :
  forall v items, py_iter v = Ok items -> py_len v = Ok (List.length items).
Proof.
  intros v items H; destruct v; simpl in *; try discriminate;
    inversion H; subst; rewrite ?length_map; reflexivity.
Qed.

Lemma delete_no_match :
  forall id w,
    (forall r, In r (stored w) -> record_matches id r = false) ->
    delete_notification id w = (Ok false, w).
Proof.
  intros id w Hno.
  unfold delete_notification, try_except, bind, open_read, lift; simpl.
  destruct (notifications_file w) as [[text|e]|] eqn:Hf;
    [|reflexivity|reflexivity].
  unfold json_load; simpl.
  destruct (json_loads text) as [v|] eqn:Hd; [|reflexivity].
  destruct (py_iter v) as [items|e] eqn:Hit; simpl; [|reflexivity].
  destruct (delete_filter id items) as [new|e] eqn:Hdel; [|reflexivity].
  rewrite (py_len_iter _ Hit), (delete_filter_ok _ _ Hdel).
  rewrite filter_out_shorter.
  rewrite (no_match_among_items _ _ Hf Hd Hit Hno); reflexivity.
Qed.

Lemma delete_records :
  forall id w text rs,
    notifications_file w = Some (Text text) ->
    json_loads text = Some (JArr rs) ->
    forallb is_record rs = true ->
    delete_notification id w
    = if existsb (record_matches id) rs
      then after_rewrite w
             (JArr (filter (fun r => negb (record_matches id r)) rs))
      else (Ok false, w).
Proof.
  intros id w text rs Hf Hd Hrec.
  unfold delete_notification, try_except, bind, open_read, lift; simpl.
  rewrite Hf; unfold json_load; simpl; rewrite Hd; simpl.
  rewrite (delete_filter_records id _ Hrec); simpl.
  rewrite filter_out_shorter.
  destruct (existsb (record_matches id) rs); [|reflexivity].
  rewrite json_dump_notifications; unfold after_rewrite.
  destruct (dump_error
              (JArr (filter (fun r => negb (record_matches id r)) rs)));
    reflexivity.
Qed.

Lemma delete_run :
  forall id w rs,
    store_holds w rs ->
    delete_notification id w
    = if existsb (record_matches id) rs
      then after_rewrite w
             (JArr (filter (fun r => negb (record_matches id r)) rs))
      else (Ok false, w).
Proof.
  intros id w rs Hs.
  destruct (existsb (record_matches id) rs) eqn:Hex.
  - destruct Hs as [Hf | text Hf Hd | Hf | text rs Hf Hd Hrec];
      try discriminate.
    rewrite (delete_records id _ Hf Hd Hrec), Hex; reflexivity.
  - apply delete_no_match; rewrite (stored_store Hs); intros r Hin.
    destruct (record_matches id r) eqn:E; [|reflexivity].
    rewrite <- Hex; symmetry; apply existsb_exists; eauto.
Qed.

(** The listing after a deletion, on a store of records: the records
    without the id when the file was written or did not need to be, and
    nothing when [json.dump] raised. *)
Lemma delete_stored :
  forall id w rs,
    store_holds w rs ->
    roundtrips (JArr (filter (fun r => negb (record_matches id r)) rs)) ->
    stored (snd (delete_notification id w))
    = if existsb (record_matches id) rs
      then match dump_error
                   (JArr (filter (fun r => negb (record_matches id r)) rs))
           with
           | None => filter (fun r => negb (record_matches id r)) rs
           | Some _ => []
           end
      else filter (fun r => negb (record_matches id r)) rs.
Proof.
  intros id w rs Hs Hrt.
  rewrite (delete_run id Hs); unfold after_rewrite.
  destruct (existsb (record_matches id) rs) eqn:Hex.
  - destruct (dump_error
                (JArr (filter (fun r => negb (record_matches id r)) rs)));
      simpl; [reflexivity | apply stored_rewritten; exact Hrt].
  - simpl; rewrite (stored_store Hs); symmetry.
    apply filter_out_none; exact Hex.
Qed.

Lemma delete_stored_clean :
  forall id w rs,
    store_holds w rs ->
    roundtrips (JArr (filter (fun r => negb (record_matches id r)) rs)) ->
    forall r, In r (stored (snd (delete_notification id w))) ->
              record_matches id r = false.
Proof.
  intros id w rs Hs Hrt r; rewrite (delete_stored id Hs Hrt).
  assert (Hfil : In r (filter (fun r => negb (record_matches id r)) rs) ->
                 record_matches id r = false).
  { intros Hin; apply filter_In in Hin.
    destruct Hin as [_ Hin]; apply negb_true_iff; exact Hin. }
  destruct (existsb (record_matches id) rs); [|exact Hfil].
  destruct (dump_error
              (JArr (filter (fun r => negb (record_matches id r)) rs)));
    [intros [] | exact Hfil].
Qed.

(** C5, as the code has it. When every listed item is a dict with an id,
    none of the notifications listed after [delete_notification] has the
    id: they are the former ones without those that have it when
    [json.dump] wrote the file.  And when no stored record has the id, in
    whatever state the store is, the call returns [False] and leaves the
    world as it was, the stored sequence with it. *)
Theorem delete_notification_removes_id :
  forall (id : pystr) (w : World),
    (forallb is_record (stored w) = true ->
     roundtrips
       (JArr (filter (fun r => negb (record_matches id r)) (stored w))) ->
     (forall r, In r (stored (snd (delete_notification id w))) ->
                record_matches id r = false)
     /\ (dump_error
           (JArr (filter (fun r => negb (record_matches id r)) (stored w)))
         = None ->
         stored (snd (delete_notification id w))
         = filter (fun r => negb (record_matches id r)) (stored w)))
    /\
    ((forall r, In r (stored w) -> record_matches id r = false) ->
     delete_notification id w = (Ok false, w)
     /\ stored (snd (delete_notification id w)) = stored w).
Proof.
  intros id w; split.
  - intros Hrec Hrt.
    destruct (existsb (record_matches id) (stored w)) eqn:Hex.
    + pose proof (store_of_listing id w Hrec Hex) as Hs.
      split; [exact (delete_stored_clean id Hs Hrt)|].
      intros Hdump; rewrite (delete_stored id Hs Hrt), Hdump, Hex.
      reflexivity.
    + pose proof (existsb_false_all _ _ Hex) as Hno.
      rewrite (delete_no_match _ _ Hno); simpl.
      split; [exact Hno|].
      intros _; symmetry; apply filter_out_none; exact Hex.
  - intros Hno; rewrite (delete_no_match _ _ Hno); auto.
Qed.

(** ** Config store *)

(** A write of the config file. *)
Lemma json_dump_config :
  forall v w,
    json_dump v CONFIG_FILE w
    = match dump_error v with
      | None =>
          (Ok tt,
           mkWorld (Some (Text (json_dumps v))) (notifications_file w)
                   (self_config w) (active_listeners w)
                   (EvWrite CONFIG_FILE (json_dumps v) :: trace w))
      | Some e =>
          (Raise e,
           mkWorld (Some (Unreadable JSONDecodeError)) (notifications_file w)
                   (self_config w) (active_listeners w)
                   (EvTruncate CONFIG_FILE :: trace w))
      end.
Proof.
  intros v w; unfold json_dump; destruct (dump_error v); reflexivity.
Qed.

Lemma save_config_given :
  forall config w,
    config <> JNull ->
    save_config config w = json_dump config CONFIG_FILE w.
Proof.
  intros config w Hne.
  unfold save_config, bind.
  destruct config; try reflexivity; contradiction.
Qed.

(** [save_config()] without an argument writes [self.config]. *)
Lemma save_config_self :
  forall w, save_config JNull w = json_dump (self_config w) CONFIG_FILE w.
Proof. reflexivity. Qed.


(** What [load_config] does, by what the file gives. *)
Lemma load_config_run :
  forall w,
    load_config w
    = match loaded (config_file w) with
      | Ok config => (Ok config, w)
      | Raise FileNotFoundError | Raise JSONDecodeError =>
          match json_dump default_config CONFIG_FILE w with
          | (Ok _, w1) => (Ok default_config, w1)
          | (Raise e, w1) => (Raise e, w1)
          end
      | Raise e => (Raise e, w)
      end.
Proof.
  intros w.
  unfold load_config, try_except, bind, open_read, lift, loaded; simpl.
  destruct (config_file w) as [f|].
  - destruct (json_load (File f)) as [config|e]; [reflexivity|].
    destruct e; try reflexivity;
      rewrite (@save_config_given default_config _ ltac:(discriminate));
      destruct (json_dump default_config CONFIG_FILE w) as [[u|e] w1];
      reflexivity.
  - rewrite (@save_config_given default_config _ ltac:(discriminate)).
    destruct (json_dump default_config CONFIG_FILE w) as [[u|e] w1];
      reflexivity.
Qed.



(** ** Listener manager *)

Lemma dict_has_set :
  forall (V : Type) k (v : V) d, dict_has k (dict_set k v d) = true.
Proof. intros V k v d; unfold dict_has; rewrite dict_get_set_same; reflexivity. Qed.

Lemma add_when_listening :
  forall name w,
    dict_has name (active_listeners w) = true ->
    add_group_listener name w = (Ok false, w).
Proof.
  intros name w H.
  unfold add_group_listener, bind, get_listeners; simpl; rewrite H; reflexivity.
Qed.

(** The end of both methods: the configuration is set, then saved. *)
Lemma set_then_save :
  forall config1 w,
    (let* _ := (let* _ := set_config config1 in save_config JNull) in ret true)
      w
    = saved_config w config1.
Proof.
  intros config1 w.
  unfold bind, set_config, save_config, get_config, json_dump, ret,
    saved_config; cbn.
  destruct (dump_error config1); reflexivity.
Qed.

(** [add_group_listener] on a group that is not listened to: the listener
    is registered, then the configuration is looked at. *)
Lemma add_group_listener_run :
  forall name w,
    dict_has name (active_listeners w) = false ->
    add_group_listener name w
    = match (let? groups := getitem (self_config w) k_target_groups in
             let? present := py_in name groups in
             if present then Ok None
             else
               let? groups1 := py_append groups (JStr name) in
               let? config1 :=
                 setitem (self_config w) k_target_groups groups1 in
               Ok (Some config1))
      with
      | Raise e => (Raise e, listening w name)
      | Ok None => (Ok true, listening w name)
      | Ok (Some config1) => saved_config (listening w name) config1
      end.
Proof.
  intros name w H.
  unfold add_group_listener, bind, get_listeners, emit, set_listeners,
    get_config, lift, set_config, save_config, json_dump, ret, saved_config,
    listening.
  cbn; rewrite H; cbn.
  destruct (getitem (self_config w) k_target_groups) as [groups|e]; cbn;
    [|reflexivity].
  destruct (py_in name groups) as [[|]|e]; cbn; try reflexivity.
  destruct (py_append groups (JStr name)) as [groups1|e]; cbn;
    [|reflexivity].
  destruct (setitem (self_config w) k_target_groups groups1) as [c|e]; cbn;
    [|reflexivity].
  destruct (dump_error c); reflexivity.
Qed.

Lemma saved_config_listeners :
  forall w config1,
    active_listeners (snd (saved_config w config1)) = active_listeners w.
Proof.
  intros w config1; unfold saved_config.
  destruct (dump_error config1); reflexivity.
Qed.

Lemma saved_config_groups :
  forall w config1, self_config (snd (saved_config w config1)) = config1.
Proof.
  intros w config1; unfold saved_config.
  destruct (dump_error config1); reflexivity.
Qed.

(** The world after the registration of a listener, before the
    configuration is looked at. *)
Lemma add_when_idle :
  forall name w,
    dict_has name (active_listeners w) = false ->
    forall r w1,
      add_group_listener name w = (r, w1) ->
      active_listeners w1 = dict_set name true (active_listeners w).
Proof.
  intros name w H r w1 E.
  assert (Hw : w1 = snd (add_group_listener name w)) by (rewrite E; reflexivity).
  rewrite Hw, add_group_listener_run by exact H.
  destruct (let? groups := getitem (self_config w) k_target_groups in
            let? present := py_in name groups in
            if present then Ok None
            else
              let? groups1 := py_append groups (JStr name) in
              let? config1 :=
                setitem (self_config w) k_target_groups groups1 in
              Ok (Some config1)) as [[config1|]|e]; try reflexivity.
  apply saved_config_listeners.
Qed.

(** What a call does to the list of groups, whether the configuration
    could then be written or not. *)
Lemma add_on_groups :
  forall name w groups,
    dict_has name (active_listeners w) = false ->
    target_groups_of w = Some groups ->
    target_groups_of (snd (add_group_listener name w))
    = Some (if existsb (fun g => eq_str g name) groups
            then groups else groups ++ [JStr name]).
Proof.
  intros name w groups H Hg.
  rewrite add_group_listener_run by exact H.
  unfold target_groups_of in Hg.
  destruct (self_config w) as [| | | | |d] eqn:Hc; try discriminate.
  destruct (dict_get k_target_groups d) as [[| | | |l|]|] eqn:Hd;
    try discriminate.
  inversion Hg; subst l; clear Hg.
  cbn [getitem]; rewrite Hd; cbn [rbind py_in].
  destruct (existsb (fun g => eq_str g name) groups).
  - unfold target_groups_of; cbn [snd listening self_config].
    rewrite Hc, Hd; reflexivity.
  - cbn [rbind py_append setitem].
    unfold target_groups_of; rewrite saved_config_groups.
    rewrite dict_get_set_same; reflexivity.
Qed.

(** A call that returns [True] saved what it changed. *)
Lemma add_returns_true :
  forall name w w1 groups,
    add_group_listener name w = (Ok true, w1) ->
    target_groups_of w = Some groups ->
    dict_has name (active_listeners w) = false
    /\ target_groups_of w1
       = Some (if existsb (fun g => eq_str g name) groups
               then groups else groups ++ [JStr name]).
Proof.
  intros name w w1 groups H Hg.
  destruct (dict_has name (active_listeners w)) eqn:Hl.
  - rewrite (add_when_listening _ _ Hl) in H; discriminate.
  - split; [reflexivity|].
    replace w1 with (snd (add_group_listener name w)) by (rewrite H; reflexivity).
    apply add_on_groups; assumption.
Qed.

Lemma occurrences_none :
  forall name groups,
    existsb (fun g => eq_str g name) groups = false ->
    occurrences name groups = 0%nat.
Proof.
  intros name groups H; unfold occurrences.
  induction groups as [|g groups IH]; simpl in *; [reflexivity|].
  apply orb_false_iff in H; destruct H as [Hg H].
  rewrite Hg; exact (IH H).
Qed.

Lemma occurrences_some :
  forall name groups,
    existsb (fun g => eq_str g name) groups = true ->
    (1 <= occurrences name groups)%nat.
Proof.
  intros name groups H; unfold occurrences.
  induction groups as [|g groups IH]; simpl in *; [discriminate|].
  destruct (eq_str g name); simpl in *; [lia | exact (IH H)].
Qed.

Lemma occurrences_app :
  forall name a b,
    occurrences name (a ++ b) = (occurrences name a + occurrences name b)%nat.
Proof.
  intros name a b; unfold occurrences.
  rewrite filter_app, length_app; reflexivity.
Qed.

(** C7, as the code has it. After an [add_group_listener] that returned
    [True], a second call for the same name returns [False] and changes
    nothing; [target_groups] then holds the name once if it held it at most
    once before the first call, and as often as before otherwise. *)
Theorem add_group_twice :
  forall (name : pystr) (w w1 : World),
    add_group_listener name w = (Ok true, w1) ->
    add_group_listener name w1 = (Ok false, w1)
    /\ forall groups,
         target_groups_of w = Some groups ->
         exists groups1,
           target_groups_of w1 = Some groups1
           /\ occurrences name groups1
              = Nat.max 1 (occurrences name groups).
Proof.
  intros name w w1 H.
  destruct (dict_has name (active_listeners w)) eqn:Hl.
  - rewrite (add_when_listening _ _ Hl) in H; discriminate.
  - split.
    + apply add_when_listening.
      rewrite (add_when_idle _ _ Hl H); apply dict_has_set.
    + intros groups Hg.
      destruct (@add_returns_true name w w1 groups H Hg) as [_ Hg1].
      eexists; split; [exact Hg1|].
      destruct (existsb (fun g => eq_str g name) groups) eqn:Hex.
      * pose proof (occurrences_some _ _ Hex); lia.
      * rewrite occurrences_app, (occurrences_none _ _ Hex).
        unfold occurrences; simpl; rewrite str_eqb_refl; reflexivity.
Qed.

Lemma remove_when_idle :
  forall name w,
    dict_has name (active_listeners w) = false ->
    remove_group_listener name w = (Ok false, w).
Proof.
  intros name w H.
  unfold remove_group_listener, bind, get_listeners; simpl; rewrite H.
  reflexivity.
Qed.

(** [remove_group_listener] on a group that is listened to. *)
Lemma remove_group_listener_run :
  forall name w,
    dict_has name (active_listeners w) = true ->
    remove_group_listener name w
    = match (let? groups := getitem (self_config w) k_target_groups in
             let? present := py_in name groups in
             if present then
               let? groups1 := py_remove groups name in
               let? config1 :=
                 setitem (self_config w) k_target_groups groups1 in
               Ok (Some config1)
             else Ok None)
      with
      | Raise e => (Raise e, unlistening w name)
      | Ok None => (Ok true, unlistening w name)
      | Ok (Some config1) => saved_config (unlistening w name) config1
      end.
Proof.
  intros name w H.
  unfold remove_group_listener, bind, get_listeners, emit, set_listeners,
    get_config, lift, set_config, save_config, json_dump, ret, saved_config,
    unlistening.
  cbn; rewrite H; cbn.
  destruct (getitem (self_config w) k_target_groups) as [groups|e]; cbn;
    [|reflexivity].
  destruct (py_in name groups) as [[|]|e]; cbn; try reflexivity.
  destruct (py_remove groups name) as [groups1|e]; cbn; [|reflexivity].
  destruct (setitem (self_config w) k_target_groups groups1) as [c|e]; cbn;
    [|reflexivity].
  destruct (dump_error c); reflexivity.
Qed.

Lemma remove_on_groups :
  forall name w groups,
    dict_has name (active_listeners w) = true ->
    target_groups_of w = Some groups ->
    target_groups_of (snd (remove_group_listener name w))
    = Some (if existsb (fun g => eq_str g name) groups
            then remove_first name groups else groups).
Proof.
  intros name w groups H Hg.
  rewrite remove_group_listener_run by exact H.
  unfold target_groups_of in Hg.
  destruct (self_config w) as [| | | | |d] eqn:Hc; try discriminate.
  destruct (dict_get k_target_groups d) as [[| | | |l|]|] eqn:Hd;
    try discriminate.
  inversion Hg; subst l; clear Hg.
  cbn [getitem]; rewrite Hd; cbn [rbind py_in].
  destruct (existsb (fun g => eq_str g name) groups).
  - cbn [rbind py_remove setitem].
    unfold target_groups_of; rewrite saved_config_groups.
    rewrite dict_get_set_same; reflexivity.
  - unfold target_groups_of; cbn [snd unlistening self_config].
    rewrite Hc, Hd; reflexivity.
Qed.

Lemma not_among_groups :
  forall name groups,
    existsb (fun g => eq_str g name) groups = false ->
    ~ In (JStr name) groups.
Proof.
  intros name groups H Hin.
  assert (E : existsb (fun g => eq_str g name) groups = true).
  { apply existsb_exists; exists (JStr name); split; [exact Hin|].
    simpl; apply str_eqb_refl. }
  congruence.
Qed.

Lemma NoDup_append_new :
  forall (A : Type) (x : A) l, NoDup l -> ~ In x l -> NoDup (l ++ [x]).
Proof.
  intros A x l Hnd; induction Hnd as [|a l Ha Hnd IH]; simpl; intros Hx.
  - constructor; [intros []|constructor].
  - constructor.
    + rewrite in_app_iff; simpl; intuition.
    + apply IH; intuition.
Qed.

Lemma remove_first_incl :
  forall name groups g, In g (remove_first name groups) -> In g groups.
Proof.
  intros name; induction groups as [|x groups IH]; simpl; intros g H.
  - exact H.
  - destruct (eq_str x name); [right; exact H|].
    destruct H as [H | H]; [left; exact H | right; apply IH; exact H].
Qed.

Lemma NoDup_remove_first :
  forall name groups, NoDup groups -> NoDup (remove_first name groups).
Proof.
  intros name groups H; induction H as [|x groups Hx Hnd IH]; simpl.
  - constructor.
  - destruct (eq_str x name); [exact Hnd|].
    constructor; [|exact IH].
    intros Hin; apply Hx; apply remove_first_incl with name; exact Hin.
Qed.

(** One call keeps the list of groups a list without repetition, also when
    the configuration could not be written. *)
Lemma run_call_nodup :
  forall c w groups,
    target_groups_of w = Some groups ->
    NoDup groups ->
    exists groups',
      target_groups_of (run_call c w) = Some groups' /\ NoDup groups'.
Proof.
  intros [name | name] w groups Hg Hnd; simpl.
  - destruct (dict_has name (active_listeners w)) eqn:Hl.
    + rewrite (add_when_listening _ _ Hl); simpl; eauto.
    + rewrite (@add_on_groups name w groups Hl Hg).
      eexists; split; [reflexivity|].
      destruct (existsb (fun g => eq_str g name) groups) eqn:Hex;
        [exact Hnd|].
      apply NoDup_append_new; [exact Hnd | apply not_among_groups; exact Hex].
  - destruct (dict_has name (active_listeners w)) eqn:Hl.
    + rewrite (@remove_on_groups name w groups Hl Hg).
      eexists; split; [reflexivity|].
      destruct (existsb (fun g => eq_str g name) groups);
        [apply NoDup_remove_first; exact Hnd | exact Hnd].
    + rewrite (remove_when_idle _ _ Hl); simpl; eauto.
Qed.

(** C10. From a configuration whose [target_groups] is a list without
    repetition, every sequence of [add_group_listener] and
    [remove_group_listener] calls leads to a configuration whose
    [target_groups] is again a list without repetition. *)
Theorem target_groups_stay_distinct :
  forall (calls : list group_call) (w : World) (groups : list json),
    target_groups_of w = Some groups ->
    NoDup groups ->
    exists groups',
      target_groups_of (run_calls calls w) = Some groups' /\ NoDup groups'.
Proof.
  induction calls as [|c calls IH]; intros w groups Hg Hnd.
  - exists groups; auto.
  - destruct (run_call_nodup c _ Hg Hnd) as [groups1 [Hg1 Hnd1]].
    exact (IH _ _ Hg1 Hnd1).
Qed.

(** ** The model API, the self-test and the verdict *)

Lemma call_model_api_run :
  forall prompt w,
    call_model_api prompt w
    = (Ok (api_post (trace w) prompt), after_post w prompt).
Proof. reflexivity. Qed.

Lemma analyze_with_model_run :
  forall prompt w,
    analyze_with_model prompt w
    = (match usable (api_post (trace w) prompt) with
       | Ok true => reply_content (api_post (trace w) prompt)
       | Ok false => Ok (JStr [])
       | Raise e => Raise e
       end,
       after_post w prompt).
Proof.
  intros prompt w.
  unfold analyze_with_model, bind; rewrite call_model_api_run.
  unfold lift; fold (usable (api_post (trace w) prompt)).
  destruct (usable (api_post (trace w) prompt)) as [[|]|e]; reflexivity.
Qed.

(** X1. [analyze_with_model] sends the prompt once and touches nothing
    else, whether it returns or raises.  It returns the empty string when
    the request failed or the body is empty or a dict without "choices",
    the content of the first choice of a well-formed body, and it raises
    [IndexError] on a body whose list of choices is empty. *)
Theorem analyze_with_model_outcomes :
  forall (prompt : pystr) (w : World),
    snd (analyze_with_model prompt w) = after_post w prompt
    /\ (truthy (api_post (trace w) prompt) = false ->
        fst (analyze_with_model prompt w) = Ok (JStr []))
    /\ (forall d,
           api_post (trace w) prompt = JObj d ->
           dict_get k_choices d = None ->
           fst (analyze_with_model prompt w) = Ok (JStr []))
    /\ (forall d choice others message content,
           api_post (trace w) prompt = JObj d ->
           dict_get k_choices d = Some (JArr (JObj choice :: others)) ->
           dict_get k_message choice = Some (JObj message) ->
           dict_get k_content message = Some content ->
           fst (analyze_with_model prompt w) = Ok content)
    /\ (forall d,
           api_post (trace w) prompt = JObj d ->
           dict_get k_choices d = Some (JArr []) ->
           fst (analyze_with_model prompt w) = Raise IndexError).
Proof.
  intros prompt w; rewrite analyze_with_model_run; simpl.
  split; [reflexivity|].
  split; [intros H; unfold usable; rewrite H; reflexivity|].
  split.
  { intros d Hr Hc; rewrite Hr; unfold usable; simpl.
    unfold dict_has; rewrite Hc.
    destruct d; reflexivity. }
  split.
  - intros d choice others message content Hr Hc Hm Hv.
    rewrite Hr; unfold usable, reply_content; simpl.
    unfold dict_has; rewrite Hc.
    destruct d as [|kv d]; [discriminate|].
    simpl; rewrite Hm; simpl; rewrite Hv; reflexivity.
  - intros d Hr Hc; rewrite Hr; unfold usable, reply_content; simpl.
    unfold dict_has; rewrite Hc.
    destruct d as [|kv d]; [discriminate|]; reflexivity.
Qed.






(** X3. When the request to the model fails, or its body is empty,
    [is_notification] answers [False] for every message, whatever the
    local filter said. *)
Theorem is_notification_without_model :
  forall (content : pystr) (w : World) (items : list json) (has : bool),
    keywords_of w = Ok items ->
    any_in content items = Ok has ->
    truthy (api_post (trace w) (classify_prompt content)) = false ->
    fst (is_notification content w) = Ok false.
Proof.
  intros content w items has Hk Hany Hdown.
  unfold keywords_of in Hk.
  unfold is_notification, bind, get_config, lift.
  destruct (dict_method_get (self_config w) k_keywords (JArr [])) as [kv|e];
    simpl in Hk; [|discriminate].
  rewrite Hk; simpl; rewrite Hany.
  destruct (has || (20 <? List.length content)%nat); [|reflexivity].
  rewrite analyze_with_model_run; unfold usable; rewrite Hdown.
  reflexivity.
Qed.

Lemma test_model_connection_run :
  forall w,
    test_model_connection w
    = (match usable (api_post (trace w) test_prompt) with
       | Ok true =>
           match reply_content (api_post (trace w) test_prompt) with
           | Ok content =>
               Ok (JObj [(k_success, JBool true); (k_response, content)])
           | Raise e => Raise e
           end
       | Ok false =>
           Ok (JObj [(k_success, JBool false);
                     (k_error, JStr s_no_response)])
       | Raise e => Raise e
       end,
       after_post w test_prompt).
Proof.
  intros w; unfold test_model_connection, bind; rewrite call_model_api_run.
  unfold lift.
  destruct (usable (api_post (trace w) test_prompt)) as [[|]|e];
    try reflexivity.
  destruct (reply_content (api_post (trace w) test_prompt)); reflexivity.
Qed.

(** X4. The self-test route answers 200 with the words of the model when
    the body of the reply has the content of a first choice, and 500 with
    the error "无法获取模型响应" when the request failed or the body is
    empty or a dict without "choices"; either way it sent the canned
    prompt once and touched nothing else. *)
Theorem test_model_api_outcomes :
  forall (w : World),
    snd (test_model_api w) = after_post w test_prompt
    /\ (forall d choice others message content,
           api_post (trace w) test_prompt = JObj d ->
           dict_get k_choices d = Some (JArr (JObj choice :: others)) ->
           dict_get k_message choice = Some (JObj message) ->
           dict_get k_content message = Some content ->
           fst (test_model_api w)
           = Ok (JObj [(k_success, JBool true);
                       (k_model, JStr MODEL_NAME);
                       (k_response, content);
                       (k_status, JStr s_api_ok)],
                 200%Z))
    /\ (truthy (api_post (trace w) test_prompt) = false
        \/ (exists d, api_post (trace w) test_prompt = JObj d
                      /\ dict_get k_choices d = None) ->
        fst (test_model_api w)
        = Ok (JObj [(k_success, JBool false);
                    (k_model, JStr MODEL_NAME);
                    (k_error, JStr s_no_response);
                    (k_status, JStr s_api_failed)],
              500%Z)).
Proof.
  intros w; unfold test_model_api, bind; rewrite test_model_connection_run.
  split.
  - destruct (usable (api_post (trace w) test_prompt)) as [[|]|e];
      try reflexivity.
    destruct (reply_content (api_post (trace w) test_prompt)); reflexivity.
  - split.
    + intros d choice others message content Hr Hc Hm Hv.
      rewrite Hr; unfold usable, reply_content; simpl.
      unfold dict_has; rewrite Hc.
      destruct d as [|kv d]; [discriminate|].
      simpl; rewrite Hm; simpl; rewrite Hv; reflexivity.
    + intros [Hdown | [d [Hr Hc]]].
      * unfold usable; rewrite Hdown; reflexivity.
      * rewrite Hr; unfold usable; simpl; unfold dict_has; rewrite Hc.
        destruct d; reflexivity.
Qed.

(** ** The decoding and the completion of a reply *)

Lemma complete_fields_step :
  forall key value rest d,
    str_eqb key k_is_urgent = false ->
    complete_fields ((key, value) :: rest) (JObj d)
    = complete_fields rest (JObj (fill d key value)).
Proof.
  intros key value rest d Hne; simpl; rewrite Hne; unfold fill.
  destruct (dict_has key d); reflexivity.
Qed.

Lemma complete_fields_last :
  forall value d,
    complete_fields [(k_is_urgent, value)] (JObj d)
    = Ok (JObj (coerce_urgent (fill d k_is_urgent value))).
Proof.
  intros value d; simpl.
  replace (str_eqb k_is_urgent k_is_urgent) with true by reflexivity.
  unfold fill, coerce_urgent.
  destruct (dict_has k_is_urgent d) eqn:Hhas; simpl.
  - unfold dict_has in Hhas.
    destruct (dict_get k_is_urgent d) as [cur|]; [|discriminate].
    destruct cur; reflexivity.
  - rewrite dict_get_set_same.
    destruct value; reflexivity.
Qed.

Lemma dict_get_fill :
  forall k d key value,
    dict_get k (fill d key value)
    = match dict_get k d with
      | Some v => Some v
      | None => if str_eqb k key then Some value else None
      end.
Proof.
  intros k d key value; unfold fill, dict_has.
  destruct (dict_get key d) as [x|] eqn:Hkey.
  - destruct (dict_get k d) as [v|] eqn:Hk; [reflexivity|].
    destruct (str_eqb k key) eqn:E; [|reflexivity].
    apply str_eqb_eq in E; subst; congruence.
  - destruct (str_eqb k key) eqn:E.
    + apply str_eqb_eq in E; subst.
      rewrite dict_get_set_same, Hkey; reflexivity.
    + rewrite dict_get_set_other.
      * destruct (dict_get k d); reflexivity.
      * intros ->; rewrite str_eqb_refl in E; discriminate.
Qed.

Lemma dict_get_coerce_urgent :
  forall k d,
    dict_get k (coerce_urgent d)
    = if str_eqb k k_is_urgent then
        match dict_get k_is_urgent d with
        | Some (JStr s) =>
            Some (JBool (existsb (str_eqb (str_lower s)) urgent_words))
        | other => other
        end
      else dict_get k d.
Proof.
  intros k d; unfold coerce_urgent.
  destruct (str_eqb k k_is_urgent) eqn:E.
  - apply str_eqb_eq in E; subst.
    destruct (dict_get k_is_urgent d) as [[| | |s| |]|] eqn:H;
      try exact H.
    apply dict_get_set_same.
  - destruct (dict_get k_is_urgent d) as [[| | |s| |]|]; try reflexivity.
    apply dict_get_set_other.
    intros <-; rewrite str_eqb_refl in E; discriminate.
Qed.

(** X5. On a dict, the completion loop of lines 172-178 returns a dict in
    which a field that the reply had keeps its value, a field that it
    lacked among the six has the default, and [is_urgent], when it was a
    string, is the boolean of its membership in the three words; no other
    key appears or changes. *)
Theorem complete_fields_on_dict :
  forall (content : pystr) (d : dict),
    exists d',
      complete_fields (default_info content) (JObj d) = Ok (JObj d')
      /\ (forall k,
             str_eqb k k_is_urgent = false ->
             dict_get k d'
             = match dict_get k d with
               | Some v => Some v
               | None => dict_get k (default_info content)
               end)
      /\ dict_get k_is_urgent d'
         = match dict_get k_is_urgent d with
           | Some (JStr s) =>
               Some (JBool (existsb (str_eqb (str_lower s)) urgent_words))
           | Some v => Some v
           | None => Some (JBool false)
           end.
Proof.
  intros content d; unfold default_info.
  do 5 (rewrite complete_fields_step by reflexivity).
  rewrite complete_fields_last.
  eexists; split; [reflexivity|]; split.
  - intros k Hk.
    rewrite dict_get_coerce_urgent, Hk, !dict_get_fill.
    destruct (dict_get k d) as [v|]; [reflexivity|].
    simpl; rewrite Hk.
    destruct (str_eqb k k_title); [reflexivity|].
    destruct (str_eqb k k_time); [reflexivity|].
    destruct (str_eqb k k_location); [reflexivity|].
    destruct (str_eqb k k_content); [reflexivity|].
    destruct (str_eqb k k_action); reflexivity.
  - rewrite dict_get_coerce_urgent.
    replace (str_eqb k_is_urgent k_is_urgent) with true by reflexivity.
    rewrite !dict_get_fill.
    replace (str_eqb k_is_urgent k_is_urgent) with true by reflexivity.
    replace (str_eqb k_is_urgent k_title) with false by reflexivity.
    replace (str_eqb k_is_urgent k_time) with false by reflexivity.
    replace (str_eqb k_is_urgent k_location) with false by reflexivity.
    replace (str_eqb k_is_urgent k_content) with false by reflexivity.
    replace (str_eqb k_is_urgent k_action) with false by reflexivity.
    destruct (dict_get k_is_urgent d) as [[| | |s| |]|]; reflexivity.
Qed.

Lemma complete_fields_sequence :
  forall defaults info,
    (forall d, info <> JObj d) ->
    complete_fields defaults info = Raise TypeError
    \/ (complete_fields defaults info = Ok info
        /\ dict_has k_is_urgent defaults = false).
Proof.
  induction defaults as [|[key value] rest IH]; intros info Hnot.
  - right; split; reflexivity.
  - cbn [complete_fields].
    destruct info as [ | b | n | s | l | d ];
      try (left; reflexivity); try (exfalso; exact (Hnot d eq_refl)).
    + cbn [py_in rbind]; destruct (contains key s); [|left; reflexivity].
      destruct (str_eqb key k_is_urgent) eqn:E; [left; reflexivity|].
      cbn [rbind]; destruct (IH (JStr s) Hnot) as [H | [H Hu]];
        [left; exact H | right; split; [exact H|]].
      unfold dict_has in *; cbn [dict_get].
      replace (str_eqb k_is_urgent key) with false; [exact Hu|].
      symmetry; apply str_eqb_neq; intros <-.
      rewrite str_eqb_refl in E; discriminate.
    + cbn [py_in rbind].
      destruct (existsb (fun x => eq_str x key) l); [|left; reflexivity].
      destruct (str_eqb key k_is_urgent) eqn:E; [left; reflexivity|].
      cbn [rbind]; destruct (IH (JArr l) Hnot) as [H | [H Hu]];
        [left; exact H | right; split; [exact H|]].
      unfold dict_has in *; cbn [dict_get].
      replace (str_eqb k_is_urgent key) with false; [exact Hu|].
      symmetry; apply str_eqb_neq; intros <-.
      rewrite str_eqb_refl in E; discriminate.
Qed.

(** X6. On a reply that decodes to anything but a dict (a list, a string,
    a number, a boolean, null), the completion loop raises [TypeError]. *)
Theorem complete_fields_not_dict :
  forall (content : pystr) (info : json),
    (forall d, info <> JObj d) ->
    complete_fields (default_info content) info = Raise TypeError.
Proof.
  intros content info Hnot.
  destruct (complete_fields_sequence (default_info content) Hnot)
    as [H | [_ Hu]]; [exact H | discriminate].
Qed.

Lemma find_char_app :
  forall c pre post i,
    has_char c pre = false ->
    find_from [c] (pre ++ c :: post) i = (i + Z.of_nat (List.length pre))%Z.
Proof.
  intros c; induction pre as [|x pre IH]; intros post i H.
  - cbn [app find_from startswith]; rewrite N.eqb_refl; simpl; lia.
  - cbn [has_char existsb] in H; apply orb_false_iff in H.
    destruct H as [Hx H].
    cbn [app find_from startswith]; rewrite Hx; cbn [andb].
    rewrite (@IH post (i + 1)%Z H); cbn [List.length]; lia.
Qed.

Lemma find_char_none :
  forall c s i, has_char c s = false -> find_from [c] s i = (-1)%Z.
Proof.
  intros c; induction s as [|x s IH]; intros i H; [reflexivity|].
  cbn [has_char existsb] in H; apply orb_false_iff in H.
  destruct H as [Hx H].
  cbn [find_from startswith]; rewrite Hx; cbn [andb]; apply IH; exact H.
Qed.

Lemma rfind_char_none :
  forall c s i, has_char c s = false -> rfind_from [c] s i = (-1)%Z.
Proof.
  intros c; induction s as [|x s IH]; intros i H; [reflexivity|].
  cbn [has_char existsb] in H; apply orb_false_iff in H.
  destruct H as [Hx H].
  cbn [rfind_from startswith]; rewrite (@IH (i + 1)%Z H), Hx; reflexivity.
Qed.

Lemma rfind_char_app :
  forall c pre post i,
    (0 <= i)%Z ->
    has_char c post = false ->
    rfind_from [c] (pre ++ c :: post) i = (i + Z.of_nat (List.length pre))%Z.
Proof.
  intros c; induction pre as [|x pre IH]; intros post i Hi H.
  - cbn [app rfind_from startswith].
    rewrite (@rfind_char_none c post (i + 1)%Z H), N.eqb_refl; simpl; lia.
  - cbn [app rfind_from].
    rewrite (@IH post (i + 1)%Z ltac:(lia) H).
    replace (0 <=? i + 1 + Z.of_nat (List.length pre))%Z with true
      by (symmetry; apply Z.leb_le; lia).
    cbn [List.length]; lia.
Qed.

(** A string with the character splits at its first occurrence, and at its
    last. *)
Lemma first_char_split :
  forall c s,
    has_char c s = true ->
    exists pre post, s = pre ++ c :: post /\ has_char c pre = false.
Proof.
  intros c; induction s as [|x s IH]; intros H; [discriminate|].
  cbn [has_char existsb] in H.
  destruct (c =? x)%N eqn:E.
  - apply N.eqb_eq in E; subst; exists [], s; auto.
  - destruct (IH H) as [pre [post [-> Hp]]].
    exists (x :: pre), post; split; [reflexivity|].
    cbn [has_char existsb]; rewrite E; exact Hp.
Qed.

Lemma last_char_split :
  forall c s,
    has_char c s = true ->
    exists pre post, s = pre ++ c :: post /\ has_char c post = false.
Proof.
  intros c; induction s as [|x s IH]; intros H; [discriminate|].
  destruct (has_char c s) eqn:Hs.
  - destruct (IH eq_refl) as [pre [post [-> Hp]]].
    exists (x :: pre), post; auto.
  - cbn [has_char existsb] in H; fold (has_char c s) in H.
    rewrite Hs, orb_false_r in H; apply N.eqb_eq in H; subst.
    exists [], s; auto.
Qed.

Lemma slice_middle :
  forall (pre mid post : pystr),
    slice (pre ++ mid ++ post) (Z.of_nat (List.length pre))
          (Z.of_nat (List.length pre) + Z.of_nat (List.length mid))
    = mid.
Proof.
  intros pre mid post; unfold slice.
  replace (Z.of_nat (List.length pre) + Z.of_nat (List.length mid)
           - Z.of_nat (List.length pre))%Z
    with (Z.of_nat (List.length mid)) by lia.
  rewrite !Nat2Z.id.
  rewrite skipn_app, skipn_all, Nat.sub_diag; simpl.
  rewrite firstn_app, firstn_all, Nat.sub_diag; simpl.
  apply app_nil_r.
Qed.

(** X7. When the reply is not JSON as a whole, what the fallback of lines
    163-167 decodes is the text from the first opening brace of the reply
    to its last closing brace, both included; and when the reply has no
    opening brace, or no closing brace after the first opening one, the
    fallback raises [ValueError]. *)
Theorem decode_response_braces :
  forall (s : pystr),
    json_loads s = None ->
    (forall pre mid post,
        s = pre ++ 123%N :: mid ++ 125%N :: post ->
        has_char 123 pre = false ->
        has_char 125 post = false ->
        decode_response (JStr s)
        = py_json_loads (JStr (123%N :: mid ++ [125%N])))
    /\ ((forall pre mid post, s <> pre ++ 123%N :: mid ++ 125%N :: post) ->
        decode_response (JStr s) = Raise ValueError).
Proof.
  intros s Hnone; split.
  - intros pre mid post -> Hpre Hpost.
    unfold decode_response, py_json_loads at 1; rewrite Hnone.
    change s_lbrace with [123%N]; change s_rbrace with [125%N].
    unfold find, rfind.
    rewrite (@find_char_app 123%N pre _ 0%Z Hpre).
    replace (pre ++ 123%N :: mid ++ 125%N :: post)
      with ((pre ++ 123%N :: mid) ++ 125%N :: post)
      by (rewrite <- app_assoc; reflexivity).
    rewrite (@rfind_char_app 125%N (pre ++ 123%N :: mid) post 0%Z (Z.le_refl 0) Hpost).
    rewrite length_app; cbn [List.length].
    replace (0 <=? 0 + Z.of_nat (List.length pre))%Z with true
      by (symmetry; apply Z.leb_le; lia).
    replace (0 + Z.of_nat (List.length pre)
             <? 0 + Z.of_nat (List.length pre + S (List.length mid)) + 1)%Z
      with true by (symmetry; apply Z.ltb_lt; lia).
    cbn [andb].
    replace ((pre ++ 123%N :: mid) ++ 125%N :: post)
      with (pre ++ (123%N :: mid ++ [125%N]) ++ post)
      by (cbn [app]; rewrite <- !app_assoc; reflexivity).
    replace (0 + Z.of_nat (List.length pre + S (List.length mid)) + 1)%Z
      with (Z.of_nat (List.length pre)
            + Z.of_nat (List.length (123%N :: mid ++ [125%N])))%Z
      by (cbn [List.length]; rewrite length_app; cbn [List.length]; lia).
    replace (0 + Z.of_nat (List.length pre))%Z
      with (Z.of_nat (List.length pre)) by lia.
    rewrite slice_middle; reflexivity.
  - intros Hno.
    unfold decode_response, py_json_loads at 1; rewrite Hnone.
    change s_lbrace with [123%N]; change s_rbrace with [125%N].
    unfold find, rfind.
    destruct (has_char 123 s) eqn:Hopen.
    + destruct (@first_char_split 123%N s Hopen) as [pre [rest [-> Hpre]]].
      rewrite (@find_char_app 123%N pre _ 0%Z Hpre).
      destruct (has_char 125 rest) eqn:Hclose.
      * destruct (@last_char_split 125%N rest Hclose) as [mid [post [-> Hpost]]].
        exfalso; exact (Hno pre mid post eq_refl).
      * assert (Hr : (rfind_from [125%N] (pre ++ 123%N :: rest) 0
                      < Z.of_nat (List.length pre))%Z).
        { clear - Hclose.
          assert (G : forall i, (0 <= i)%Z ->
                       (rfind_from [125%N] (pre ++ 123%N :: rest) i
                        < i + Z.of_nat (List.length pre))%Z).
          { induction pre as [|x pre IH]; intros i Hi.
            - cbn [app rfind_from startswith].
              rewrite (@rfind_char_none 125%N rest (i + 1)%Z Hclose); simpl; lia.
            - cbn [app rfind_from List.length].
              pose proof (IH (i + 1)%Z ltac:(lia)) as Hrec.
              destruct (0 <=? rfind_from [125%N] (pre ++ 123%N :: rest)
                                (i + 1))%Z; [lia|].
              destruct (startswith [125%N] (x :: pre ++ 123%N :: rest)); lia. }
          apply (G 0%Z); lia. }
        replace (0 + Z.of_nat (List.length pre)
                 <? rfind_from [125%N] (pre ++ 123%N :: rest) 0 + 1)%Z
          with false by (symmetry; apply Z.ltb_ge; lia).
        rewrite andb_false_r; reflexivity.
    + rewrite (@find_char_none 123%N s 0%Z Hopen); reflexivity.
Qed.

(** X8. When the model answers with an empty list of choices,
    [extract_notification_info] does not fall back to the default record:
    [analyze_with_model] raises inside the [try], and the handler, which
    prints the response that was never bound, raises
    [UnboundLocalError]. *)
Theorem extract_after_empty_choices :
  forall (content : pystr) (w : World) (d : dict),
    api_post (trace w) (extract_prompt content) = JObj d ->
    dict_get k_choices d = Some (JArr []) ->
    extract_notification_info content w
    = (Raise UnboundLocalError, after_post w (extract_prompt content)).
Proof.
  intros content w d Hr Hc.
  unfold extract_notification_info; rewrite analyze_with_model_run, Hr.
  unfold usable, reply_content; simpl; unfold dict_has; rewrite Hc.
  destruct d as [|kv d]; [discriminate|]; reflexivity.
Qed.

(** ** Saving, and how the operations of the store compose *)

Lemma save_notification_run :
  forall seconds timestamp data w rs,
    store_holds w rs ->
    save_notification seconds timestamp data w
    = match dump_error
              (JArr (rs ++ [notification_of seconds timestamp data])) with
      | None =>
          (Ok tt,
           rewritten w
             (JArr (rs ++ [notification_of seconds timestamp data])))
      | Some e => (Raise e, truncated w)
      end.
Proof.
  intros seconds timestamp data w rs Hs.
  unfold save_notification, bind, try_except, open_read, lift; simpl.
  destruct Hs as [Hf | text Hf Hd | Hf | text rs Hf Hd _]; rewrite Hf;
    unfold json_load; simpl; rewrite ?Hd; simpl;
    rewrite json_dump_notifications; reflexivity.
Qed.

(** X9. On every store of records, a missing or an undecodable file
    counting as the empty one, [save_notification] hands to [json.dump]
    the array of the stored records followed by the new one.  When
    [json.dump] writes it, the method returns, the file holds that array
    and nothing else has changed, and the array is what the listing then
    shows.  When [json.dump] raises, the method raises the same, the file
    is left truncated and the listing is empty. *)
Theorem save_notification_appends :
  forall (seconds : Z) (timestamp : pystr) (data : dict) (w : World)
         (rs : list json),
    store_holds w rs ->
    (dump_error (JArr (rs ++ [notification_of seconds timestamp data]))
     = None ->
     save_notification seconds timestamp data w
     = (Ok tt,
        mkWorld (config_file w)
          (Some (Text (json_dumps
                         (JArr (rs ++ [notification_of seconds timestamp
                                         data])))))
          (self_config w) (active_listeners w)
          (EvWrite NOTIFICATIONS_FILE
             (json_dumps
                (JArr (rs ++ [notification_of seconds timestamp data])))
           :: trace w))
     /\ (roundtrips (JArr (rs ++ [notification_of seconds timestamp data])) ->
         stored (snd (save_notification seconds timestamp data w))
         = rs ++ [notification_of seconds timestamp data]))
    /\ (forall e,
           dump_error (JArr (rs ++ [notification_of seconds timestamp data]))
           = Some e ->
           save_notification seconds timestamp data w
           = (Raise e,
              mkWorld (config_file w) (Some (Unreadable JSONDecodeError))
                (self_config w) (active_listeners w)
                (EvTruncate NOTIFICATIONS_FILE :: trace w))
           /\ stored (snd (save_notification seconds timestamp data w)) = []).
Proof.
  intros seconds timestamp data w rs Hs.
  rewrite (save_notification_run seconds timestamp data Hs).
  split.
  - intros ->; split; [reflexivity|].
    intros Hrt; simpl; apply stored_rewritten; exact Hrt.
  - intros e ->; split; reflexivity.
Qed.

Lemma dict_has_after_set :
  forall (V : Type) k k' (v : V) d,
    dict_has k d = true -> dict_has k (dict_set k' v d) = true.
Proof.
  intros V k k' v d H; unfold dict_has in *.
  destruct (str_eqb k' k) eqn:E.
  - apply str_eqb_eq in E; subst; rewrite dict_get_set_same; reflexivity.
  - rewrite dict_get_set_other; [exact H|].
    intros ->; rewrite str_eqb_refl in E; discriminate.
Qed.

Lemma dict_has_update :
  forall k b a, dict_has k a = true -> dict_has k (dict_update a b) = true.
Proof.
  intros k; unfold dict_update.
  induction b as [|[k' v'] b IH]; intros a H; simpl; [exact H|].
  apply IH, dict_has_after_set; exact H.
Qed.

Lemma dict_get_absent :
  forall (d : dict) k,
    existsb (str_eqb k) (map fst d) = false -> dict_get k d = None.
Proof.
  induction d as [|[k' v'] d IH]; intros k H; simpl in *; [reflexivity|].
  apply orb_false_iff in H; destruct H as [Hk H].
  rewrite Hk; apply IH; exact H.
Qed.

Lemma dict_get_update :
  forall k b a,
    distinct (map fst b) = true ->
    dict_get k (dict_update a b)
    = match dict_get k b with
      | Some v => Some v
      | None => dict_get k a
      end.
Proof.
  intros k; unfold dict_update.
  induction b as [|[k0 v0] b IH]; intros a Hd; [reflexivity|].
  cbn [map fst distinct] in Hd; apply andb_true_iff in Hd.
  destruct Hd as [Hk0 Hd]; apply negb_true_iff in Hk0.
  cbn [fold_left fst snd dict_get]; rewrite IH by exact Hd.
  destruct (str_eqb k k0) eqn:E.
  - apply str_eqb_eq in E; subst.
    rewrite (@dict_get_absent b k0 Hk0), dict_get_set_same; reflexivity.
  - rewrite dict_get_set_other; [reflexivity|].
    intros ->; rewrite str_eqb_refl in E; discriminate.
Qed.

Lemma notification_is_record :
  forall seconds timestamp data,
    is_record (notification_of seconds timestamp data) = true.
Proof.
  intros; unfold notification_of, is_record; apply dict_has_update.
  reflexivity.
Qed.

(** X10. The record that [save_notification] builds always has an id.  A
    field of the data that it is given wins over the id, the timestamp and
    the unread mark that the method sets; where the data has no such
    field, the id is "ntf-" and the seconds, and [is_read] is [False]. *)
Theorem notification_fields :
  forall (seconds : Z) (timestamp : pystr) (data : dict),
    is_record (notification_of seconds timestamp data) = true
    /\ (distinct (map fst data) = true ->
        exists record,
          notification_of seconds timestamp data = JObj record
          /\ forall k,
               dict_get k record
               = match dict_get k data with
                 | Some v => Some v
                 | None =>
                     dict_get k
                       [(k_id, JStr (s_ntf ++ decimal seconds));
                        (k_timestamp, JStr timestamp);
                        (k_is_read, JBool false)]
                 end).
Proof.
  intros seconds timestamp data; split.
  - apply notification_is_record.
  - intros Hd; eexists; split; [reflexivity|].
    intros k; apply dict_get_update; exact Hd.
Qed.

(** X11. When the notification file holds JSON that is not a list,
    [save_notification] raises [AttributeError] and writes nothing. *)
Theorem save_notification_not_a_list :
  forall (seconds : Z) (timestamp : pystr) (data : dict) (w : World)
         (text : pystr) (v : json),
    notifications_file w = Some (Text text) ->
    json_loads text = Some v ->
    (forall l, v <> JArr l) ->
    save_notification seconds timestamp data w = (Raise AttributeError, w).
Proof.
  intros seconds timestamp data w text v Hf Hd Hnot.
  unfold save_notification, bind, try_except, open_read, lift; simpl.
  rewrite Hf; unfold json_load; simpl; rewrite Hd.
  destruct v; try reflexivity.
  exfalso; exact (Hnot items eq_refl).
Qed.

Lemma dict_set_twice :
  forall (V : Type) k (v v' : V) d,
    dict_set k v (dict_set k v' d) = dict_set k v d.
Proof.
  intros V k v v'; induction d as [|[k0 v0] d IH]; simpl.
  - rewrite str_eqb_refl; reflexivity.
  - destruct (str_eqb k k0) eqn:E; simpl; rewrite E; [reflexivity|].
    rewrite IH; reflexivity.
Qed.

Lemma record_matches_mark_read :
  forall id id' r, record_matches id' (mark_read id r) = record_matches id' r.
Proof.
  intros id id' r; destruct r; try reflexivity.
  unfold mark_read; destruct (record_matches id (JObj members));
    [|reflexivity].
  unfold record_matches; rewrite dict_get_set_other by discriminate.
  reflexivity.
Qed.

Lemma is_record_mark_read :
  forall id r, is_record (mark_read id r) = is_record r.
Proof.
  intros id r; destruct r; try reflexivity.
  unfold mark_read; destruct (record_matches id (JObj members));
    [|reflexivity].
  unfold is_record, dict_has; rewrite dict_get_set_other by discriminate.
  reflexivity.
Qed.

Lemma mark_read_twice :
  forall id r, mark_read id (mark_read id r) = mark_read id r.
Proof.
  intros id r; destruct (record_matches id r) eqn:E.
  - destruct r as [ | b | n | s | l | d ]; try (simpl in E; discriminate).
    assert (E' : record_matches id
                   (JObj (dict_set k_is_read (JBool true) d)) = true).
    { unfold record_matches.
      rewrite dict_get_set_other by discriminate; exact E. }
    assert (H1 : mark_read id (JObj d)
                 = JObj (dict_set k_is_read (JBool true) d))
      by (unfold mark_read; rewrite E; reflexivity).
    rewrite H1; unfold mark_read; rewrite E', dict_set_twice; reflexivity.
  - rewrite !(mark_read_of_other _ _ E); reflexivity.
Qed.

Lemma store_holds_rewritten :
  forall w rs,
    roundtrips (JArr rs) ->
    forallb is_record rs = true ->
    store_holds (rewritten w (JArr rs)) rs.
Proof.
  intros w rs Hrt Hrec.
  apply store_records with (text := json_dumps (JArr rs));
    [reflexivity | exact Hrt | exact Hrec].
Qed.

Lemma store_holds_truncated : forall w, store_holds (truncated w) [].
Proof. intros w; apply store_truncated; reflexivity. Qed.

Lemma store_holds_records :
  forall w rs, store_holds w rs -> forallb is_record rs = true.
Proof. intros w rs [Hf | text Hf Hd | Hf | text rs' Hf Hd Hrec]; auto. Qed.

Lemma existsb_map_mark_read :
  forall id id' rs,
    existsb (record_matches id') (map (mark_read id) rs)
    = existsb (record_matches id') rs.
Proof.
  intros id id'; induction rs as [|r rs IH]; simpl; [reflexivity|].
  rewrite record_matches_mark_read, IH; reflexivity.
Qed.

Lemma forallb_map_mark_read :
  forall id rs,
    forallb is_record (map (mark_read id) rs) = forallb is_record rs.
Proof.
  intros id; induction rs as [|r rs IH]; simpl; [reflexivity|].
  rewrite is_record_mark_read, IH; reflexivity.
Qed.

(** X12. Marking is idempotent on the store: a second
    [mark_notification_as_read] for the same id returns what the first
    returned and leaves the notification file as the first left it, also
    when the first could not write it.  When a record has the id and
    [json.dump] writes the marked records, the second call nevertheless
    writes the file again. *)
Theorem mark_read_twice_same_store :
  forall (id : pystr) (w : World) (rs : list json),
    store_holds w rs ->
    roundtrips (JArr (map (mark_read id) rs)) ->
    fst (mark_notification_as_read id
           (snd (mark_notification_as_read id w)))
    = fst (mark_notification_as_read id w)
    /\ notifications_file
         (snd (mark_notification_as_read id
                 (snd (mark_notification_as_read id w))))
       = notifications_file (snd (mark_notification_as_read id w))
    /\ (existsb (record_matches id) rs = true ->
        dump_error (JArr (map (mark_read id) rs)) = None ->
        trace (snd (mark_notification_as_read id
                      (snd (mark_notification_as_read id w))))
        = EvWrite NOTIFICATIONS_FILE
            (json_dumps (JArr (map (mark_read id) rs)))
          :: EvWrite NOTIFICATIONS_FILE
               (json_dumps (JArr (map (mark_read id) rs)))
          :: trace w).
Proof.
  intros id w rs Hs Hrt.
  rewrite (mark_run id Hs); unfold after_rewrite.
  destruct (existsb (record_matches id) rs) eqn:Hex.
  - destruct (dump_error (JArr (map (mark_read id) rs))) as [e|] eqn:Hdump;
      cbn [fst snd].
    + rewrite (mark_run id (store_holds_truncated w)); simpl.
      repeat split; auto; discriminate.
    + assert (Hs1 : store_holds (rewritten w (JArr (map (mark_read id) rs)))
                      (map (mark_read id) rs)).
      { apply store_holds_rewritten; [exact Hrt|].
        rewrite forallb_map_mark_read; exact (store_holds_records Hs). }
      rewrite (mark_run id Hs1), existsb_map_mark_read, Hex.
      unfold after_rewrite.
      rewrite map_map, (map_ext _ _ (mark_read_twice id)), Hdump.
      repeat split; auto.
  - cbn [fst snd]; rewrite (mark_run id Hs), Hex; simpl.
    repeat split; auto; discriminate.
Qed.

(** X13. After a deletion, the id is gone for the other operations too:
    a second [delete_notification] and a [mark_notification_as_read] for it
    return [False] and change nothing. *)
Theorem delete_then_unknown :
  forall (id : pystr) (w : World) (rs : list json),
    store_holds w rs ->
    roundtrips (JArr (filter (fun r => negb (record_matches id r)) rs)) ->
    delete_notification id (snd (delete_notification id w))
    = (Ok false, snd (delete_notification id w))
    /\ mark_notification_as_read id (snd (delete_notification id w))
       = (Ok false, snd (delete_notification id w)).
Proof.
  intros id w rs Hs Hrt.
  pose proof (delete_stored_clean id Hs Hrt) as Hno.
  split; [apply delete_no_match | apply mark_no_match]; exact Hno.
Qed.

Lemma dict_get_update_absent :
  forall k b a,
    dict_has k b = false -> dict_get k (dict_update a b) = dict_get k a.
Proof.
  intros k; unfold dict_update.
  induction b as [|[k0 v0] b IH]; intros a H; [reflexivity|].
  unfold dict_has in H; cbn [dict_get] in H.
  destruct (str_eqb k k0) eqn:E; [discriminate|].
  cbn [fold_left fst snd]; rewrite IH by exact H.
  apply dict_get_set_other.
  intros ->; rewrite str_eqb_refl in E; discriminate.
Qed.

Lemma notification_matches :
  forall seconds timestamp data,
    dict_has k_id data = false ->
    record_matches (s_ntf ++ decimal seconds)
      (notification_of seconds timestamp data) = true.
Proof.
  intros seconds timestamp data H.
  unfold notification_of, record_matches.
  rewrite dict_get_update_absent by exact H; simpl.
  apply str_eqb_refl.
Qed.

Lemma filter_out_app :
  forall (A : Type) (p : A -> bool) l l',
    existsb p l = false ->
    forallb p l' = true ->
    filter (fun x => negb (p x)) (l ++ l') = l.
Proof.
  intros A p l l' Hl Hl'.
  rewrite filter_app, (@filter_out_none _ p l Hl).
  replace (filter (fun x => negb (p x)) l') with (@nil A);
    [apply app_nil_r|].
  induction l' as [|a l' IH]; simpl in *; [reflexivity|].
  apply andb_true_iff in Hl'; destruct Hl' as [Ha Hl'].
  rewrite Ha; simpl; apply IH; exact Hl'.
Qed.

(** X14. Saving and then deleting by the id of the new record brings the
    stored records back, provided that no stored record had that id, that
    the saved data brought no id of its own and that [json.dump] wrote
    each time; and the same holds for two records saved within one second,
    which share their id: one deletion removes both. *)
Theorem save_then_delete :
  forall (seconds : Z) (timestamp timestamp' : pystr) (data data' : dict)
         (w : World) (rs : list json),
    store_holds w rs ->
    existsb (record_matches (s_ntf ++ decimal seconds)) rs = false ->
    dict_has k_id data = false ->
    dict_has k_id data' = false ->
    roundtrips (JArr rs) ->
    roundtrips (JArr (rs ++ [notification_of seconds timestamp data])) ->
    roundtrips (JArr ((rs ++ [notification_of seconds timestamp data])
                      ++ [notification_of seconds timestamp' data'])) ->
    dump_error (JArr rs) = None ->
    dump_error (JArr (rs ++ [notification_of seconds timestamp data]))
    = None ->
    dump_error (JArr ((rs ++ [notification_of seconds timestamp data])
                      ++ [notification_of seconds timestamp' data']))
    = None ->
    (let w1 := snd (save_notification seconds timestamp data w) in
     let w2 := snd (delete_notification (s_ntf ++ decimal seconds) w1) in
     fst (delete_notification (s_ntf ++ decimal seconds) w1) = Ok true
     /\ stored w2 = rs)
    /\
    (let w1 := snd (save_notification seconds timestamp data w) in
     let w2 := snd (save_notification seconds timestamp' data' w1) in
     let w3 := snd (delete_notification (s_ntf ++ decimal seconds) w2) in
     fst (delete_notification (s_ntf ++ decimal seconds) w2) = Ok true
     /\ stored w3 = rs).
Proof.
  intros seconds timestamp timestamp' data data' w rs Hs Hno Hd Hd'
         Hrt Hrt1 Hrt2 Hdump Hdump1 Hdump2.
  pose proof (store_holds_records Hs) as Hrec.
  set (n := notification_of seconds timestamp data) in *.
  set (n' := notification_of seconds timestamp' data') in *.
  set (id := s_ntf ++ decimal seconds) in *.
  assert (Hn : record_matches id n = true)
    by (apply notification_matches; exact Hd).
  assert (Hn' : record_matches id n' = true)
    by (apply notification_matches; exact Hd').
  assert (Rn : is_record n = true)
    by (apply notification_is_record).
  assert (Rn' : is_record n' = true)
    by (apply notification_is_record).
  assert (Hs1 : store_holds (rewritten w (JArr (rs ++ [n]))) (rs ++ [n])).
  { apply store_holds_rewritten; [exact Hrt1|].
    rewrite forallb_app, Hrec; cbn [forallb]; rewrite Rn; reflexivity. }
  rewrite (save_notification_run seconds timestamp data Hs).
  fold n; rewrite Hdump1; cbn [snd].
  split.
  - cbv zeta.
    rewrite (delete_run id Hs1), existsb_app; cbn [existsb].
    rewrite Hn, orb_true_r; unfold after_rewrite.
    rewrite (@filter_out_app _ (record_matches id) rs [n] Hno)
      by (cbn [forallb]; rewrite Hn; reflexivity).
    rewrite Hdump; cbn [fst snd].
    split; [reflexivity|].
    apply stored_rewritten; exact Hrt.
  - cbv zeta.
    rewrite (save_notification_run seconds timestamp' data' Hs1).
    fold n'; rewrite Hdump2; cbn [snd].
    assert (Hs2 : store_holds
                    (rewritten (rewritten w (JArr (rs ++ [n])))
                       (JArr ((rs ++ [n]) ++ [n'])))
                    ((rs ++ [n]) ++ [n'])).
    { apply store_holds_rewritten; [exact Hrt2|].
      rewrite !forallb_app, Hrec; cbn [forallb]; rewrite Rn, Rn'.
      reflexivity. }
    rewrite (delete_run id Hs2), !existsb_app; cbn [existsb].
    rewrite Hn, !orb_true_r; unfold after_rewrite.
    rewrite <- app_assoc.
    rewrite (@filter_out_app _ (record_matches id) rs ([n] ++ [n']) Hno)
      by (cbn [forallb app]; rewrite Hn, Hn'; reflexivity).
    rewrite Hdump; cbn [fst snd].
    split; [reflexivity|].
    apply stored_rewritten; exact Hrt.
Qed.

Lemma delete_filter_blocked :
  forall id items,
    forallb is_record items = false ->
    exists e, delete_filter id items = Raise e.
Proof.
  intros id; induction items as [|r items IH]; simpl; intros H;
    [discriminate|].
  destruct r as [ | b | n | s | l | d ]; try (eexists; reflexivity).
  cbn [is_record getitem]; unfold dict_has in *; cbn [is_record] in H.
  unfold dict_has in H.
  destruct (dict_get k_id d) as [idv|]; [|eexists; reflexivity].
  simpl in H; destruct (IH H) as [e He].
  cbn [rbind]; rewrite He; eexists; reflexivity.
Qed.

(** X15. One item without an id in the stored array blocks the store: for
    every id, also the id of a well-formed record beside it,
    [mark_notification_as_read] and [delete_notification] return [False]
    and write nothing. *)
Theorem malformed_record_blocks :
  forall (id : pystr) (w : World) (text : pystr) (items : list json),
    notifications_file w = Some (Text text) ->
    json_loads text = Some (JArr items) ->
    forallb is_record items = false ->
    mark_notification_as_read id w = (Ok false, w)
    /\ delete_notification id w = (Ok false, w).
Proof.
  intros id w text items Hf Hd Hbad; split.
  - exact (mark_blocked id _ Hf Hd Hbad).
  - unfold delete_notification, try_except, bind, open_read, lift.
    simpl; rewrite Hf; unfold json_load; simpl; rewrite Hd; simpl.
    destruct (@delete_filter_blocked id items Hbad) as [e He]; rewrite He.
    reflexivity.
Qed.

(** ** Adding, removing, and the configuration on disk *)

Lemma dict_del_set_fresh :
  forall (V : Type) k (v : V) d,
    dict_has k d = false -> dict_del k (dict_set k v d) = d.
Proof.
  intros V k v; induction d as [|[k0 v0] d IH]; simpl; intros H.
  - rewrite str_eqb_refl; reflexivity.
  - unfold dict_has in H; cbn [dict_get] in H.
    destruct (str_eqb k k0) eqn:E; [discriminate|].
    simpl; rewrite E, IH; [reflexivity | exact H].
Qed.

Lemma dict_set_present :
  forall (V : Type) k (v : V) d, dict_get k d = Some v -> dict_set k v d = d.
Proof.
  intros V k v; induction d as [|[k0 v0] d IH]; simpl; intros H.
  - discriminate.
  - destruct (str_eqb k k0) eqn:E.
    + inversion H; reflexivity.
    + rewrite IH by exact H; reflexivity.
Qed.

Lemma remove_first_appended :
  forall name groups,
    existsb (fun g => eq_str g name) groups = false ->
    remove_first name (groups ++ [JStr name]) = groups.
Proof.
  intros name; induction groups as [|g groups IH]; simpl; intros H.
  - rewrite str_eqb_refl; reflexivity.
  - apply orb_false_iff in H; destruct H as [Hg H].
    rewrite Hg, IH by exact H; reflexivity.
Qed.

(** X16. Adding a group that is neither listened to nor listed, and then
    removing it, brings the configuration and the listeners back to what
    they were, when [json.dump] writes the configuration both times: both
    calls return [True], [target_groups] is the list it was, and what the
    outside has seen is the two calls on the window and two writes of the
    config file, the second of the old configuration. *)
Theorem add_then_remove :
  forall (name : pystr) (w : World) (d : dict) (groups : list json),
    self_config w = JObj d ->
    dict_get k_target_groups d = Some (JArr groups) ->
    dict_has name (active_listeners w) = false ->
    existsb (fun g => eq_str g name) groups = false ->
    dump_error (JObj (dict_set k_target_groups
                        (JArr (groups ++ [JStr name])) d)) = None ->
    dump_error (self_config w) = None ->
    exists w1,
      add_group_listener name w = (Ok true, w1)
      /\ remove_group_listener name w1
         = (Ok true,
            mkWorld (Some (Text (json_dumps (self_config w))))
              (notifications_file w) (self_config w) (active_listeners w)
              (EvWrite CONFIG_FILE (json_dumps (self_config w))
               :: EvRemoveListenChat name
               :: EvWrite CONFIG_FILE
                    (json_dumps
                       (JObj (dict_set k_target_groups
                                (JArr (groups ++ [JStr name])) d)))
               :: EvAddListenChat name
               :: trace w)).
Proof.
  intros name w d groups Hc Hd Hl Hex Hdump1 Hdump.
  eexists; split.
  - rewrite add_group_listener_run by exact Hl.
    rewrite Hc; cbn [getitem]; rewrite Hd; cbn [rbind py_in].
    rewrite Hex; cbn [rbind py_append setitem].
    unfold saved_config; rewrite Hdump1; reflexivity.
  - rewrite remove_group_listener_run
      by (cbn [active_listeners listening]; apply dict_has_set).
    cbn [self_config listening getitem].
    rewrite dict_get_set_same; cbn [rbind py_in].
    rewrite existsb_app; cbn [existsb eq_str].
    rewrite str_eqb_refl, orb_true_r; cbn [rbind py_remove setitem].
    rewrite remove_first_appended by exact Hex.
    rewrite dict_set_twice.
    rewrite (@dict_set_present _ k_target_groups (JArr groups) d Hd).
    unfold saved_config, unlistening, listening.
    cbn [active_listeners trace notifications_file config_file self_config].
    rewrite dict_del_set_fresh by exact Hl.
    rewrite Hc in Hdump; rewrite Hdump, Hc; reflexivity.
Qed.

Lemma occurrences_remove_first :
  forall name groups,
    occurrences name (remove_first name groups)
    = pred (occurrences name groups)
    /\ forall other,
         other <> name ->
         occurrences other (remove_first name groups)
         = occurrences other groups.
Proof.
  intros name; unfold occurrences.
  induction groups as [|g groups [IH1 IH2]]; simpl; [auto|].
  destruct (eq_str g name) eqn:E; simpl.
  - split; [reflexivity|].
    intros other Hne.
    destruct g; simpl in E; try discriminate.
    apply str_eqb_eq in E; subst; simpl.
    replace (str_eqb name other) with false; [reflexivity|].
    symmetry; apply str_eqb_neq; congruence.
  - rewrite E; split; [exact IH1|].
    intros other Hne; destruct (eq_str g other); simpl;
      rewrite (IH2 other Hne); reflexivity.
Qed.

Lemma remove_when_listening :
  forall name w,
    dict_has name (active_listeners w) = true ->
    active_listeners (snd (remove_group_listener name w))
    = dict_del name (active_listeners w).
Proof.
  intros name w H.
  rewrite remove_group_listener_run by exact H.
  destruct (let? groups := getitem (self_config w) k_target_groups in
            let? present := py_in name groups in
            if present then
              let? groups1 := py_remove groups name in
              let? config1 :=
                setitem (self_config w) k_target_groups groups1 in
              Ok (Some config1)
            else Ok None) as [[config1|]|e]; try reflexivity.
  apply saved_config_listeners.
Qed.

Lemma dict_has_del :
  forall (V : Type) k (d : list (pystr * V)),
    distinct (map fst d) = true -> dict_has k (dict_del k d) = false.
Proof.
  intros V k; unfold dict_has.
  induction d as [|[k0 v0] d IH]; simpl; intros H; [reflexivity|].
  apply andb_true_iff in H; destruct H as [Hk H].
  destruct (str_eqb k k0) eqn:E.
  - apply str_eqb_eq in E; subst k0.
    apply negb_true_iff in Hk.
    clear IH H; induction d as [|[k1 v1] d IH]; simpl in *; [reflexivity|].
    apply orb_false_iff in Hk; destruct Hk as [Hk1 Hk].
    rewrite Hk1; exact (IH Hk).
  - simpl; rewrite E; exact (IH H).
Qed.

(** X17. [remove_group_listener] on a group that is listened to takes one
    occurrence of the name out of [target_groups], the first: a name that
    the list holds twice is still in it afterwards, and the other names
    are counted as before.  The call returns [True], unless the name was
    listed and [json.dump] raised on the new configuration: the call then
    raises the same.  Either way the listener is gone and a second call
    returns [False] and changes nothing. *)
Theorem remove_takes_one_occurrence :
  forall (name : pystr) (w : World) (groups : list json),
    dict_has name (active_listeners w) = true ->
    distinct (map fst (active_listeners w)) = true ->
    target_groups_of w = Some groups ->
    exists r w1 groups1,
      remove_group_listener name w = (r, w1)
      /\ target_groups_of w1 = Some groups1
      /\ occurrences name groups1 = pred (occurrences name groups)
      /\ (forall other,
             other <> name ->
             occurrences other groups1 = occurrences other groups)
      /\ r = (if existsb (fun g => eq_str g name) groups
              then match dump_error (self_config w1) with
                   | None => Ok true
                   | Some e => Raise e
                   end
              else Ok true)
      /\ remove_group_listener name w1 = (Ok false, w1).
Proof.
  intros name w groups Hl Hd Hg.
  exists (fst (remove_group_listener name w)),
         (snd (remove_group_listener name w)).
  eexists; split; [apply surjective_pairing|].
  split; [exact (@remove_on_groups name w groups Hl Hg)|].
  assert (Hidle : remove_group_listener name
                    (snd (remove_group_listener name w))
                  = (Ok false, snd (remove_group_listener name w))).
  { apply remove_when_idle.
    rewrite remove_when_listening by exact Hl; apply dict_has_del, Hd. }
  assert (Hr : fst (remove_group_listener name w)
               = if existsb (fun g => eq_str g name) groups
                 then match dump_error
                              (self_config
                                 (snd (remove_group_listener name w))) with
                      | None => Ok true
                      | Some e => Raise e
                      end
                 else Ok true).
  { rewrite remove_group_listener_run by exact Hl.
    unfold target_groups_of in Hg.
    destruct (self_config w) as [| | | | |d] eqn:Hc; try discriminate.
    destruct (dict_get k_target_groups d) as [[| | | |l|]|] eqn:Hget;
      try discriminate.
    inversion Hg; subst l; clear Hg.
    cbn [getitem]; rewrite Hget; cbn [rbind py_in].
    destruct (existsb (fun g => eq_str g name) groups); [|reflexivity].
    cbn [rbind py_remove setitem]; unfold saved_config.
    destruct (dump_error
                (JObj (dict_set k_target_groups
                         (JArr (remove_first name groups)) d))) eqn:E;
      cbn [fst snd self_config]; rewrite E; reflexivity. }
  destruct (existsb (fun g => eq_str g name) groups) eqn:Hex.
  - destruct (occurrences_remove_first name groups) as [H1 H2].
    repeat split; auto.
  - repeat split; auto.
    rewrite occurrences_none by exact Hex; reflexivity.
Qed.

(** X18. On a configuration without [target_groups],
    [add_group_listener] raises [KeyError] after it has registered the
    listener: the window is called and the name is among the listeners, the
    configuration and its file are as before, and a second call for the
    name returns [False]. *)
Theorem add_without_target_groups :
  forall (name : pystr) (w : World) (d : dict),
    self_config w = JObj d ->
    dict_get k_target_groups d = None ->
    dict_has name (active_listeners w) = false ->
    add_group_listener name w
    = (Raise KeyError,
       mkWorld (config_file w) (notifications_file w) (self_config w)
               (dict_set name true (active_listeners w))
               (EvAddListenChat name :: trace w))
    /\ add_group_listener name
         (mkWorld (config_file w) (notifications_file w) (self_config w)
                  (dict_set name true (active_listeners w))
                  (EvAddListenChat name :: trace w))
       = (Ok false,
          mkWorld (config_file w) (notifications_file w) (self_config w)
                  (dict_set name true (active_listeners w))
                  (EvAddListenChat name :: trace w)).
Proof.
  intros name w d Hc Hd Hl; split.
  - rewrite add_group_listener_run by exact Hl.
    unfold listening; rewrite Hc; cbn [getitem]; rewrite Hd; reflexivity.
  - apply add_when_listening; simpl; apply dict_has_set.
Qed.

(** X19. Once [WeChat()] has returned, what [__init__] does is decided by
    the config file.  When it decodes, the configuration is what it holds
    and nothing is written.  When it is missing or [json.load] raises
    [JSONDecodeError] on it, and [json.dump] writes the default
    configuration, that is the configuration, in memory and in the file.
    When [json.load] raises anything else on it, the constructor raises
    the same and has set nothing.  Where it returns there is no listener,
    and the notification file is never touched. *)
Theorem init_leaves_persisted :
  forall (w : World),
    (forall config,
        loaded (config_file w) = Ok config ->
        init w
        = (Ok tt,
           mkWorld (config_file w) (notifications_file w) config []
                   (trace w)))
    /\ ((loaded (config_file w) = Raise FileNotFoundError
         \/ loaded (config_file w) = Raise JSONDecodeError) ->
        dump_error default_config = None ->
        init w
        = (Ok tt,
           mkWorld (Some (Text (json_dumps default_config)))
                   (notifications_file w) default_config []
                   (EvWrite CONFIG_FILE (json_dumps default_config)
                    :: trace w))
        /\ (roundtrips default_config -> persisted (snd (init w))))
    /\ (forall e,
           loaded (config_file w) = Raise e ->
           e <> FileNotFoundError ->
           e <> JSONDecodeError ->
           init w = (Raise e, w)).
Proof.
  intros w; unfold init, bind; rewrite load_config_run.
  split; [|split].
  - intros config ->; reflexivity.
  - intros Hbad Hdump; rewrite json_dump_config, Hdump.
    assert (Hrun : match loaded (config_file w) with
                   | Ok config => (Ok config, w)
                   | Raise FileNotFoundError | Raise JSONDecodeError =>
                       (Ok default_config,
                        mkWorld (Some (Text (json_dumps default_config)))
                                (notifications_file w) (self_config w)
                                (active_listeners w)
                                (EvWrite CONFIG_FILE
                                   (json_dumps default_config) :: trace w))
                   | Raise e => (Raise e, w)
                   end
                   = (Ok default_config,
                      mkWorld (Some (Text (json_dumps default_config)))
                              (notifications_file w) (self_config w)
                              (active_listeners w)
                              (EvWrite CONFIG_FILE
                                 (json_dumps default_config) :: trace w)))
      by (destruct Hbad as [-> | ->]; reflexivity).
    rewrite Hrun; split; [reflexivity|].
    intros Hrt; exists (json_dumps default_config); split;
      [reflexivity | exact Hrt].
  - intros e -> Hne1 Hne2; destruct e; try reflexivity; contradiction.
Qed.

(** ** The message handler *)









(** ** What a call of the listener manager leaves of the configuration *)

Lemma saved_config_file :
  forall w config1,
    config_file (snd (saved_config w config1))
    = Some (Text (json_dumps config1))
    \/ config_file (snd (saved_config w config1))
       = Some (Unreadable JSONDecodeError).
Proof.
  intros w config1; unfold saved_config.
  destruct (dump_error config1); [right | left]; reflexivity.
Qed.

Lemma add_group_listener_config :
  forall name w,
    (config_file (snd (add_group_listener name w)) = config_file w
     /\ self_config (snd (add_group_listener name w)) = self_config w)
    \/ (exists d groups,
           self_config w = JObj d
           /\ dict_get k_target_groups d = Some (JArr groups)
           /\ self_config (snd (add_group_listener name w))
              = JObj (dict_set k_target_groups
                        (JArr (groups ++ [JStr name])) d)
           /\ (config_file (snd (add_group_listener name w))
               = Some (Text
                         (json_dumps
                            (JObj (dict_set k_target_groups
                                     (JArr (groups ++ [JStr name])) d))))
               \/ config_file (snd (add_group_listener name w))
                  = Some (Unreadable JSONDecodeError))).
Proof.
  intros name w.
  destruct (dict_has name (active_listeners w)) eqn:Hl.
  { rewrite add_when_listening by exact Hl; left; auto. }
  rewrite add_group_listener_run by exact Hl.
  destruct (self_config w) as [| | | | |d] eqn:Hc; try solve [left; auto].
  cbn [getitem].
  destruct (dict_get k_target_groups d) as [groups|] eqn:Hd;
    [|left; auto].
  cbn [rbind].
  destruct (py_in name groups) as [[|]|e] eqn:Hin; cbn [rbind];
    try solve [left; auto].
  destruct groups as [| | | |l|]; cbn [py_append rbind];
    try solve [left; auto].
  cbn [setitem rbind].
  right; exists d, l.
  split; [reflexivity|].
  split; [exact Hd|].
  split; [apply saved_config_groups | apply saved_config_file].
Qed.

Lemma remove_group_listener_config :
  forall name w,
    (config_file (snd (remove_group_listener name w)) = config_file w
     /\ self_config (snd (remove_group_listener name w)) = self_config w)
    \/ (exists d groups,
           self_config w = JObj d
           /\ dict_get k_target_groups d = Some (JArr groups)
           /\ self_config (snd (remove_group_listener name w))
              = JObj (dict_set k_target_groups
                        (JArr (remove_first name groups)) d)
           /\ (config_file (snd (remove_group_listener name w))
               = Some (Text
                         (json_dumps
                            (JObj (dict_set k_target_groups
                                     (JArr (remove_first name groups)) d))))
               \/ config_file (snd (remove_group_listener name w))
                  = Some (Unreadable JSONDecodeError))).
Proof.
  intros name w.
  destruct (dict_has name (active_listeners w)) eqn:Hl.
  2:{ rewrite remove_when_idle by exact Hl; left; auto. }
  rewrite remove_group_listener_run by exact Hl.
  destruct (self_config w) as [| | | | |d] eqn:Hc; try solve [left; auto].
  cbn [getitem].
  destruct (dict_get k_target_groups d) as [groups|] eqn:Hd;
    [|left; auto].
  cbn [rbind].
  destruct (py_in name groups) as [[|]|e] eqn:Hin; cbn [rbind];
    try solve [left; auto].
  destruct groups as [| | | |l|]; cbn [py_remove rbind];
    try solve [left; auto].
  cbn [setitem rbind].
  right; exists d, l.
  split; [reflexivity|].
  split; [exact Hd|].
  split; [apply saved_config_groups | apply saved_config_file].
Qed.

End Monitor.

(** ** The reference codec reads back what it writes *)

Lemma digits_of_S :
  forall fuel n acc,
    digits_of (S fuel) n acc
    = if (n <? 10)%N then (48 + n mod 10)%N :: acc
      else digits_of fuel (n / 10)%N ((48 + n mod 10)%N :: acc).
Proof. reflexivity. Qed.

Lemma digits_of_app :
  forall fuel n acc, digits_of fuel n acc = digits_of fuel n [] ++ acc.
Proof.
  induction fuel as [|fuel IH]; intros n acc.
  - reflexivity.
  - rewrite !digits_of_S.
    destruct (n <? 10)%N; [reflexivity|].
    rewrite (IH _ (_ :: acc)), (IH _ [_]), <- app_assoc; reflexivity.
Qed.

Lemma digits_of_digits :
  forall fuel n, forallb is_digit (digits_of fuel n []) = true.
Proof.
  induction fuel as [|fuel IH]; intros n; [reflexivity|].
  rewrite digits_of_S.
  assert (Hd : is_digit (48 + n mod 10) = true).
  { pose proof (N.mod_upper_bound n 10 ltac:(discriminate)) as Hm.
    remember (n mod 10)%N as m.
    unfold is_digit; apply andb_true_iff; split; apply N.leb_le; lia. }
  destruct (n <? 10)%N; cbn [forallb].
  - rewrite Hd; reflexivity.
  - rewrite digits_of_app, forallb_app, IH; cbn [forallb]; rewrite Hd.
    reflexivity.
Qed.

Lemma loads_digits_app :
  forall s r a,
    forallb is_digit s = true ->
    match r with [] => true | c :: _ => negb (is_digit c) end = true ->
    loads_digits (s ++ r) a = (fold_left digit_value s a, r).
Proof.
  induction s as [|c s IH]; intros r a Hs Hr; simpl.
  - destruct r as [|d r]; [reflexivity|].
    simpl; apply negb_true_iff in Hr; rewrite Hr; reflexivity.
  - simpl in Hs; apply andb_true_iff in Hs; destruct Hs as [Hc Hs].
    rewrite Hc; apply IH; assumption.
Qed.

Lemma digits_of_value :
  forall fuel n,
    (n < 2 ^ N.of_nat fuel)%N ->
    fold_left digit_value (digits_of fuel n []) 0%Z = Z.of_N n.
Proof.
  induction fuel as [|fuel IH]; intros n Hn.
  - simpl in Hn; assert (n = 0%N) by lia; subst; reflexivity.
  - rewrite digits_of_S.
    destruct (n <? 10)%N eqn:Hlt.
    + apply N.ltb_lt in Hlt; rewrite N.mod_small by exact Hlt.
      cbn [fold_left]; unfold digit_value; lia.
    + apply N.ltb_ge in Hlt.
      rewrite digits_of_app, fold_left_app, IH.
      * cbn [fold_left]; unfold digit_value.
        pose proof (N.div_mod n 10 ltac:(discriminate)) as Hdm.
        pose proof (N.mod_upper_bound n 10 ltac:(discriminate)) as Hm.
        remember (n mod 10)%N as m; remember (n / 10)%N as q.
        replace (48 + m - 48)%N with m by lia; lia.
      * rewrite Nat2N.inj_succ, N.pow_succ_r' in Hn.
        apply N.Div0.div_lt_upper_bound; lia.
Qed.

Lemma digits_of_head :
  forall fuel n,
    (1 <= n)%N ->
    (n < 2 ^ N.of_nat fuel)%N ->
    exists c r,
      digits_of fuel n [] = c :: r /\ is_digit c = true /\ (c =? 48)%N = false.
Proof.
  induction fuel as [|fuel IH]; intros n H1 Hn.
  - simpl in Hn; lia.
  - rewrite digits_of_S.
    destruct (n <? 10)%N eqn:Hlt.
    + apply N.ltb_lt in Hlt; rewrite N.mod_small by exact Hlt.
      exists (48 + n)%N, []; split; [reflexivity|]; split.
      * unfold is_digit; apply andb_true_iff; split; apply N.leb_le; lia.
      * apply N.eqb_neq; lia.
    + apply N.ltb_ge in Hlt.
      rewrite digits_of_app.
      destruct (@IH (n / 10)%N) as [c [r [E [Hd Hz]]]].
      * apply N.div_le_lower_bound; lia.
      * rewrite Nat2N.inj_succ, N.pow_succ_r' in Hn.
        apply N.Div0.div_lt_upper_bound; lia.
      * rewrite E; exists c, (r ++ [(48 + n mod 10)%N]); auto.
Qed.

Lemma delimited_ends_number :
  forall r,
    delimited r = true ->
    match r with [] => true | c :: _ => negb (is_digit c) end = true
    /\ match r with
       | d :: _ => ((d =? 46) || (d =? 101) || (d =? 69))%N
       | [] => false
       end = false.
Proof.
  intros [|c r] H; simpl in *; [auto|].
  apply orb_true_iff in H; destruct H as [H | H]; apply N.eqb_eq in H; subst;
    auto.
Qed.

Lemma loads_nat_positive :
  forall p r,
    delimited r = true ->
    loads_nat (digits_of (S (N.to_nat (N.log2 (Npos p)))) (Npos p) [] ++ r)
    = Some (Zpos p, r).
Proof.
  intros p r Hr.
  assert (Hn : (N.pos p < 2 ^ N.of_nat (S (N.to_nat (N.log2 (N.pos p)))))%N).
  { rewrite Nat2N.inj_succ, N2Nat.id.
    apply N.log2_spec; lia. }
  remember (S (N.to_nat (N.log2 (N.pos p)))) as fuel.
  destruct (@digits_of_head fuel (N.pos p) ltac:(lia) Hn) as [c [t [E [Hd Hz]]]].
  destruct (@delimited_ends_number _ Hr) as [Hr1 Hr2].
  pose proof (@loads_digits_app _ r 0%Z (digits_of_digits fuel (N.pos p)) Hr1)
    as Hl.
  rewrite (@digits_of_value _ _ Hn) in Hl.
  rewrite E in *; simpl app in *.
  unfold loads_nat; rewrite Hd, Hz; simpl negb; cbv iota.
  rewrite Hl.
  destruct r as [|d r]; [reflexivity|].
  rewrite Hr2; reflexivity.
Qed.

Lemma loads_value_num :
  forall fuel lvl n r,
    delimited r = true ->
    loads_value (S fuel) (dumps_at lvl (JNum n) ++ r) = Some (JNum n, r).
Proof.
  intros fuel lvl n r Hr.
  destruct (@delimited_ends_number _ Hr) as [Hr1 Hr2].
  destruct n as [|p|p]; cbn [dumps_at decimal].
  - simpl; destruct r as [|d r]; [reflexivity|].
    rewrite Hr2; reflexivity.
  - pose proof (loads_nat_positive p r Hr) as Hl.
    remember (S (N.to_nat (N.log2 (N.pos p)))) as f.
    assert (Hn : (N.pos p < 2 ^ N.of_nat f)%N).
    { subst f; rewrite Nat2N.inj_succ, N2Nat.id; apply N.log2_spec; lia. }
    destruct (@digits_of_head f (N.pos p) ltac:(lia) Hn) as [c [t [E [Hd Hz]]]].
    rewrite E in *; cbn [app] in *.
    unfold is_digit in Hd; apply andb_true_iff in Hd; destruct Hd as [H1 H2].
    apply N.leb_le in H1; apply N.leb_le in H2.
    cbn [loads_value].
    replace (c =? 34)%N with false by (symmetry; apply N.eqb_neq; lia).
    replace (c =? 123)%N with false by (symmetry; apply N.eqb_neq; lia).
    replace (c =? 91)%N with false by (symmetry; apply N.eqb_neq; lia).
    replace (c =? 110)%N with false by (symmetry; apply N.eqb_neq; lia).
    replace (c =? 116)%N with false by (symmetry; apply N.eqb_neq; lia).
    replace (c =? 102)%N with false by (symmetry; apply N.eqb_neq; lia).
    replace (c =? 45)%N with false by (symmetry; apply N.eqb_neq; lia).
    rewrite Hl; reflexivity.
  - pose proof (loads_nat_positive p r Hr) as Hl.
    cbn [loads_value app].
    replace (45 =? 34)%N with false by reflexivity.
    replace (45 =? 123)%N with false by reflexivity.
    replace (45 =? 91)%N with false by reflexivity.
    replace (45 =? 110)%N with false by reflexivity.
    replace (45 =? 116)%N with false by reflexivity.
    replace (45 =? 102)%N with false by reflexivity.
    replace (45 =? 45)%N with true by reflexivity.
    rewrite Hl; reflexivity.
Qed.

(** A [\u] escape of a code point that is no high surrogate stands for
    that code point, whatever follows. *)
Lemma loads_str_u :
  forall h1 h2 h3 h4 hi t2 acc,
    hex4 h1 h2 h3 h4 = Some hi ->
    (hi <? 55296)%N = true ->
    loads_str (92 :: 117 :: h1 :: h2 :: h3 :: h4 :: t2)%N acc
    = loads_str t2 (hi :: acc).
Proof.
  intros h1 h2 h3 h4 hi t2 acc Hh Hlow.
  cbn [loads_str].
  replace (92 =? 34)%N with false by reflexivity.
  replace (92 =? 92)%N with true by reflexivity.
  replace (117 =? 117)%N with true by reflexivity.
  cbv iota; rewrite Hh.
  assert (Hp : forall lo, is_pair hi lo = false).
  { intros lo; unfold is_pair.
    apply N.ltb_lt in Hlow.
    replace (55296 <=? hi)%N with false by (symmetry; apply N.leb_gt; lia).
    reflexivity. }
  destruct t2 as [|a [|b [|l1 [|l2 [|l3 [|l4 t3]]]]]]; try reflexivity.
  destruct (hex4 l1 l2 l3 l4) as [lo|]; [|reflexivity].
  rewrite Hp, andb_false_r; reflexivity.
Qed.

Lemma below_32 :
  forall (P : N -> Prop),
    P 0%N -> P 1%N -> P 2%N -> P 3%N -> P 4%N -> P 5%N -> P 6%N -> P 7%N ->
    P 8%N -> P 9%N -> P 10%N -> P 11%N -> P 12%N -> P 13%N -> P 14%N ->
    P 15%N -> P 16%N -> P 17%N -> P 18%N -> P 19%N -> P 20%N -> P 21%N ->
    P 22%N -> P 23%N -> P 24%N -> P 25%N -> P 26%N -> P 27%N -> P 28%N ->
    P 29%N -> P 30%N -> P 31%N ->
    forall c, (c < 32)%N -> P c.
Proof.
  intros P. intros.
  destruct c as [|p]; [assumption|].
  do 5 (destruct p as [p|p|]; try assumption; try lia).
Qed.

(** The decoder reads an escaped character back. *)
Lemma loads_str_escape :
  forall c r acc,
    loads_str (escape_char c ++ r) acc = loads_str r (c :: acc).
Proof.
  intros c r acc.
  destruct (c <? 32)%N eqn:Hlow.
  - apply N.ltb_lt in Hlow; revert c Hlow.
    apply below_32; try reflexivity;
      (cbn [escape_char N.eqb Pos.eqb N.ltb N.compare Pos.compare
              Pos.compare_cont app hex_digit N.div N.modulo];
       apply loads_str_u; reflexivity).
  - apply N.ltb_ge in Hlow.
    unfold escape_char.
    destruct (c =? 34)%N eqn:E1;
      [apply N.eqb_eq in E1; subst; reflexivity|].
    destruct (c =? 92)%N eqn:E2;
      [apply N.eqb_eq in E2; subst; reflexivity|].
    replace (c =? 10)%N with false by (symmetry; apply N.eqb_neq; lia).
    replace (c =? 13)%N with false by (symmetry; apply N.eqb_neq; lia).
    replace (c =? 9)%N with false by (symmetry; apply N.eqb_neq; lia).
    replace (c =? 8)%N with false by (symmetry; apply N.eqb_neq; lia).
    replace (c =? 12)%N with false by (symmetry; apply N.eqb_neq; lia).
    replace (c <? 32)%N with false by (symmetry; apply N.ltb_ge; lia).
    cbn [app loads_str]; rewrite E1, E2.
    replace (c <? 32)%N with false by (symmetry; apply N.ltb_ge; lia).
    reflexivity.
Qed.

Lemma loads_str_body :
  forall s r acc,
    loads_str (flat_map escape_char s ++ 34%N :: r) acc
    = Some (rev acc ++ s, r).
Proof.
  induction s as [|c s IH]; intros r acc.
  - simpl; rewrite app_nil_r; reflexivity.
  - cbn [flat_map]; rewrite <- app_assoc, loads_str_escape, IH.
    cbn [rev]; rewrite <- app_assoc; reflexivity.
Qed.

(** The decoder reads a dumped string back. *)
Lemma loads_dumps_str :
  forall s r, 
    dumps_str s ++ r = 34%N :: flat_map escape_char s ++ 34%N :: r
    /\ loads_str (flat_map escape_char s ++ 34%N :: r) [] = Some (s, r).
Proof.
  intros s r; split.
  - unfold dumps_str; simpl; rewrite <- app_assoc; reflexivity.
  - apply loads_str_body.
Qed.

Lemma json_deep_ind :
  forall P : json -> Prop,
    P JNull ->
    (forall b, P (JBool b)) ->
    (forall n, P (JNum n)) ->
    (forall s, P (JStr s)) ->
    (forall l, Forall P l -> P (JArr l)) ->
    (forall d, Forall (fun kv => P (snd kv)) d -> P (JObj d)) ->
    forall v, P v.
Proof.
  intros P HN HB HZ HS HA HO.
  fix IH 1; intros [|b|n|s|l|d].
  - exact HN.
  - apply HB.
  - apply HZ.
  - apply HS.
  - apply HA; induction l as [|x l IHl]; constructor; [apply IH | exact IHl].
  - apply HO; induction d as [|[k x] d IHd]; constructor;
      [apply IH | exact IHd].
Qed.

Lemma dumps_at_arr :
  forall lvl x rest,
    dumps_at lvl (JArr (x :: rest))
    = 91%N :: newline_indent (S lvl) ++ dumps_at (S lvl) x
      ++ dumps_items (dumps_at (S lvl)) (newline_indent (S lvl)) rest
      ++ newline_indent lvl ++ [93%N].
Proof. reflexivity. Qed.

Lemma dumps_at_obj :
  forall lvl k x rest,
    dumps_at lvl (JObj ((k, x) :: rest))
    = 123%N :: newline_indent (S lvl) ++ dumps_str k ++ [58; 32]%N
      ++ dumps_at (S lvl) x
      ++ dumps_members (dumps_at (S lvl)) (newline_indent (S lvl)) rest
      ++ newline_indent lvl ++ [125%N].
Proof. reflexivity. Qed.

Lemma dumps_items_cons :
  forall dump sep y l,
    dumps_items dump sep (y :: l)
    = 44%N :: sep ++ dump y ++ dumps_items dump sep l.
Proof. reflexivity. Qed.

Lemma dumps_members_cons :
  forall dump sep k y l,
    dumps_members dump sep ((k, y) :: l)
    = 44%N :: sep ++ dumps_str k ++ [58; 32]%N ++ dump y
      ++ dumps_members dump sep l.
Proof. reflexivity. Qed.

Lemma skip_ws_spaces :
  forall n s, skip_ws (repeat 32%N n ++ s) = skip_ws s.
Proof. induction n as [|n IH]; intros s; simpl; auto. Qed.

Lemma skip_ws_indent :
  forall lvl s, skip_ws (newline_indent lvl ++ s) = skip_ws s.
Proof.
  intros lvl s; unfold newline_indent.
  cbn [app skip_ws]; replace (is_ws 10) with true by reflexivity.
  apply skip_ws_spaces.
Qed.

Lemma dumps_head :
  forall v lvl, exists c t, dumps_at lvl v = c :: t /\ value_start c = true.
Proof.
  intros [|[|]|[|p|p]|s|[|x l]|[|[k x] d]] lvl;
    try (eexists; eexists; split; [reflexivity | reflexivity]).
  cbn [dumps_at decimal].
  remember (S (N.to_nat (N.log2 (N.pos p)))) as f.
  assert (Hn : (N.pos p < 2 ^ N.of_nat f)%N).
  { subst f; rewrite Nat2N.inj_succ, N2Nat.id; apply N.log2_spec; lia. }
  destruct (@digits_of_head f (N.pos p) ltac:(lia) Hn) as [c [t [E [Hd Hz]]]].
  exists c, t; split; [exact E|].
  unfold value_start; rewrite Hd; repeat rewrite orb_true_r; reflexivity.
Qed.

Lemma value_start_solid :
  forall c,
    value_start c = true ->
    is_ws c = false /\ (c =? 93)%N = false /\ (c =? 125)%N = false.
Proof.
  intros c H; unfold value_start, is_digit in H.
  repeat (apply orb_true_iff in H; destruct H as [H | H]);
    try (apply N.eqb_eq in H; subst; repeat split; reflexivity).
  apply andb_true_iff in H; destruct H as [H1 H2].
  apply N.leb_le in H1; apply N.leb_le in H2.
  unfold is_ws; repeat split;
    repeat (rewrite orb_false_iff; split); apply N.eqb_neq; lia.
Qed.

Lemma skip_ws_solid :
  forall c t, is_ws c = false -> skip_ws (c :: t) = c :: t.
Proof. intros c t H; simpl; rewrite H; reflexivity. Qed.

Lemma skip_ws_value :
  forall v lvl r, skip_ws (dumps_at lvl v ++ r) = dumps_at lvl v ++ r.
Proof.
  intros v lvl r; destruct (dumps_head v lvl) as [c [t [E Hc]]].
  rewrite E; apply skip_ws_solid.
  apply (@value_start_solid _ Hc).
Qed.

Lemma dict_set_fresh :
  forall k (v : json) acc,
    existsb (str_eqb k) (map fst acc) = false ->
    dict_set k v acc = acc ++ [(k, v)].
Proof.
  intros k v; induction acc as [|[k' v'] acc IH]; simpl; intros H.
  - reflexivity.
  - apply orb_false_iff in H; destruct H as [Hk H].
    rewrite Hk, (IH H); reflexivity.
Qed.

Lemma str_eqb_sym : forall a b, str_eqb a b = str_eqb b a.
Proof.
  induction a as [|x a IH]; destruct b as [|y b]; simpl; try reflexivity.
  rewrite N.eqb_sym, IH; reflexivity.
Qed.

Lemma distinct_fresh :
  forall (acc : dict) k rest,
    distinct (map fst acc ++ k :: rest) = true ->
    existsb (str_eqb k) (map fst acc) = false.
Proof.
  induction acc as [|[k' v'] acc IH]; simpl; intros k rest H.
  - reflexivity.
  - apply andb_true_iff in H; destruct H as [Hk H].
    apply negb_true_iff in Hk.
    rewrite existsb_app in Hk; apply orb_false_iff in Hk.
    destruct Hk as [_ Hk]; simpl in Hk; apply orb_false_iff in Hk.
    rewrite str_eqb_sym, (proj1 Hk); simpl.
    apply (@IH k rest H).
Qed.

Lemma size_pos : forall v, (1 <= size v)%nat.
Proof. intros []; simpl; lia. Qed.

Lemma delimited_indent :
  forall lvl s, delimited (newline_indent lvl ++ s) = true.
Proof. reflexivity. Qed.

Lemma loads_items_back :
  forall l,
    Forall reads_back l ->
    forall x acc fuel lvl close r,
      reads_back x ->
      json_wf x = true ->
      forallb json_wf l = true ->
      (2 * (size x + list_sum (map size l)) <= fuel)%nat ->
      loads_items fuel
        (dumps_at lvl x
         ++ dumps_items (dumps_at lvl) (newline_indent lvl) l
         ++ newline_indent close ++ 93%N :: r) acc
      = Some (JArr (rev acc ++ x :: l), r).
Proof.
  intros l Hl; induction Hl as [|y l Hy Hl IH];
    intros x acc fuel lvl close r Hx Wx Wl Hfuel.
  - destruct fuel as [|fuel]; [pose proof (size_pos x); simpl in Hfuel; lia|].
    cbn [loads_items dumps_items app].
    rewrite (Hx lvl fuel _ Wx (delimited_indent close _))
      by (simpl in Hfuel; lia).
    rewrite skip_ws_indent; cbn [skip_ws].
    replace (is_ws 93) with false by reflexivity.
    replace (93 =? 93)%N with true by reflexivity.
    reflexivity.
  - destruct fuel as [|fuel]; [pose proof (size_pos x); simpl in Hfuel; lia|].
    cbn [forallb] in Wl; apply andb_true_iff in Wl; destruct Wl as [Wy Wl].
    change (list_sum (map size (y :: l)))
      with (size y + list_sum (map size l))%nat in Hfuel.
    pose proof (size_pos x) as Px.
    cbn [loads_items]; rewrite dumps_items_cons.
    cbn [app].
    rewrite (Hx lvl fuel (44%N :: _) Wx eq_refl) by lia.
    cbn [skip_ws].
    replace (is_ws 44) with false by reflexivity.
    replace (44 =? 93)%N with false by reflexivity.
    replace (44 =? 44)%N with true by reflexivity.
    cbv iota.
    rewrite <- !app_assoc, skip_ws_indent, skip_ws_value.
    rewrite (@IH y (x :: acc) fuel lvl close r Hy Wy Wl) by lia.
    cbn [rev]; rewrite <- app_assoc; reflexivity.
Qed.

Lemma loads_members_back :
  forall l,
    Forall (fun kv => reads_back (snd kv)) l ->
    forall k x acc fuel lvl close r,
      reads_back x ->
      json_wf x = true ->
      forallb (fun kv => json_wf (snd kv)) l = true ->
      distinct (map fst (acc ++ (k, x) :: l)) = true ->
      (2 * (size x + list_sum (map (fun kv => size (snd kv)) l)) <= fuel)%nat ->
      loads_members fuel
        (dumps_str k ++ [58; 32]%N ++ dumps_at lvl x
         ++ dumps_members (dumps_at lvl) (newline_indent lvl) l
         ++ newline_indent close ++ 125%N :: r) acc
      = Some (JObj (acc ++ (k, x) :: l), r).
Proof.
  intros l Hl; induction Hl as [|[k' y] l Hy Hl IH];
    intros k x acc fuel lvl close r Hx Wx Wl Hd Hfuel.
  - destruct fuel as [|fuel]; [pose proof (size_pos x); simpl in Hfuel; lia|].
    destruct (loads_dumps_str k
                ([58; 32]%N ++ dumps_at lvl x
                 ++ dumps_members (dumps_at lvl) (newline_indent lvl) []
                 ++ newline_indent close ++ 125%N :: r)) as [E1 E2].
    cbn [loads_members]; rewrite E1.
    replace (negb (34 =? 34)%N) with false by reflexivity; cbv iota.
    rewrite E2.
    cbn [app skip_ws].
    replace (is_ws 58) with false by reflexivity.
    replace (negb (58 =? 58)%N) with false by reflexivity.
    cbv iota; cbn [skip_ws].
    replace (is_ws 32) with true by reflexivity.
    cbv iota.
    rewrite skip_ws_value.
    cbn [dumps_members app].
    rewrite (Hx lvl fuel _ Wx (delimited_indent close _))
      by (simpl in Hfuel; lia).
    rewrite skip_ws_indent; cbn [skip_ws].
    replace (is_ws 125) with false by reflexivity.
    replace (125 =? 125)%N with true by reflexivity.
    rewrite map_app in Hd; cbn [map fst] in Hd.
    rewrite (@dict_set_fresh _ _ _ (@distinct_fresh _ _ _ Hd)).
    reflexivity.
  - destruct fuel as [|fuel]; [pose proof (size_pos x); simpl in Hfuel; lia|].
    cbn [forallb snd] in Wl; apply andb_true_iff in Wl; destruct Wl as [Wy Wl].
    change (list_sum (map (fun kv => size (snd kv)) ((k', y) :: l)))
      with (size y + list_sum (map (fun kv => size (snd kv)) l))%nat in Hfuel.
    pose proof (size_pos x) as Px.
    destruct (loads_dumps_str k
                ([58; 32]%N ++ dumps_at lvl x
                 ++ dumps_members (dumps_at lvl) (newline_indent lvl)
                      ((k', y) :: l)
                 ++ newline_indent close ++ 125%N :: r)) as [E1 E2].
    cbn [loads_members]; rewrite E1.
    replace (negb (34 =? 34)%N) with false by reflexivity; cbv iota.
    rewrite E2.
    cbn [app skip_ws].
    replace (is_ws 58) with false by reflexivity.
    replace (negb (58 =? 58)%N) with false by reflexivity.
    cbv iota; cbn [skip_ws].
    replace (is_ws 32) with true by reflexivity.
    cbv iota.
    rewrite skip_ws_value.
    rewrite dumps_members_cons; cbn [app].
    rewrite (Hx lvl fuel (44%N :: _) Wx eq_refl) by lia.
    cbn [skip_ws].
    replace (is_ws 44) with false by reflexivity.
    replace (44 =? 125)%N with false by reflexivity.
    replace (44 =? 44)%N with true by reflexivity.
    cbv iota.
    rewrite <- !app_assoc, skip_ws_indent.
    assert (Hs : forall t, skip_ws (dumps_str k' ++ t) = dumps_str k' ++ t)
      by reflexivity.
    rewrite Hs.
    assert (Hfresh : existsb (str_eqb k) (map fst acc) = false).
    { rewrite map_app in Hd; cbn [map fst] in Hd.
      exact (@distinct_fresh _ _ _ Hd). }
    rewrite (@dict_set_fresh _ _ _ Hfresh).
    cbn [snd] in Hy.
    match goal with
    | |- loads_members _ ?t _ = _ =>
        replace t
          with (dumps_str k' ++ [58; 32]%N ++ dumps_at lvl y
                ++ dumps_members (dumps_at lvl) (newline_indent lvl) l
                ++ newline_indent close ++ 125%N :: r)
          by (cbn [app]; rewrite <- ?app_assoc; reflexivity)
    end.
    rewrite (@IH k' y (acc ++ [(k, x)]) fuel lvl close r Hy Wy Wl).
    + rewrite <- app_assoc; reflexivity.
    + rewrite <- app_assoc; exact Hd.
    + lia.
Qed.

Theorem loads_value_dumps : forall v, reads_back v.
Proof.
  apply json_deep_ind; unfold reads_back.
  - intros lvl [|fuel] r _ Hr Hf; [simpl in Hf; lia | reflexivity].
  - intros [|] lvl [|fuel] r _ Hr Hf; try (simpl in Hf; lia); reflexivity.
  - intros n lvl [|fuel] r _ Hr Hf; [simpl in Hf; lia|].
    apply loads_value_num; exact Hr.
  - intros s lvl [|fuel] r _ Hr Hf; [simpl in Hf; lia|].
    destruct (loads_dumps_str s r) as [E1 E2].
    cbn [dumps_at]; rewrite E1; cbn [loads_value].
    replace (34 =? 34)%N with true by reflexivity.
    rewrite E2; reflexivity.
  - intros [|x l] Hl lvl [|fuel] r W Hr Hf; try (simpl in Hf; lia).
    + reflexivity.
    + inversion Hl as [|? ? Hx Hl']; subst.
      cbn [json_wf forallb] in W; apply andb_true_iff in W.
      destruct W as [Wx Wl].
      change (size (JArr (x :: l)))
        with (S (size x + list_sum (map size l))) in Hf.
      rewrite dumps_at_arr; cbn [app loads_value].
      replace (91 =? 34)%N with false by reflexivity.
      replace (91 =? 123)%N with false by reflexivity.
      replace (91 =? 91)%N with true by reflexivity.
      cbv iota.
      rewrite <- !app_assoc, skip_ws_indent, skip_ws_value.
      pose proof (@loads_items_back l Hl' x [] fuel (S lvl) lvl r Hx Wx Wl
                    ltac:(lia)) as Hitems.
      destruct (dumps_head x (S lvl)) as [c [t [E Hc]]].
      destruct (@value_start_solid _ Hc) as [_ [H93 _]].
      rewrite E in *; cbn [app] in *; rewrite H93, Hitems.
      reflexivity.
  - intros [|[k x] d] Hd lvl [|fuel] r W Hr Hf; try (simpl in Hf; lia).
    + reflexivity.
    + inversion Hd as [|? ? Hx Hd']; subst; cbn [snd] in Hx.
      cbn [json_wf forallb snd] in W; apply andb_true_iff in W.
      destruct W as [Wk W]; apply andb_true_iff in W; destruct W as [Wx Wd].
      change (size (JObj ((k, x) :: d)))
        with (S (size x + list_sum (map (fun kv => size (snd kv)) d))) in Hf.
      pose proof (@loads_members_back d Hd' k x [] fuel (S lvl) lvl r Hx Wx
                    Wd Wk ltac:(lia)) as Hm.
      rewrite dumps_at_obj; cbn [app loads_value].
      replace (123 =? 34)%N with false by reflexivity.
      replace (123 =? 123)%N with true by reflexivity.
      cbv iota.
      rewrite <- !app_assoc, skip_ws_indent.
      unfold dumps_str in *; cbn [app skip_ws] in *.
      replace (is_ws 34) with false by reflexivity.
      replace (34 =? 125)%N with false by reflexivity.
      rewrite <- ?app_assoc in *; cbn [app] in *.
      rewrite Hm; reflexivity.
Qed.

Lemma dumps_items_length :
  forall dump sep l,
    (forall y, In y l -> (size y <= List.length (dump y))%nat) ->
    (list_sum (map size l)
     <= List.length (dumps_items dump sep l))%nat.
Proof.
  intros dump sep; induction l as [|y l IH]; intros H.
  - simpl; lia.
  - change (list_sum (map size (y :: l)))
      with (size y + list_sum (map size l))%nat.
    rewrite dumps_items_cons; cbn [List.length]; rewrite !length_app.
    pose proof (H y (or_introl eq_refl)).
    pose proof (IH (fun z Hz => H z (or_intror Hz))); lia.
Qed.

Lemma dumps_members_length :
  forall dump sep (l : dict),
    (forall kv, In kv l -> (size (snd kv) <= List.length (dump (snd kv)))%nat) ->
    (list_sum (map (fun kv => size (snd kv)) l)
     <= List.length (dumps_members dump sep l))%nat.
Proof.
  intros dump sep; induction l as [|[k y] l IH]; intros H.
  - simpl; lia.
  - change (list_sum (map (fun kv => size (snd kv)) ((k, y) :: l)))
      with (size y + list_sum (map (fun kv => size (snd kv)) l))%nat.
    rewrite dumps_members_cons; cbn [List.length]; rewrite !length_app.
    pose proof (H (k, y) (or_introl eq_refl)) as Hy; cbn [snd] in Hy.
    pose proof (IH (fun z Hz => H z (or_intror Hz))); lia.
Qed.

(** The text of a value has a character for each of its nodes. *)
Lemma size_le_length :
  forall v lvl, (size v <= List.length (dumps_at lvl v))%nat.
Proof.
  apply (@json_deep_ind (fun v => forall lvl,
                            (size v <= List.length (dumps_at lvl v))%nat)).
  - intros; simpl; lia.
  - intros [|] lvl; simpl; lia.
  - intros n lvl; destruct (dumps_head (JNum n) lvl) as [c [t [E _]]].
    rewrite E; simpl; lia.
  - intros s lvl; simpl; lia.
  - intros [|x l] Hl lvl; [simpl; lia|].
    inversion Hl as [|? ? Hx Hl']; subst.
    change (size (JArr (x :: l)))
      with (S (size x + list_sum (map size l))).
    rewrite dumps_at_arr; cbn [List.length].
    rewrite !length_app.
    pose proof (Hx (S lvl)).
    pose proof (@dumps_items_length (dumps_at (S lvl)) (newline_indent (S lvl)) l
                  (fun y Hy => proj1 (Forall_forall _ l) Hl' y Hy (S lvl))).
    lia.
  - intros [|[k x] d] Hd lvl; [simpl; lia|].
    inversion Hd as [|? ? Hx Hd']; subst; cbn [snd] in Hx.
    change (size (JObj ((k, x) :: d)))
      with (S (size x + list_sum (map (fun kv => size (snd kv)) d))).
    rewrite dumps_at_obj; cbn [List.length].
    rewrite !length_app.
    pose proof (Hx (S lvl)).
    pose proof (@dumps_members_length (dumps_at (S lvl))
                  (newline_indent (S lvl)) d
                  (fun kv Hkv => proj1 (Forall_forall _ d) Hd' kv Hkv (S lvl))).
    lia.
Qed.

(** The reference decoder reads back what the reference encoder writes. *)
Theorem ref_loads_dumps :
  forall v, json_wf v = true -> ref_loads (ref_dumps v) = Some v.
Proof.
  intros v W; unfold ref_loads, ref_dumps.
  pose proof (skip_ws_value v 0 []) as Hs; rewrite app_nil_r in Hs.
  rewrite Hs.
  pose proof (@loads_value_dumps v 0 (2 * List.length (dumps_at 0 v) + 2) []
                W eq_refl) as Hl.
  rewrite app_nil_r in Hl; rewrite Hl; [reflexivity|].
  pose proof (size_le_length v 0); lia.
Qed.

Lemma keys_after_set :
  forall a k (v : json) d,
    str_eqb a k = false ->
    existsb (str_eqb a) (map fst (dict_set k v d))
    = existsb (str_eqb a) (map fst d).
Proof.
  intros a k v d Hak; induction d as [|[k' v'] d IH]; simpl.
  - rewrite Hak; reflexivity.
  - destruct (str_eqb k k'); simpl; [reflexivity|].
    rewrite IH; reflexivity.
Qed.

Lemma distinct_after_set :
  forall k (v : json) d,
    distinct (map fst d) = true ->
    distinct (map fst (dict_set k v d)) = true.
Proof.
  intros k v; induction d as [|[k' v'] d IH]; simpl; intros H.
  - reflexivity.
  - apply andb_true_iff in H; destruct H as [Hk H].
    destruct (str_eqb k k') eqn:E; simpl.
    + rewrite Hk, H; reflexivity.
    + rewrite keys_after_set by (rewrite str_eqb_sym; exact E).
      rewrite Hk, (IH H); reflexivity.
Qed.

Lemma values_after_set :
  forall k (v : json) d,
    json_wf v = true ->
    forallb (fun kv => json_wf (snd kv)) d = true ->
    forallb (fun kv => json_wf (snd kv)) (dict_set k v d) = true.
Proof.
  intros k v d Wv; induction d as [|[k' v'] d IH]; simpl; intros H.
  - rewrite Wv; reflexivity.
  - apply andb_true_iff in H; destruct H as [Hv H].
    destruct (str_eqb k k'); simpl.
    + rewrite Wv, H; reflexivity.
    + rewrite Hv, (IH H); reflexivity.
Qed.

Lemma dict_set_wf :
  forall k v d,
    json_wf (JObj d) = true ->
    json_wf v = true ->
    json_wf (JObj (dict_set k v d)) = true.
Proof.
  intros k v d W Wv; cbn [json_wf] in *.
  apply andb_true_iff in W; destruct W as [W1 W2].
  rewrite (@distinct_after_set k v d W1), (@values_after_set k v d Wv W2).
  reflexivity.
Qed.

Lemma forallb_reversed :
  forall (A : Type) (f : A -> bool) l, forallb f (rev l) = forallb f l.
Proof.
  intros A f; induction l as [|a l IH]; simpl; [reflexivity|].
  rewrite forallb_app, IH; simpl; rewrite andb_true_r; apply andb_comm.
Qed.

Lemma expect_wf :
  forall lit v s v' r,
    json_wf v = true -> expect lit v s = Some (v', r) -> json_wf v' = true.
Proof.
  intros lit v s v' r W H; unfold expect in H.
  destruct (startswith lit s); inversion H; subst; exact W.
Qed.

(** What the reference decoder yields has distinct keys in every dict. *)
Lemma loads_wf :
  forall fuel,
    (forall s v r, loads_value fuel s = Some (v, r) -> json_wf v = true)
    /\ (forall s acc v r,
           forallb json_wf acc = true ->
           loads_items fuel s acc = Some (v, r) -> json_wf v = true)
    /\ (forall s acc v r,
           json_wf (JObj acc) = true ->
           loads_members fuel s acc = Some (v, r) -> json_wf v = true).
Proof.
  induction fuel as [|fuel [IHv [IHi IHm]]].
  - repeat split; intros; discriminate.
  - repeat split.
    + intros s v r H; cbn [loads_value] in H.
      destruct s as [|c t]; [discriminate|].
      destruct (c =? 34)%N.
      { destruct (loads_str t []) as [[x r']|]; inversion H; reflexivity. }
      destruct (c =? 123)%N.
      { destruct (skip_ws t) as [|d r']; [discriminate|].
        destruct (d =? 125)%N; [inversion H; reflexivity|].
        exact (IHm _ [] _ _ eq_refl H). }
      destruct (c =? 91)%N.
      { destruct (skip_ws t) as [|d r']; [discriminate|].
        destruct (d =? 93)%N; [inversion H; reflexivity|].
        exact (IHi _ [] _ _ eq_refl H). }
      destruct (c =? 110)%N; [exact (@expect_wf _ JNull _ _ _ eq_refl H)|].
      destruct (c =? 116)%N; [exact (@expect_wf _ (JBool true) _ _ _ eq_refl H)|].
      destruct (c =? 102)%N; [exact (@expect_wf _ (JBool false) _ _ _ eq_refl H)|].
      destruct (c =? 45)%N.
      { destruct (loads_nat t) as [[n r']|]; inversion H; reflexivity. }
      destruct (loads_nat (c :: t)) as [[n r']|]; inversion H; reflexivity.
    + intros s acc v r Wacc H; cbn [loads_items] in H.
      destruct (loads_value fuel s) as [[x r1]|] eqn:Hx; [|discriminate].
      pose proof (IHv _ _ _ Hx) as Wx.
      destruct (skip_ws r1) as [|c t]; [discriminate|].
      destruct (c =? 93)%N.
      { inversion H; subst; cbn [json_wf rev].
        rewrite forallb_app, forallb_reversed, Wacc; simpl; rewrite Wx.
        reflexivity. }
      destruct (c =? 44)%N; [|discriminate].
      apply (IHi _ (x :: acc) _ _) in H; [exact H|].
      simpl; rewrite Wx, Wacc; reflexivity.
    + intros s acc v r Wacc H; cbn [loads_members] in H.
      destruct s as [|q t]; [discriminate|].
      destruct (negb (q =? 34)%N); [discriminate|].
      destruct (loads_str t []) as [[k r0]|]; [|discriminate].
      destruct (skip_ws r0) as [|colon r1]; [discriminate|].
      destruct (negb (colon =? 58)%N); [discriminate|].
      destruct (loads_value fuel (skip_ws r1)) as [[x r2]|] eqn:Hx;
        [|discriminate].
      pose proof (IHv _ _ _ Hx) as Wx.
      destruct (skip_ws r2) as [|c t2]; [discriminate|].
      destruct (c =? 125)%N.
      { inversion H; subst; apply dict_set_wf; assumption. }
      destruct (c =? 44)%N; [|discriminate].
      apply (IHm _ (dict_set k x acc) _ _) in H; [exact H|].
      apply dict_set_wf; assumption.
Qed.

Lemma ref_loads_wf :
  forall s v, ref_loads s = Some v -> json_wf v = true.
Proof.
  intros s v H; unfold ref_loads in H.
  destruct (loads_value (2 * List.length s + 2) (skip_ws s)) as [[x r]|] eqn:E;
    [|discriminate].
  destruct (skip_ws r); inversion H; subst.
  exact (proj1 (loads_wf _) _ _ _ E).
Qed.

(** ** Well-formed values in the stores *)

Lemma filter_wf :
  forall (f : json -> bool) rs,
    forallb json_wf rs = true -> forallb json_wf (filter f rs) = true.
Proof.
  intros f; induction rs as [|r rs IH]; simpl; intros H; [reflexivity|].
  apply andb_true_iff in H; destruct H as [Hr H].
  destruct (f r); simpl; [rewrite Hr|]; auto.
Qed.

Lemma mark_read_wf :
  forall id r, json_wf r = true -> json_wf (mark_read id r) = true.
Proof.
  intros id r W; destruct r; try exact W.
  unfold mark_read; destruct (record_matches id (JObj members)); [|exact W].
  apply dict_set_wf; [exact W | reflexivity].
Qed.

Lemma map_mark_read_wf :
  forall id rs,
    forallb json_wf rs = true ->
    forallb json_wf (map (mark_read id) rs) = true.
Proof.
  intros id; induction rs as [|r rs IH]; simpl; intros H; [reflexivity|].
  apply andb_true_iff in H; destruct H as [Hr H].
  rewrite (mark_read_wf id r Hr), (IH H); reflexivity.
Qed.

(** ** Invariants of the two stores *)

Lemma dict_update_wf :
  forall b a,
    json_wf (JObj a) = true ->
    forallb (fun kv => json_wf (snd kv)) b = true ->
    json_wf (JObj (dict_update a b)) = true.
Proof.
  unfold dict_update.
  induction b as [|[k v] b IH]; intros a Wa Wb; [exact Wa|].
  cbn [forallb snd] in Wb; apply andb_true_iff in Wb.
  destruct Wb as [Wv Wb]; cbn [fold_left fst snd].
  apply IH; [|exact Wb].
  apply dict_set_wf; [exact Wa | exact Wv].
Qed.

Lemma notification_wf :
  forall seconds timestamp data,
    json_wf (JObj data) = true ->
    json_wf (notification_of seconds timestamp data) = true.
Proof.
  intros seconds timestamp data W; unfold notification_of.
  apply dict_update_wf; [reflexivity|].
  cbn [json_wf] in W; apply andb_true_iff in W; exact (proj2 W).
Qed.

Lemma filter_records :
  forall (f : json -> bool) rs,
    forallb is_record rs = true -> forallb is_record (filter f rs) = true.
Proof.
  intros f; induction rs as [|r rs IH]; simpl; intros H; [reflexivity|].
  apply andb_true_iff in H; destruct H as [Hr H].
  destruct (f r); simpl; [rewrite Hr|]; auto.
Qed.

Lemma run_store_call_keeps :
  forall (json_dumps : json -> pystr) (dump_error : json -> option exn)
         (json_loads : pystr -> option json),
    (forall v, json_wf v = true -> json_loads (json_dumps v) = Some v) ->
    forall c w rs,
      store_holds json_loads w rs ->
      forallb json_wf rs = true ->
      saves_wf c = true ->
      exists rs',
        store_holds json_loads
          (run_store_call json_dumps dump_error json_loads c w) rs'
        /\ forallb json_wf rs' = true.
Proof.
  intros json_dumps dump_error json_loads Hcodec c w rs Hs W Wc.
  pose proof (store_holds_records Hs) as Hrec.
  destruct c as [seconds timestamp data | id | id]; cbn [run_store_call].
  - rewrite (@save_notification_run json_dumps dump_error json_loads seconds
               timestamp data w rs Hs).
    destruct (dump_error
                (JArr (rs ++ [notification_of seconds timestamp data])));
      cbn [snd].
    { exists []; split; [apply store_holds_truncated | reflexivity]. }
    assert (W' : forallb json_wf
                   (rs ++ [notification_of seconds timestamp data]) = true).
    { rewrite forallb_app, W; cbn [forallb].
      rewrite (notification_wf seconds timestamp data Wc); reflexivity. }
    eexists; split; [|exact W'].
    apply store_holds_rewritten; [apply Hcodec; exact W'|].
    rewrite forallb_app, Hrec; cbn [forallb].
    rewrite notification_is_record; reflexivity.
  - rewrite (@mark_run json_dumps dump_error json_loads id w rs Hs).
    unfold after_rewrite.
    destruct (existsb (record_matches id) rs); [|exists rs; auto].
    destruct (dump_error (JArr (map (mark_read id) rs))); cbn [snd].
    { exists []; split; [apply store_holds_truncated | reflexivity]. }
    assert (W' : forallb json_wf (map (mark_read id) rs) = true)
      by (apply map_mark_read_wf; exact W).
    eexists; split; [|exact W'].
    apply store_holds_rewritten; [apply Hcodec; exact W'|].
    rewrite forallb_map_mark_read; exact Hrec.
  - rewrite (@delete_run json_dumps dump_error json_loads id w rs Hs).
    unfold after_rewrite.
    destruct (existsb (record_matches id) rs); [|exists rs; auto].
    destruct (dump_error
                (JArr (filter (fun r => negb (record_matches id r)) rs)));
      cbn [snd].
    { exists []; split; [apply store_holds_truncated | reflexivity]. }
    assert (W' : forallb json_wf
                   (filter (fun r => negb (record_matches id r)) rs) = true)
      by (apply filter_wf; exact W).
    eexists; split; [|exact W'].
    apply store_holds_rewritten; [apply Hcodec; exact W'|].
    apply filter_records; exact Hrec.
Qed.

(** X22. The store of records is an invariant of the three operations:
    with a codec that reads back what it writes for values with distinct
    keys, every sequence of [save_notification],
    [mark_notification_as_read] and [delete_notification] calls, from a
    store of records, a missing or an undecodable file counting as the
    empty one, leaves such a store again: what the notification file then
    lists are all dicts with an id. *)
Theorem store_calls_keep_records :
  forall (json_dumps : json -> pystr) (dump_error : json -> option exn)
         (json_loads : pystr -> option json)
         (calls : list store_call) (w : World) (rs : list json),
    (forall v, json_wf v = true -> json_loads (json_dumps v) = Some v) ->
    store_holds json_loads w rs ->
    forallb json_wf rs = true ->
    forallb saves_wf calls = true ->
    exists rs',
      store_holds json_loads
        (run_store_calls json_dumps dump_error json_loads calls w) rs'
      /\ forallb json_wf rs' = true
      /\ stored json_loads
           (run_store_calls json_dumps dump_error json_loads calls w)
         = rs'
      /\ forallb is_record rs' = true.
Proof.
  intros json_dumps dump_error json_loads calls w rs Hcodec.
  revert w rs; induction calls as [|c calls IH]; intros w rs Hs W Wc.
  - exists rs; split; [exact Hs|].
    split; [exact W|].
    split; [exact (stored_store Hs) | exact (store_holds_records Hs)].
  - cbn [forallb] in Wc; apply andb_true_iff in Wc; destruct Wc as [Wc Wcs].
    destruct (@run_store_call_keeps json_dumps dump_error json_loads Hcodec
                c w rs Hs W Wc) as [rs1 [Hs1 W1]].
    exact (IH _ _ Hs1 W1 Wcs).
Qed.

Lemma dict_get_wf :
  forall k d v,
    json_wf (JObj d) = true -> dict_get k d = Some v -> json_wf v = true.
Proof.
  intros k d v W; cbn [json_wf] in W; apply andb_true_iff in W.
  destruct W as [_ W]; induction d as [|[k0 v0] d IH]; simpl; intros H;
    [discriminate|].
  cbn [forallb snd] in W; apply andb_true_iff in W; destruct W as [W0 W].
  destruct (str_eqb k k0); [inversion H; subst; exact W0 | exact (IH W H)].
Qed.

Lemma remove_first_wf :
  forall name groups,
    forallb json_wf groups = true ->
    forallb json_wf (remove_first name groups) = true.
Proof.
  intros name; induction groups as [|g groups IH]; simpl; intros H;
    [reflexivity|].
  apply andb_true_iff in H; destruct H as [Hg H].
  destruct (eq_str g name); [exact H|].
  simpl; rewrite Hg, (IH H); reflexivity.
Qed.

Lemma run_call_in_step :
  forall (json_dumps : json -> pystr) (dump_error : json -> option exn)
         (json_loads : pystr -> option json),
    (forall v, json_wf v = true -> json_loads (json_dumps v) = Some v) ->
    forall c w,
      in_step json_loads w ->
      json_wf (self_config w) = true ->
      in_step json_loads (run_call json_dumps dump_error c w)
      /\ json_wf (self_config (run_call json_dumps dump_error c w)) = true.
Proof.
  intros json_dumps dump_error json_loads Hcodec c w Hstep W.
  assert (Hsame : forall w',
             config_file w' = config_file w ->
             self_config w' = self_config w ->
             in_step json_loads w' /\ json_wf (self_config w') = true).
  { intros w' Ef Ec; rewrite Ec; split; [|exact W].
    destruct Hstep as [[text [Hf Hd]] | Hf].
    - left; exists text; rewrite Ef, Ec; auto.
    - right; rewrite Ef; exact Hf. }
  assert (Hnew : forall w' config1,
             json_wf config1 = true ->
             self_config w' = config1 ->
             config_file w' = Some (Text (json_dumps config1))
             \/ config_file w' = Some (Unreadable JSONDecodeError) ->
             in_step json_loads w' /\ json_wf (self_config w') = true).
  { intros w' config1 W1 Ec Ef; rewrite Ec; split; [|exact W1].
    destruct Ef as [Ef | Ef]; [left | right; exact Ef].
    eexists; rewrite Ef, Ec; split; [reflexivity|].
    apply Hcodec; exact W1. }
  destruct c as [name | name]; cbn [run_call].
  - destruct (add_group_listener_config json_dumps dump_error name w)
      as [[Ef Ec] | [d [groups [Hc [Hg [Ec Ef]]]]]].
    + exact (Hsame _ Ef Ec).
    + apply (Hnew _ _) with (2 := Ec) (3 := Ef).
      rewrite Hc in W; apply dict_set_wf; [exact W|].
      pose proof (@dict_get_wf k_target_groups d _ W Hg) as Wg.
      cbn [json_wf] in *.
      rewrite forallb_app, Wg; reflexivity.
  - destruct (remove_group_listener_config json_dumps dump_error name w)
      as [[Ef Ec] | [d [groups [Hc [Hg [Ec Ef]]]]]].
    + exact (Hsame _ Ef Ec).
    + apply (Hnew _ _) with (2 := Ec) (3 := Ef).
      rewrite Hc in W; apply dict_set_wf; [exact W|].
      pose proof (@dict_get_wf k_target_groups d _ W Hg) as Wg.
      cbn [json_wf] in *.
      apply remove_first_wf; exact Wg.
Qed.

(** X23. The config file is never a stale one: with a codec that reads
    back what it writes for values with distinct keys, once the file
    decodes to [monitor.config], or is what a [json.dump] that raised has
    left, then after every sequence of [add_group_listener] and
    [remove_group_listener] calls, those that raise included, it again
    either decodes to [monitor.config] as it then is or is what a
    [json.dump] that raised has left. *)
Theorem config_file_stays_in_step :
  forall (json_dumps : json -> pystr) (dump_error : json -> option exn)
         (json_loads : pystr -> option json)
         (calls : list group_call) (w : World),
    (forall v, json_wf v = true -> json_loads (json_dumps v) = Some v) ->
    in_step json_loads w ->
    json_wf (self_config w) = true ->
    in_step json_loads (run_calls json_dumps dump_error calls w)
    /\ json_wf (self_config (run_calls json_dumps dump_error calls w)) = true.
Proof.
  intros json_dumps dump_error json_loads calls w Hcodec.
  revert w; induction calls as [|c calls IH]; intros w Hp W.
  - split; [exact Hp | exact W].
  - destruct (@run_call_in_step json_dumps dump_error json_loads Hcodec c w
                Hp W) as [Hp1 W1].
    exact (IH _ Hp1 W1).
Qed.

(** ** The extractor on well-formed answers *)

(** C1 on the code. The model answers [full_reply], a JSON object with the
    six fields and the string "Yes" for [is_urgent].  The reply decodes,
    and lines 159-178 would turn it into [full_record], the object with
    [is_urgent] coerced to [True]; but line 156 raises before them, and
    what [extract_notification_info] returns is the default record, whose
    title is "未知通知". *)
Theorem extract_full_json_reply_dropped :
  ref_loads full_reply = Some (JObj full_object)
  /\ forallb (fun k => dict_has k full_object) info_keys = true
  /\ (let? info := decode_response ref_loads (JStr full_reply) in
      complete_fields ascii_lower (default_info notice) info)
     = Ok (JObj full_record)
  /\ fst (extract_notification_info ref_loads ascii_lower
            (api_says (JStr full_reply)) notice fresh_world)
     = Ok (JObj (default_info notice))
  /\ JObj (default_info notice) <> JObj full_record.
Proof.
  split; [vm_compute; reflexivity|].
  split; [vm_compute; reflexivity|].
  split; [vm_compute; reflexivity|].
  split; [vm_compute; reflexivity|].
  intros H; vm_compute in H; discriminate.
Qed.

(** C4 on the code. The model answers [prose_reply], an object between two
    sentences.  The reply does not decode as a whole, the text from its
    first opening to its last closing brace does, and lines 159-178 would
    return that object completed from the defaults, [prose_record]; but
    line 156 raises before them, and what [extract_notification_info]
    returns is the default record. *)
Theorem extract_embedded_object_dropped :
  ref_loads prose_reply = None
  /\ ref_loads (slice prose_reply (find prose_reply s_lbrace)
                      (rfind prose_reply s_rbrace + 1))
     = Some (JObj [(k_title, JStr (str "Fire drill"));
                   (k_time, JStr (str "10:00"))])
  /\ (let? info := decode_response ref_loads (JStr prose_reply) in
      complete_fields ascii_lower (default_info notice) info)
     = Ok (JObj prose_record)
  /\ fst (extract_notification_info ref_loads ascii_lower
            (api_says (JStr prose_reply)) notice fresh_world)
     = Ok (JObj (default_info notice))
  /\ JObj (default_info notice) <> JObj prose_record.
Proof.
  split; [vm_compute; reflexivity|].
  split; [vm_compute; reflexivity|].
  split; [vm_compute; reflexivity|].
  split; [vm_compute; reflexivity|].
  intros H; vm_compute in H; discriminate.
Qed.

(** C3 on the code. The model answers [lone_surrogate], the string that
    the decoder of the reply's body makes of the escape [\ud800].  The
    answer decodes neither as a whole nor between braces, of which it has
    none; line 156 raises as on every answer, and the handler, which
    prints the answer before it returns the default record, raises
    [UnicodeEncodeError] in that [print]: the caller gets the exception
    and not the record.  On [broken_reply], which is as unparseable and
    which the standard output can encode, the same call returns the
    default record. *)
Theorem extract_unprintable_reply_raises :
  wholly_unparseable ref_loads lone_surrogate
  /\ extract_notification_info ref_loads ascii_lower
       (api_says (JStr lone_surrogate)) notice fresh_world
     = (Raise UnicodeEncodeError,
        after_post fresh_world (extract_prompt notice))
  /\ wholly_unparseable ref_loads broken_reply
  /\ extract_notification_info ref_loads ascii_lower
       (api_says (JStr broken_reply)) notice fresh_world
     = (Ok (JObj [(k_title, JStr s_unknown);
                  (k_time, JStr []);
                  (k_location, JStr []);
                  (k_content, JStr (firstn 200 notice));
                  (k_action, JStr []);
                  (k_is_urgent, JBool false)]),
        after_post fresh_world (extract_prompt notice)).
Proof.
  split.
  { split; [vm_compute; reflexivity|].
    intros [H _]; vm_compute in H; contradiction H; reflexivity. }
  split; [vm_compute; reflexivity|].
  split.
  { split; [vm_compute; reflexivity | intros _; vm_compute; reflexivity]. }
  vm_compute; reflexivity.
Qed.

(** ** Instances *)

Lemma is_notification_two_stage_witness :
  is_notification api_down small_talk fresh_world = (Ok false, fresh_world)
  /\ (((exists items kw,
           keywords_of fresh_world = Ok items /\ In (JStr kw) items
           /\ occurs kw notice)
       \/ (20 < List.length notice)%nat)
      /\ exists reply,
           analyze_with_model (api_says (JStr yes_reply))
             (classify_prompt notice) fresh_world
           = (Ok (JStr reply),
              snd (is_notification (api_says (JStr yes_reply)) notice
                     fresh_world))
           /\ occurs s_yes reply).
Proof.
  split.
  - apply (proj1 (is_notification_two_stage api_down small_talk fresh_world)
             default_keywords).
    + reflexivity.
    + repeat constructor; intros H; apply contains_occurs in H;
        vm_compute in H; discriminate.
    + vm_compute; lia.
  - apply (proj2 (is_notification_two_stage (api_says (JStr yes_reply))
                    notice fresh_world)).
    vm_compute; reflexivity.
Defined.

Lemma store_world_holds : store_holds ref_loads store_world sample_notes.
Proof.
  apply store_records with (text := ref_dumps (JArr sample_notes));
    vm_compute; reflexivity.
Qed.

Lemma store_world_lacks :
  forall r, In r (stored ref_loads store_world) ->
            record_matches id_absent r = false.
Proof.
  rewrite (stored_store store_world_holds).
  intros r [<- | [<- | [<- | []]]]; reflexivity.
Qed.

Lemma delete_notification_removes_id_witness :
  ((forall r,
       In r (stored ref_loads
               (snd (delete_notification ref_dumps ref_dump_error ref_loads
                       id_twice store_world))) ->
       record_matches id_twice r = false)
   /\ stored ref_loads
        (snd (delete_notification ref_dumps ref_dump_error ref_loads
                id_twice store_world))
      = filter (fun r => negb (record_matches id_twice r))
          (stored ref_loads store_world))
  /\ (delete_notification ref_dumps ref_dump_error ref_loads id_absent
        store_world
      = (Ok false, store_world)
      /\ stored ref_loads
           (snd (delete_notification ref_dumps ref_dump_error ref_loads
                   id_absent store_world))
         = stored ref_loads store_world).
Proof.
  split.
  - destruct (proj1 (delete_notification_removes_id ref_dumps ref_dump_error
                       ref_loads id_twice store_world))
      as [Hclean Hlist].
    + vm_compute; reflexivity.
    + vm_compute; reflexivity.
    + split; [exact Hclean | apply Hlist; vm_compute; reflexivity].
  - apply (proj2 (delete_notification_removes_id ref_dumps ref_dump_error
                    ref_loads id_absent store_world)).
    exact store_world_lacks.
Defined.

(** C5 as stated fails on a notification file with an item that has no
    id: [n['id']] raises on that item, the handler returns [False], and
    the record with the id is still listed. *)
Lemma delete_beside_item_without_id :
  stored ref_loads torn_store_world = torn_notes
  /\ delete_notification ref_dumps ref_dump_error ref_loads id_once
       torn_store_world
     = (Ok false, torn_store_world)
  /\ In (stored_note id_once (str "Payroll") false)
        (stored ref_loads
           (snd (delete_notification ref_dumps ref_dump_error ref_loads
                   id_once torn_store_world)))
  /\ record_matches id_once (stored_note id_once (str "Payroll") false)
     = true.
Proof.
  split; [vm_compute; reflexivity|].
  split; [vm_compute; reflexivity|].
  split; [vm_compute; right; left; reflexivity | reflexivity].
Qed.

Lemma surrogate_store_holds :
  store_holds ref_loads surrogate_store_world surrogate_notes.
Proof.
  apply store_records with (text := surrogate_notes_text);
    vm_compute; reflexivity.
Qed.

Lemma mark_read_unknown_id_witness :
  (mark_notification_as_read ref_dumps ref_dump_error ref_loads id_absent
     store_world
   = (Ok false, store_world)
   /\ stored ref_loads
        (snd (mark_notification_as_read ref_dumps ref_dump_error ref_loads
                id_absent store_world))
      = stored ref_loads store_world)
  /\ (fst (mark_notification_as_read ref_dumps ref_dump_error ref_loads
             id_once store_world)
      = Ok true
      <-> (exists r,
              In r (stored ref_loads store_world)
              /\ record_matches id_once r = true)
          /\ forallb is_record (stored ref_loads store_world) = true
          /\ ref_dump_error
               (JArr (map (mark_read id_once)
                        (stored ref_loads store_world)))
             = None).
Proof.
  split.
  - apply (proj1 (mark_read_unknown_id ref_dumps ref_dump_error ref_loads
                    id_absent store_world)).
    exact store_world_lacks.
  - exact (proj2 (mark_read_unknown_id ref_dumps ref_dump_error ref_loads
                    id_once store_world)).
Defined.

(** C6 as stated fails in two ways.  On a notification file with an item
    that has no id, the call returns [False] though a later record has the
    id.  And on a store of records of which one holds a lone surrogate,
    [json.dump] raises on the marked records: the call returns [False]
    though two records have the id, and the file is left truncated. *)
Lemma mark_returns_false_on_match :
  (mark_notification_as_read ref_dumps ref_dump_error ref_loads id_once
     torn_store_world
   = (Ok false, torn_store_world)
   /\ In (stored_note id_once (str "Payroll") false)
         (stored ref_loads torn_store_world)
   /\ record_matches id_once (stored_note id_once (str "Payroll") false)
      = true)
  /\ (stored ref_loads surrogate_store_world = surrogate_notes
      /\ forallb (record_matches id_twice) surrogate_notes = true
      /\ mark_notification_as_read ref_dumps ref_dump_error ref_loads
           id_twice surrogate_store_world
         = (Ok false, truncated surrogate_store_world)
      /\ stored ref_loads (truncated surrogate_store_world) = []).
Proof.
  split.
  - split; [vm_compute; reflexivity|].
    split; [vm_compute; right; left; reflexivity | reflexivity].
  - split; [vm_compute; reflexivity|].
    split; [reflexivity|].
    split; vm_compute; reflexivity.
Qed.

Lemma mark_read_marks_every_match_witness :
  mark_notification_as_read ref_dumps ref_dump_error ref_loads id_twice
    store_world
  = (Ok true,
     mkWorld (config_file store_world)
       (Some (Text
                (ref_dumps (JArr (map (mark_read id_twice) sample_notes)))))
       (self_config store_world) (active_listeners store_world)
       (EvWrite NOTIFICATIONS_FILE
          (ref_dumps (JArr (map (mark_read id_twice) sample_notes)))
        :: trace store_world))
  /\ map (mark_read id_twice) sample_notes
     = [stored_note id_twice (str "Fire drill") true;
        stored_note id_twice (str "Staff meeting") true;
        stored_note id_once (str "Payroll") false].
Proof.
  split.
  - apply (proj1 (@mark_read_marks_every_match ref_dumps ref_dump_error
                    ref_loads id_twice store_world sample_notes
                    store_world_holds eq_refl eq_refl)).
  - reflexivity.
Defined.

(** C9 as stated fails in two ways.  On a notification file whose first
    two items share the id and whose third has none, the loop raises on
    the third: the call returns [False], writes nothing, and both records
    are still listed unread.  And on a store of which one record holds a
    lone surrogate, both records have the id, [json.dump] raises on the
    marked records, the call returns [False], the file is left truncated
    and no record is listed any more, marked or not. *)
Lemma mark_without_rewrite :
  (stored ref_loads half_torn_world = half_torn_notes
   /\ mark_notification_as_read ref_dumps ref_dump_error ref_loads id_twice
        half_torn_world
      = (Ok false, half_torn_world)
   /\ In (stored_note id_twice (str "Fire drill") false)
         (stored ref_loads
            (snd (mark_notification_as_read ref_dumps ref_dump_error
                    ref_loads id_twice half_torn_world)))
   /\ In (stored_note id_twice (str "Staff meeting") false)
         (stored ref_loads
            (snd (mark_notification_as_read ref_dumps ref_dump_error
                    ref_loads id_twice half_torn_world)))
   /\ is_read (stored_note id_twice (str "Fire drill") false)
      = Some (JBool false)
   /\ is_read (stored_note id_twice (str "Staff meeting") false)
      = Some (JBool false))
  /\ (store_holds ref_loads surrogate_store_world surrogate_notes
      /\ forallb (record_matches id_twice) surrogate_notes = true
      /\ mark_notification_as_read ref_dumps ref_dump_error ref_loads
           id_twice surrogate_store_world
         = (Ok false,
            mkWorld (config_file surrogate_store_world)
              (Some (Unreadable JSONDecodeError))
              (self_config surrogate_store_world)
              (active_listeners surrogate_store_world)
              (EvTruncate NOTIFICATIONS_FILE
               :: trace surrogate_store_world))
      /\ stored ref_loads
           (snd (mark_notification_as_read ref_dumps ref_dump_error
                   ref_loads id_twice surrogate_store_world))
         = []).
Proof.
  split.
  - split; [vm_compute; reflexivity|].
    split; [vm_compute; reflexivity|].
    split; [vm_compute; left; reflexivity|].
    split; [vm_compute; right; left; reflexivity|].
    split; reflexivity.
  - split; [exact surrogate_store_holds|].
    split; [reflexivity|].
    split; vm_compute; reflexivity.
Qed.



(** C7 as stated fails on a configuration that lists a group twice: the
    first [add_group_listener] for that group returns [True], the second
    returns [False], and [target_groups] holds the name twice. *)
Lemma add_group_twice_keeps_duplicates :
  add_group_listener ref_dumps ref_dump_error group_a dup_world
  = (Ok true, dup_world_listening)
  /\ add_group_listener ref_dumps ref_dump_error group_a dup_world_listening
     = (Ok false, dup_world_listening)
  /\ target_groups_of dup_world_listening
     = Some [JStr group_a; JStr group_a]
  /\ occurrences group_a [JStr group_a; JStr group_a] = 2%nat.
Proof. repeat split. Qed.

Lemma add_group_twice_witness :
  add_group_listener ref_dumps ref_dump_error group_a
    (snd (add_group_listener ref_dumps ref_dump_error group_a fresh_world))
  = (Ok false, snd (add_group_listener ref_dumps ref_dump_error group_a fresh_world))
  /\ exists groups1,
       target_groups_of (snd (add_group_listener ref_dumps ref_dump_error group_a fresh_world))
       = Some groups1
       /\ occurrences group_a groups1 = 1%nat.
Proof.
  destruct (@add_group_twice ref_dumps ref_dump_error group_a fresh_world
              (snd (add_group_listener ref_dumps ref_dump_error group_a fresh_world)))
    as [Hsecond Hgroups].
  - vm_compute; reflexivity.
  - split; [exact Hsecond|].
    destruct (Hgroups [] eq_refl) as [groups1 [Hg Hocc]].
    exists groups1; split; [exact Hg | exact Hocc].
Defined.

Lemma target_groups_stay_distinct_witness :
  exists groups',
    target_groups_of
      (run_calls ref_dumps ref_dump_error
         [Add group_a; Add group_b; Add group_a; Remove group_b;
          Remove group_b; Add group_b]
         fresh_world)
    = Some groups'
    /\ NoDup groups'.
Proof.
  apply (@target_groups_stay_distinct ref_dumps ref_dump_error
           [Add group_a; Add group_b; Add group_a; Remove group_b;
            Remove group_b; Add group_b]
           fresh_world []).
  - reflexivity.
  - constructor.
Defined.

(** Two notifications saved within one second get the same id, and one
    call of [mark_notification_as_read] marks both. *)
Example same_second_same_id :
  let saved :=
    snd (save_notification ref_dumps ref_dump_error ref_loads 1730000000
           (str "2024-10-27 11:33:20") [(k_title, JStr (str "Staff meeting"))]
           (snd (save_notification ref_dumps ref_dump_error ref_loads 1730000000
                   (str "2024-10-27 11:33:20")
                   [(k_title, JStr (str "Fire drill"))] empty_world))) in
  stored ref_loads saved
  = [stored_note id_twice (str "Fire drill") false;
     stored_note id_twice (str "Staff meeting") false]
  /\ stored ref_loads
       (snd (mark_notification_as_read ref_dumps ref_dump_error ref_loads id_twice saved))
     = [stored_note id_twice (str "Fire drill") true;
        stored_note id_twice (str "Staff meeting") true].
Proof. vm_compute; split; reflexivity. Qed.

(** ** Instances for the rest of the class *)

Lemma analyze_with_model_outcomes_witness :
  fst (analyze_with_model api_down (extract_prompt notice) fresh_world)
  = Ok (JStr [])
  /\ fst (analyze_with_model api_refuses (extract_prompt notice) fresh_world)
     = Ok (JStr [])
  /\ fst (analyze_with_model (api_says (JStr yes_reply))
            (extract_prompt notice) fresh_world)
     = Ok (JStr yes_reply)
  /\ fst (analyze_with_model api_no_choice (extract_prompt notice)
            fresh_world)
     = Raise IndexError.
Proof.
  split.
  { apply (proj1 (proj2 (@analyze_with_model_outcomes api_down
                           (extract_prompt notice) fresh_world))).
    reflexivity. }
  split.
  { eapply (proj1 (proj2 (proj2 (@analyze_with_model_outcomes api_refuses
                                   (extract_prompt notice) fresh_world))));
      reflexivity. }
  split.
  { eapply (proj1 (proj2 (proj2 (proj2
              (@analyze_with_model_outcomes (api_says (JStr yes_reply))
                 (extract_prompt notice) fresh_world)))));
      reflexivity. }
  eapply (proj2 (proj2 (proj2 (proj2
            (@analyze_with_model_outcomes api_no_choice
               (extract_prompt notice) fresh_world)))));
    reflexivity.
Defined.


Lemma is_notification_without_model_witness :
  fst (is_notification api_down notice fresh_world) = Ok false.
Proof.
  apply (@is_notification_without_model api_down notice fresh_world
           (map JStr default_keywords) false).
  - reflexivity.
  - vm_compute; reflexivity.
  - reflexivity.
Defined.

Lemma test_model_api_outcomes_witness :
  fst (test_model_api (api_says (JStr s_api_ok)) fresh_world)
  = Ok (JObj [(k_success, JBool true);
              (k_model, JStr MODEL_NAME);
              (k_response, JStr s_api_ok);
              (k_status, JStr s_api_ok)],
        200%Z)
  /\ fst (test_model_api api_down fresh_world)
     = Ok (JObj [(k_success, JBool false);
                 (k_model, JStr MODEL_NAME);
                 (k_error, JStr s_no_response);
                 (k_status, JStr s_api_failed)],
           500%Z).
Proof.
  split.
  - eapply (proj1 (proj2 (@test_model_api_outcomes
                            (api_says (JStr s_api_ok)) fresh_world)));
      reflexivity.
  - apply (proj2 (proj2 (@test_model_api_outcomes api_down fresh_world))).
    left; reflexivity.
Defined.

Lemma complete_fields_on_dict_witness :
  exists d',
    complete_fields ascii_lower (default_info notice) (JObj full_object)
    = Ok (JObj d')
    /\ dict_get k_title d' = Some (JStr (str "Staff meeting"))
    /\ dict_get k_is_urgent d' = Some (JBool true).
Proof.
  destruct (@complete_fields_on_dict ascii_lower notice full_object)
    as [d' [Hrun [Hkeep Hurgent]]].
  exists d'; split; [exact Hrun|].
  split; [exact (Hkeep k_title eq_refl) | exact Hurgent].
Defined.

Lemma complete_fields_not_dict_witness :
  complete_fields ascii_lower (default_info notice)
    (JArr [JStr k_title; JStr k_is_urgent])
  = Raise TypeError.
Proof.
  apply (@complete_fields_not_dict ascii_lower notice
           (JArr [JStr k_title; JStr k_is_urgent])).
  intros d; discriminate.
Defined.

Lemma decode_response_braces_witness :
  decode_response ref_loads (JStr prose_reply)
  = py_json_loads ref_loads
      (JStr (123%N :: prose_between ++ [125%N]))
  /\ decode_response ref_loads (JStr small_talk) = Raise ValueError.
Proof.
  split.
  - apply (proj1 (@decode_response_braces ref_loads prose_reply
                    ltac:(vm_compute; reflexivity))
             prose_before prose_between prose_after).
    + vm_compute; reflexivity.
    + vm_compute; reflexivity.
    + vm_compute; reflexivity.
  - apply (proj2 (@decode_response_braces ref_loads small_talk
                    ltac:(vm_compute; reflexivity))).
    intros pre mid post H.
    apply (f_equal (has_char 123)) in H.
    unfold has_char in H; rewrite existsb_app in H; simpl in H.
    rewrite orb_true_r in H; discriminate.
Defined.

Lemma extract_after_empty_choices_witness :
  extract_notification_info ref_loads ascii_lower api_no_choice notice
    fresh_world
  = (Raise UnboundLocalError,
     after_post fresh_world (extract_prompt notice)).
Proof.
  apply (@extract_after_empty_choices ref_loads ascii_lower api_no_choice
           notice fresh_world [(k_choices, JArr [])]).
  - reflexivity.
  - reflexivity.
Defined.

Lemma save_notification_appends_witness :
  (save_notification ref_dumps ref_dump_error ref_loads 1730000120
     (str "2024-10-27 11:35:20") drill_data store_world
   = (Ok tt,
      mkWorld (config_file store_world)
        (Some (Text
                 (ref_dumps
                    (JArr (sample_notes
                           ++ [notification_of 1730000120
                                 (str "2024-10-27 11:35:20") drill_data])))))
        (self_config store_world) (active_listeners store_world)
        (EvWrite NOTIFICATIONS_FILE
           (ref_dumps
              (JArr (sample_notes
                     ++ [notification_of 1730000120
                           (str "2024-10-27 11:35:20") drill_data])))
         :: trace store_world))
   /\ stored ref_loads
        (snd (save_notification ref_dumps ref_dump_error ref_loads
                1730000120 (str "2024-10-27 11:35:20") drill_data
                store_world))
      = sample_notes
        ++ [notification_of 1730000120 (str "2024-10-27 11:35:20")
              drill_data])
  /\ (save_notification ref_dumps ref_dump_error ref_loads 1730000120
        (str "2024-10-27 11:35:20") surrogate_data store_world
      = (Raise UnicodeEncodeError,
         mkWorld (config_file store_world)
           (Some (Unreadable JSONDecodeError))
           (self_config store_world) (active_listeners store_world)
           (EvTruncate NOTIFICATIONS_FILE :: trace store_world))
      /\ stored ref_loads
           (snd (save_notification ref_dumps ref_dump_error ref_loads
                   1730000120 (str "2024-10-27 11:35:20") surrogate_data
                   store_world))
         = []).
Proof.
  split.
  - destruct (proj1 (@save_notification_appends ref_dumps ref_dump_error
                       ref_loads 1730000120 (str "2024-10-27 11:35:20")
                       drill_data store_world sample_notes
                       store_world_holds)
                ltac:(vm_compute; reflexivity)) as [Hrun Hstored].
    split; [exact Hrun|].
    apply Hstored; vm_compute; reflexivity.
  - apply (proj2 (@save_notification_appends ref_dumps ref_dump_error
                    ref_loads 1730000120 (str "2024-10-27 11:35:20")
                    surrogate_data store_world sample_notes
                    store_world_holds)).
    vm_compute; reflexivity.
Defined.

Lemma notification_fields_witness :
  is_record (notification_of 1730000120 (str "2024-10-27 11:35:20")
               drill_data) = true
  /\ exists record,
       notification_of 1730000120 (str "2024-10-27 11:35:20") drill_data
       = JObj record
       /\ dict_get k_is_read record = Some (JBool true)
       /\ dict_get k_id record = Some (JStr id_new).
Proof.
  destruct (notification_fields 1730000120 (str "2024-10-27 11:35:20")
              drill_data) as [Hid Hfields].
  split; [exact Hid|].
  destruct (Hfields eq_refl) as [record [Hrecord Hget]].
  exists record; split; [exact Hrecord|].
  split; [exact (Hget k_is_read) | exact (Hget k_id)].
Defined.

Lemma save_notification_not_a_list_witness :
  save_notification ref_dumps ref_dump_error ref_loads 1730000120
    (str "2024-10-27 11:35:20") drill_data object_store_world
  = (Raise AttributeError, object_store_world).
Proof.
  apply (@save_notification_not_a_list ref_dumps ref_dump_error ref_loads
           1730000120 (str "2024-10-27 11:35:20") drill_data
           object_store_world (ref_dumps (JObj [])) (JObj [])).
  - reflexivity.
  - vm_compute; reflexivity.
  - intros l; discriminate.
Defined.

Lemma mark_read_twice_same_store_witness :
  (fst (mark_notification_as_read ref_dumps ref_dump_error ref_loads id_twice
          (snd (mark_notification_as_read ref_dumps ref_dump_error ref_loads
                  id_twice store_world)))
   = fst (mark_notification_as_read ref_dumps ref_dump_error ref_loads
            id_twice store_world)
   /\ notifications_file
        (snd (mark_notification_as_read ref_dumps ref_dump_error ref_loads
                id_twice
                (snd (mark_notification_as_read ref_dumps ref_dump_error
                        ref_loads id_twice store_world))))
      = notifications_file
          (snd (mark_notification_as_read ref_dumps ref_dump_error ref_loads
                  id_twice store_world))
   /\ trace
        (snd (mark_notification_as_read ref_dumps ref_dump_error ref_loads
                id_twice
                (snd (mark_notification_as_read ref_dumps ref_dump_error
                        ref_loads id_twice store_world))))
      = EvWrite NOTIFICATIONS_FILE
          (ref_dumps (JArr (map (mark_read id_twice) sample_notes)))
        :: EvWrite NOTIFICATIONS_FILE
             (ref_dumps (JArr (map (mark_read id_twice) sample_notes)))
        :: trace store_world)
  /\ fst (mark_notification_as_read ref_dumps ref_dump_error ref_loads
            id_twice
            (snd (mark_notification_as_read ref_dumps ref_dump_error
                    ref_loads id_twice surrogate_store_world)))
     = fst (mark_notification_as_read ref_dumps ref_dump_error ref_loads
              id_twice surrogate_store_world).
Proof.
  split.
  - destruct (@mark_read_twice_same_store ref_dumps ref_dump_error ref_loads
                id_twice store_world sample_notes store_world_holds
                ltac:(vm_compute; reflexivity)) as [Hfst [Hfile Htrace]].
    split; [exact Hfst|].
    split; [exact Hfile | exact (Htrace eq_refl eq_refl)].
  - apply (@mark_read_twice_same_store ref_dumps ref_dump_error ref_loads
             id_twice surrogate_store_world surrogate_notes
             surrogate_store_holds).
    vm_compute; reflexivity.
Defined.

Lemma delete_then_unknown_witness :
  delete_notification ref_dumps ref_dump_error ref_loads id_twice
    (snd (delete_notification ref_dumps ref_dump_error ref_loads id_twice
            store_world))
  = (Ok false,
     snd (delete_notification ref_dumps ref_dump_error ref_loads id_twice
            store_world))
  /\ mark_notification_as_read ref_dumps ref_dump_error ref_loads id_twice
       (snd (delete_notification ref_dumps ref_dump_error ref_loads id_twice
               store_world))
     = (Ok false,
        snd (delete_notification ref_dumps ref_dump_error ref_loads id_twice
               store_world)).
Proof.
  apply (@delete_then_unknown ref_dumps ref_dump_error ref_loads id_twice
           store_world sample_notes store_world_holds).
  vm_compute; reflexivity.
Defined.

Lemma save_then_delete_witness :
  (let w1 := snd (save_notification ref_dumps ref_dump_error ref_loads
                    1730000120 (str "2024-10-27 11:35:20") drill_data
                    store_world) in
   let w2 := snd (delete_notification ref_dumps ref_dump_error ref_loads
                    (s_ntf ++ decimal 1730000120) w1) in
   fst (delete_notification ref_dumps ref_dump_error ref_loads
          (s_ntf ++ decimal 1730000120) w1) = Ok true
   /\ stored ref_loads w2 = sample_notes)
  /\
  (let w1 := snd (save_notification ref_dumps ref_dump_error ref_loads
                    1730000120 (str "2024-10-27 11:35:20") drill_data
                    store_world) in
   let w2 := snd (save_notification ref_dumps ref_dump_error ref_loads
                    1730000120 (str "2024-10-27 11:35:21")
                    [(k_title, JStr (str "Payroll"))] w1) in
   let w3 := snd (delete_notification ref_dumps ref_dump_error ref_loads
                    (s_ntf ++ decimal 1730000120) w2) in
   fst (delete_notification ref_dumps ref_dump_error ref_loads
          (s_ntf ++ decimal 1730000120) w2) = Ok true
   /\ stored ref_loads w3 = sample_notes).
Proof.
  apply (@save_then_delete ref_dumps ref_dump_error ref_loads 1730000120
           (str "2024-10-27 11:35:20") (str "2024-10-27 11:35:21")
           drill_data [(k_title, JStr (str "Payroll"))]
           store_world sample_notes store_world_holds).
  - vm_compute; reflexivity.
  - reflexivity.
  - reflexivity.
  - vm_compute; reflexivity.
  - vm_compute; reflexivity.
  - vm_compute; reflexivity.
  - vm_compute; reflexivity.
  - vm_compute; reflexivity.
  - vm_compute; reflexivity.
Defined.

Lemma malformed_record_blocks_witness :
  mark_notification_as_read ref_dumps ref_dump_error ref_loads id_once
    torn_store_world
  = (Ok false, torn_store_world)
  /\ delete_notification ref_dumps ref_dump_error ref_loads id_once
       torn_store_world
     = (Ok false, torn_store_world).
Proof.
  apply (@malformed_record_blocks ref_dumps ref_dump_error ref_loads id_once
           torn_store_world (ref_dumps (JArr torn_notes)) torn_notes).
  - reflexivity.
  - vm_compute; reflexivity.
  - reflexivity.
Defined.

Lemma add_then_remove_witness :
  exists w1,
    add_group_listener ref_dumps ref_dump_error group_a fresh_world
    = (Ok true, w1)
    /\ remove_group_listener ref_dumps ref_dump_error group_a w1
       = (Ok true,
          mkWorld (Some (Text (ref_dumps default_config))) None
            default_config []
            [EvWrite CONFIG_FILE (ref_dumps default_config);
             EvRemoveListenChat group_a;
             EvWrite CONFIG_FILE
               (ref_dumps
                  (JObj [(k_target_groups, JArr [JStr group_a]);
                         (k_keywords, JArr (map JStr default_keywords));
                         (k_enable_alert, JBool true)]));
             EvAddListenChat group_a]).
Proof.
  apply (@add_then_remove ref_dumps ref_dump_error group_a fresh_world
           [(k_target_groups, JArr []);
            (k_keywords, JArr (map JStr default_keywords));
            (k_enable_alert, JBool true)] []).
  - reflexivity.
  - reflexivity.
  - reflexivity.
  - reflexivity.
  - vm_compute; reflexivity.
  - vm_compute; reflexivity.
Defined.

Lemma remove_takes_one_occurrence_witness :
  exists r w1 groups1,
    remove_group_listener ref_dumps ref_dump_error group_a
      dup_world_listening
    = (r, w1)
    /\ target_groups_of w1 = Some groups1
    /\ occurrences group_a groups1 = 1%nat
    /\ (forall other,
           other <> group_a ->
           occurrences other groups1
           = occurrences other [JStr group_a; JStr group_a])
    /\ r = match ref_dump_error (self_config w1) with
           | None => Ok true
           | Some e => Raise e
           end
    /\ remove_group_listener ref_dumps ref_dump_error group_a w1
       = (Ok false, w1).
Proof.
  apply (@remove_takes_one_occurrence ref_dumps ref_dump_error group_a
           dup_world_listening [JStr group_a; JStr group_a]).
  - reflexivity.
  - reflexivity.
  - reflexivity.
Defined.

Lemma add_without_target_groups_witness :
  add_group_listener ref_dumps ref_dump_error group_a bare_world
  = (Raise KeyError,
     mkWorld (config_file bare_world) (notifications_file bare_world)
             (self_config bare_world)
             (dict_set group_a true (active_listeners bare_world))
             (EvAddListenChat group_a :: trace bare_world))
  /\ add_group_listener ref_dumps ref_dump_error group_a
       (mkWorld (config_file bare_world) (notifications_file bare_world)
                (self_config bare_world)
                (dict_set group_a true (active_listeners bare_world))
                (EvAddListenChat group_a :: trace bare_world))
     = (Ok false,
        mkWorld (config_file bare_world) (notifications_file bare_world)
                (self_config bare_world)
                (dict_set group_a true (active_listeners bare_world))
                (EvAddListenChat group_a :: trace bare_world)).
Proof.
  apply (@add_without_target_groups ref_dumps ref_dump_error group_a
           bare_world [(k_keywords, JArr [])]).
  - reflexivity.
  - reflexivity.
  - reflexivity.
Defined.

Lemma init_leaves_persisted_witness :
  init ref_dumps ref_dump_error ref_loads dup_world
  = (Ok tt,
     mkWorld (config_file dup_world) (notifications_file dup_world)
             dup_config [] (trace dup_world))
  /\ (init ref_dumps ref_dump_error ref_loads empty_world
      = (Ok tt,
         mkWorld (Some (Text (ref_dumps default_config)))
                 (notifications_file empty_world) default_config []
                 (EvWrite CONFIG_FILE (ref_dumps default_config)
                  :: trace empty_world))
      /\ persisted ref_loads
           (snd (init ref_dumps ref_dump_error ref_loads empty_world)))
  /\ init ref_dumps ref_dump_error ref_loads gbk_world
     = (Raise UnicodeDecodeError, gbk_world).
Proof.
  split.
  - apply (proj1 (@init_leaves_persisted ref_dumps ref_dump_error ref_loads
                    dup_world)).
    vm_compute; reflexivity.
  - split.
    + destruct (proj1 (proj2 (@init_leaves_persisted ref_dumps ref_dump_error
                                ref_loads empty_world))
                  (or_introl eq_refl) ltac:(vm_compute; reflexivity))
        as [Hrun Hkept].
      split; [exact Hrun | apply Hkept; vm_compute; reflexivity].
    + apply (proj2 (proj2 (@init_leaves_persisted ref_dumps ref_dump_error
                             ref_loads gbk_world))).
      * reflexivity.
      * discriminate.
      * discriminate.
Defined.



Lemma store_calls_keep_records_witness :
  exists rs',
    store_holds ref_loads
      (run_store_calls ref_dumps ref_dump_error ref_loads sample_calls
         store_world) rs'
    /\ forallb json_wf rs' = true
    /\ stored ref_loads
         (run_store_calls ref_dumps ref_dump_error ref_loads sample_calls
            store_world)
       = rs'
    /\ forallb is_record rs' = true.
Proof.
  apply (@store_calls_keep_records ref_dumps ref_dump_error ref_loads
           sample_calls store_world sample_notes ref_loads_dumps
           store_world_holds).
  - reflexivity.
  - reflexivity.
Defined.

Lemma config_file_stays_in_step_witness :
  in_step ref_loads
    (run_calls ref_dumps ref_dump_error
       [Add group_a; Add lone_surrogate; Add group_b; Remove group_a]
       fresh_world)
  /\ json_wf
       (self_config
          (run_calls ref_dumps ref_dump_error
             [Add group_a; Add lone_surrogate; Add group_b; Remove group_a]
             fresh_world))
     = true.
Proof.
  apply (@config_file_stays_in_step ref_dumps ref_dump_error ref_loads
           [Add group_a; Add lone_surrogate; Add group_b; Remove group_a]
           fresh_world ref_loads_dumps).
  - left; exists (ref_dumps default_config); split; [reflexivity|].
    vm_compute; reflexivity.
  - reflexivity.
Defined.
